(** * FaceMeshView: the overlay renderer and the session orchestrator

    A shallow embedding of [src/src/App.tsx] (the [FaceMeshView] component):
    the canvas renderer [onResults], the availability probe
    [checkMediaPipeAvailability] with its timers, the permission and webcam
    handlers, [startFaceMesh] with the handlers on the promise of [start()]
    and the per-frame callback [onFrame], [stopFaceMesh], the effect that
    starts the session, and [handleRetry]; and of the page component [App]
    of the same file, with its check of the CDN.

    The component's mutable surroundings (React state, refs, the console, the
    canvas context, the MediaPipe instances it constructs, timers) are one
    record [World]; component code is written in a state-and-exception monad
    [M] over it.  A function that reads state values reads them from the
    render whose closure it is, which is an argument [render]; the setters
    write to the world.  Calls into the external libraries take their outcome
    (returns or throws) as an argument, the way a test double would supply
    it, and the promise of [start()] settles in a step of its own. *)

From Stdlib Require Import List String ZArith QArith Bool Lia.
Import ListNotations.
Local Open Scope string_scope.
Local Open Scope list_scope.
Local Open Scope Z_scope.

(* ================================================================= *)
(** ** JavaScript values that are thrown or passed as errors *)

(** What a [throw], a rejected promise or the webcam's error callback can
    carry: an [Error], a [DOMException], a plain string, or some other
    object without a [message]. *)
Inductive JsThrown : Type :=
| ErrorObject (message : string)
| DOMException (name message : string)
| StringValue (s : string)
| OtherValue.

(** [error.message]; [None] is [undefined]. *)
Definition message_of (e : JsThrown) : option string :=
  match e with
  | ErrorObject m => Some m
  | DOMException _ m => Some m
  | StringValue _ => None
  | OtherValue => None
  end.

(** A string is truthy unless it is empty. *)
Definition truthy (s : string) : bool := negb (String.eqb s "").

(** [m || fallback] for an optional string [m]. *)
Definition or_else (m : option string) (fallback : string) : string :=
  match m with
  | Some s => if truthy s then s else fallback
  | None => fallback
  end.

(** [hay.includes(needle)]. *)
Fixpoint includes (needle hay : string) : bool :=
  if String.prefix needle hay then true
  else match hay with
       | EmptyString => false
       | String _ rest => includes needle rest
       end.

(** How a call into an external library ends. *)
Inductive Outcome : Type :=
| Returns
| Throws (e : JsThrown).

(** How the promise returned by the camera loop's [start()] settles. *)
Inductive Settlement : Type :=
| Fulfilled
| Rejected (e : JsThrown).

(* ================================================================= *)
(** ** The canvas and its 2D context *)

(** A landmark in normalized image space. *)
Record NormalizedLandmark : Type := { lm_x : Q; lm_y : Q; lm_z : Q }.

Definition Landmarks : Type := list NormalizedLandmark.

(** The per-frame result of the detector; [None] is a result whose
    [multiFaceLandmarks] is undefined. *)
Record Results : Type := { multiFaceLandmarks : option (list Landmarks) }.

(** The connection tables the MediaPipe script leaves on [window]. *)
Inductive Connections : Type :=
| FACEMESH_TESSELATION
| FACEMESH_RIGHT_EYE
| FACEMESH_LEFT_EYE
| FACEMESH_RIGHT_EYEBROW
| FACEMESH_LEFT_EYEBROW
| FACEMESH_FACE_OVAL
| FACEMESH_LIPS.

(** The style object handed to a drawing helper. *)
Record DrawingOptions : Type :=
  { color : string; lineWidth : Q; radius : option Q }.

(** The current transformation matrix [[a c e; b d f; 0 0 1]]. *)
Record Matrix : Type :=
  { m_a : Z; m_b : Z; m_c : Z; m_d : Z; m_e : Z; m_f : Z }.

Definition identity : Matrix :=
  {| m_a := 1; m_b := 0; m_c := 0; m_d := 1; m_e := 0; m_f := 0 |}.

Definition matrix_scale (sx sy : Z) (m : Matrix) : Matrix :=
  {| m_a := m_a m * sx; m_b := m_b m * sx;
     m_c := m_c m * sy; m_d := m_d m * sy;
     m_e := m_e m; m_f := m_f m |}.

Definition matrix_translate (tx ty : Z) (m : Matrix) : Matrix :=
  {| m_a := m_a m; m_b := m_b m; m_c := m_c m; m_d := m_d m;
     m_e := m_a m * tx + m_c m * ty + m_e m;
     m_f := m_b m * tx + m_d m * ty + m_f m |}.

(** Where the matrix sends a point of user space. *)
Definition matrix_apply (m : Matrix) (p : Z * Z) : Z * Z :=
  (m_a m * fst p + m_c m * snd p + m_e m,
   m_b m * fst p + m_d m * snd p + m_f m).

(** A call made on the context, or a drawing helper invoked with it. *)
Inductive CanvasCall : Type :=
| CSave
| CClearRect (x y w h : Z)
| CScale (sx sy : Z)
| CTranslate (tx ty : Z)
| CRestore
| CDrawConnectors (landmarks : Landmarks) (connections : Connections)
                  (style : DrawingOptions)
| CDrawLandmarks (landmarks : Landmarks) (style : DrawingOptions).

(** The 2D context: the transform in force, the stack [save] pushes on, and
    the calls received so far, oldest first. *)
Record Context2D : Type :=
  { transform : Matrix; saved : list Matrix; calls : list CanvasCall }.

Record Canvas : Type :=
  { width : Z; height : Z; context2d : option Context2D }.

(** [canvas.getContext('2d')]; [None] is [null]. *)
Definition getContext (canvas : Canvas) : option Context2D := context2d canvas.

Definition record_call (c : CanvasCall) (ctx : Context2D) : Context2D :=
  {| transform := transform ctx; saved := saved ctx;
     calls := calls ctx ++ [c] |}.

Definition ctx_save (ctx : Context2D) : Context2D :=
  {| transform := transform ctx; saved := transform ctx :: saved ctx;
     calls := calls ctx ++ [CSave] |}.

(** [restore] pops the saved transform; on an empty stack it changes
    nothing. *)
Definition ctx_restore (ctx : Context2D) : Context2D :=
  match saved ctx with
  | [] => record_call CRestore ctx
  | m :: rest =>
      {| transform := m; saved := rest; calls := calls ctx ++ [CRestore] |}
  end.

Definition ctx_clearRect (x y w h : Z) (ctx : Context2D) : Context2D :=
  record_call (CClearRect x y w h) ctx.

Definition ctx_scale (sx sy : Z) (ctx : Context2D) : Context2D :=
  {| transform := matrix_scale sx sy (transform ctx); saved := saved ctx;
     calls := calls ctx ++ [CScale sx sy] |}.

Definition ctx_translate (tx ty : Z) (ctx : Context2D) : Context2D :=
  {| transform := matrix_translate tx ty (transform ctx); saved := saved ctx;
     calls := calls ctx ++ [CTranslate tx ty] |}.

(** [window.drawConnectors] and [window.drawLandmarks] belong to the
    MediaPipe drawing script.  An invocation is recorded with its arguments;
    the helpers bracket their own strokes in save/restore, so they hand the
    context back with the transform and the stack they found. *)
Definition drawConnectors (ctx : Context2D) (landmarks : Landmarks)
    (connections : Connections) (style : DrawingOptions) : Context2D :=
  record_call (CDrawConnectors landmarks connections style) ctx.

Definition drawLandmarks (ctx : Context2D) (landmarks : Landmarks)
    (style : DrawingOptions) : Context2D :=
  record_call (CDrawLandmarks landmarks style) ctx.

(* ================================================================= *)
(** ** The component's world *)

(** The six [useState] values of [FaceMeshView]. *)
Record Hooks : Type :=
  { showPermissionRequest : bool;
    isLoading : bool;
    cameraReady : bool;
    lastError : option string;
    isRunning : bool;
    cdnAvailable : bool }.

(** The values of the first render. *)
Definition initial_hooks : Hooks :=
  {| showPermissionRequest := true; isLoading := false; cameraReady := false;
     lastError := None; isRunning := false; cdnAvailable := true |}.

(** The webcam component behind [webcamRef]; [video] is its video element,
    named by a number. *)
Record Webcam : Type := { video : option nat }.

(** Which of the MediaPipe globals are defined on [window]. *)
Record Window : Type :=
  { win_FaceMesh : bool;
    win_Camera : bool;
    win_drawConnectors : bool;
    win_drawLandmarks : bool }.

Record FaceMeshOptions : Type :=
  { maxNumFaces : Z;
    refineLandmarks : bool;
    minDetectionConfidence : Q;
    minTrackingConfidence : Q }.

(** A detector made by [new window.FaceMesh(...)]. *)
Record FaceMeshInstance : Type :=
  { fm_options : option FaceMeshOptions;
    fm_listener : bool;
    fm_closed : bool }.

(** A camera loop made by [new window.Camera(video, ...)].  It is [Active]
    from the moment the promise of its [start()] is fulfilled until a
    [stop()] on it returns. *)
Inductive LoopStatus : Type := Constructed | Starting | Active | Failed | Stopped.

Record CameraLoop : Type :=
  { loop_video : nat; loop_width : Z; loop_height : Z; loop_status : LoopStatus }.

Inductive ConsoleEntry : Type :=
| ConsoleLog (text : string)
| ConsoleError (text : string) (detail : JsThrown).

(** The callbacks the component hands to [setInterval] and [setTimeout].
    The retry callback calls the [startFaceMesh] of the render in which
    Retry was clicked, so it carries that render's state values. *)
Inductive TimerCallback : Type :=
| PollAvailability
| ReloadScriptsIfUnavailable
| RetryStart (render : Hooks).

(** A pending [setInterval] ([repeats]) or [setTimeout]. *)
Record Timer : Type :=
  { timer_id : nat; delay_ms : Z; repeats : bool; callback : TimerCallback }.

Record ScriptElement : Type := { src : string; crossOrigin : string }.

Record World : Type :=
  { hooks : Hooks;
    webcamRef : option Webcam;
    canvasRef : option Canvas;
    faceMeshRef : option nat;
    cameraRef : option nat;
    window : Window;
    console : list ConsoleEntry;
    detectors : list FaceMeshInstance;
    loops : list CameraLoop;
    timers : list Timer;
    next_timer : nat;
    head : list ScriptElement }.

(* ================================================================= *)
(** ** The monad of component code *)

(** How a piece of JavaScript ends: with a value, or with a thrown one. *)
Inductive Completion (A : Type) : Type :=
| Normal (value : A)
| Abrupt (thrown : JsThrown).

Arguments Normal {A} value.
Arguments Abrupt {A} thrown.

(** State changes made before a [throw] stay made. *)
Definition M (A : Type) : Type := World -> World * Completion A.

Definition ret {A : Type} (a : A) : M A := fun w => (w, Normal a).

Definition bind {A B : Type} (c : M A) (k : A -> M B) : M B :=
  fun w =>
    match c w with
    | (w', Normal a) => k a w'
    | (w', Abrupt e) => (w', Abrupt e)
    end.

Definition throw {A : Type} (e : JsThrown) : M A := fun w => (w, Abrupt e).

(** [try { body } catch (error) { handler }]. *)
Definition try_catch {A : Type} (body : M A) (handler : JsThrown -> M A) : M A :=
  fun w =>
    match body w with
    | (w', Normal a) => (w', Normal a)
    | (w', Abrupt e) => handler e w'
    end.

Declare Scope js_scope.
Delimit Scope js_scope with js.
Notation "x <- c1 ;; c2" := (bind c1 (fun x => c2))
  (at level 61, c1 at next level, right associativity) : js_scope.
Notation "c1 ;; c2" := (bind c1 (fun _ => c2))
  (at level 61, right associativity) : js_scope.
Local Open Scope js_scope.

Definition when (b : bool) (c : M unit) : M unit := if b then c else ret tt.

(** A change of the world that cannot throw. *)
Definition modify (f : World -> World) : M unit := fun w => (f w, Normal tt).

Definition read {A : Type} (f : World -> A) : M A := fun w => (w, Normal (f w)).

(** A call into a library: it throws what the outcome says, or returns
    after its effect. *)
Definition external (o : Outcome) (effect : World -> World) : M unit :=
  match o with
  | Returns => modify effect
  | Throws e => throw e
  end.

(** *** Field updates *)

Definition with_hooks (f : Hooks -> Hooks) (w : World) : World :=
  {| hooks := f (hooks w); webcamRef := webcamRef w; canvasRef := canvasRef w;
     faceMeshRef := faceMeshRef w; cameraRef := cameraRef w;
     window := window w; console := console w; detectors := detectors w;
     loops := loops w; timers := timers w; next_timer := next_timer w;
     head := head w |}.

Definition with_canvasRef (c : option Canvas) (w : World) : World :=
  {| hooks := hooks w; webcamRef := webcamRef w; canvasRef := c;
     faceMeshRef := faceMeshRef w; cameraRef := cameraRef w;
     window := window w; console := console w; detectors := detectors w;
     loops := loops w; timers := timers w; next_timer := next_timer w;
     head := head w |}.

Definition with_webcamRef (r : option Webcam) (w : World) : World :=
  {| hooks := hooks w; webcamRef := r; canvasRef := canvasRef w;
     faceMeshRef := faceMeshRef w; cameraRef := cameraRef w;
     window := window w; console := console w; detectors := detectors w;
     loops := loops w; timers := timers w; next_timer := next_timer w;
     head := head w |}.

Definition with_window (win : Window) (w : World) : World :=
  {| hooks := hooks w; webcamRef := webcamRef w; canvasRef := canvasRef w;
     faceMeshRef := faceMeshRef w; cameraRef := cameraRef w;
     window := win; console := console w; detectors := detectors w;
     loops := loops w; timers := timers w; next_timer := next_timer w;
     head := head w |}.

Definition with_faceMeshRef (r : option nat) (w : World) : World :=
  {| hooks := hooks w; webcamRef := webcamRef w; canvasRef := canvasRef w;
     faceMeshRef := r; cameraRef := cameraRef w;
     window := window w; console := console w; detectors := detectors w;
     loops := loops w; timers := timers w; next_timer := next_timer w;
     head := head w |}.

Definition with_cameraRef (r : option nat) (w : World) : World :=
  {| hooks := hooks w; webcamRef := webcamRef w; canvasRef := canvasRef w;
     faceMeshRef := faceMeshRef w; cameraRef := r;
     window := window w; console := console w; detectors := detectors w;
     loops := loops w; timers := timers w; next_timer := next_timer w;
     head := head w |}.

Definition with_console (f : list ConsoleEntry -> list ConsoleEntry)
    (w : World) : World :=
  {| hooks := hooks w; webcamRef := webcamRef w; canvasRef := canvasRef w;
     faceMeshRef := faceMeshRef w; cameraRef := cameraRef w;
     window := window w; console := f (console w); detectors := detectors w;
     loops := loops w; timers := timers w; next_timer := next_timer w;
     head := head w |}.

Definition with_detectors (f : list FaceMeshInstance -> list FaceMeshInstance)
    (w : World) : World :=
  {| hooks := hooks w; webcamRef := webcamRef w; canvasRef := canvasRef w;
     faceMeshRef := faceMeshRef w; cameraRef := cameraRef w;
     window := window w; console := console w; detectors := f (detectors w);
     loops := loops w; timers := timers w; next_timer := next_timer w;
     head := head w |}.

Definition with_loops (f : list CameraLoop -> list CameraLoop)
    (w : World) : World :=
  {| hooks := hooks w; webcamRef := webcamRef w; canvasRef := canvasRef w;
     faceMeshRef := faceMeshRef w; cameraRef := cameraRef w;
     window := window w; console := console w; detectors := detectors w;
     loops := f (loops w); timers := timers w; next_timer := next_timer w;
     head := head w |}.

Definition with_timers (f : list Timer -> list Timer) (n : nat)
    (w : World) : World :=
  {| hooks := hooks w; webcamRef := webcamRef w; canvasRef := canvasRef w;
     faceMeshRef := faceMeshRef w; cameraRef := cameraRef w;
     window := window w; console := console w; detectors := detectors w;
     loops := loops w; timers := f (timers w); next_timer := n;
     head := head w |}.

Definition with_head (f : list ScriptElement -> list ScriptElement)
    (w : World) : World :=
  {| hooks := hooks w; webcamRef := webcamRef w; canvasRef := canvasRef w;
     faceMeshRef := faceMeshRef w; cameraRef := cameraRef w;
     window := window w; console := console w; detectors := detectors w;
     loops := loops w; timers := timers w; next_timer := next_timer w;
     head := f (head w) |}.

(** Replace the element at a position of a list; a position past the end
    changes nothing. *)
Fixpoint update_at {A : Type} (n : nat) (f : A -> A) (l : list A)
    {struct l} : list A :=
  match l, n with
  | [], _ => []
  | a :: rest, O => f a :: rest
  | a :: rest, S n' => a :: update_at n' f rest
  end.

(** *** The console and the state setters *)

Definition console_log (text : string) : M unit :=
  modify (with_console (fun c => c ++ [ConsoleLog text])).

Definition console_error (text : string) (detail : JsThrown) : M unit :=
  modify (with_console (fun c => c ++ [ConsoleError text detail])).

Definition setShowPermissionRequest (b : bool) : M unit :=
  modify (with_hooks (fun h =>
    {| showPermissionRequest := b; isLoading := isLoading h;
       cameraReady := cameraReady h; lastError := lastError h;
       isRunning := isRunning h; cdnAvailable := cdnAvailable h |})).

Definition setIsLoading (b : bool) : M unit :=
  modify (with_hooks (fun h =>
    {| showPermissionRequest := showPermissionRequest h; isLoading := b;
       cameraReady := cameraReady h; lastError := lastError h;
       isRunning := isRunning h; cdnAvailable := cdnAvailable h |})).

Definition setCameraReady (b : bool) : M unit :=
  modify (with_hooks (fun h =>
    {| showPermissionRequest := showPermissionRequest h;
       isLoading := isLoading h; cameraReady := b; lastError := lastError h;
       isRunning := isRunning h; cdnAvailable := cdnAvailable h |})).

Definition setLastError (e : option string) : M unit :=
  modify (with_hooks (fun h =>
    {| showPermissionRequest := showPermissionRequest h;
       isLoading := isLoading h; cameraReady := cameraReady h; lastError := e;
       isRunning := isRunning h; cdnAvailable := cdnAvailable h |})).

Definition setIsRunning (b : bool) : M unit :=
  modify (with_hooks (fun h =>
    {| showPermissionRequest := showPermissionRequest h;
       isLoading := isLoading h; cameraReady := cameraReady h;
       lastError := lastError h; isRunning := b;
       cdnAvailable := cdnAvailable h |})).

Definition setCdnAvailable (b : bool) : M unit :=
  modify (with_hooks (fun h =>
    {| showPermissionRequest := showPermissionRequest h;
       isLoading := isLoading h; cameraReady := cameraReady h;
       lastError := lastError h; isRunning := isRunning h;
       cdnAvailable := b |})).

(* ================================================================= *)
(** ** The availability probe (the first effect of [FaceMeshView]) *)

(** [typeof window.X !== 'undefined'] for the three globals, stored in
    [cdnAvailable] and returned. *)
Definition checkMediaPipeAvailability : M bool :=
  win <- read window ;;
  let isAvailable :=
    win_FaceMesh win && win_Camera win && win_drawConnectors win in
  setCdnAvailable isAvailable ;;
  ret isAvailable.

Definition script_for (lib : string) : ScriptElement :=
  {| src := ("https://cdn.jsdelivr.net/npm/@mediapipe/" ++ lib ++ "/" ++ lib
             ++ ".js")%string;
     crossOrigin := "anonymous" |}.

(** The body of the 3000 ms timeout. *)
Definition reloadScriptsIfUnavailable : M unit :=
  isAvailable <- checkMediaPipeAvailability ;;
  when (negb isAvailable)
    (console_log "MediaPipe not available after timeout, reloading scripts" ;;
     modify (with_head (fun h =>
       h ++ map script_for ["camera_utils"; "drawing_utils"; "face_mesh"]))).

Definition add_timer (cb : TimerCallback) (ms : Z) (again : bool) : M nat :=
  fun w =>
    let id := next_timer w in
    (with_timers
       (fun ts => ts ++ [{| timer_id := id; delay_ms := ms;
                            repeats := again; callback := cb |}])
       (S id) w,
     Normal id).

Definition setInterval (cb : TimerCallback) (ms : Z) : M nat :=
  add_timer cb ms true.

Definition setTimeout (cb : TimerCallback) (ms : Z) : M nat :=
  add_timer cb ms false.

Definition clear_timer (id : nat) : M unit :=
  fun w =>
    (with_timers (filter (fun t => negb (Nat.eqb (timer_id t) id)))
       (next_timer w) w,
     Normal tt).

(** The effect run once after the first render; it returns the two timer
    ids its cleanup needs. *)
Definition availabilityEffect : M (nat * nat) :=
  checkMediaPipeAvailability ;;
  intervalId <- setInterval PollAvailability 1000 ;;
  timeoutId <- setTimeout ReloadScriptsIfUnavailable 3000 ;;
  ret (intervalId, timeoutId).

Definition availabilityCleanup (ids : nat * nat) : M unit :=
  clear_timer (fst ids) ;;
  clear_timer (snd ids).

(* ================================================================= *)
(** ** Permission and webcam handlers *)

Definition handleRequestCameraAccess : M unit :=
  setShowPermissionRequest false ;;
  setIsLoading true.

Definition handleWebcamLoad : M unit :=
  console_log "Webcam loaded" ;;
  setCameraReady true ;;
  setIsLoading false.

(** The [errorMessage] of [handleWebcamError]. *)
Definition errorMessage_of (error : JsThrown) : string :=
  match error with
  | DOMException _ m => m
  | StringValue s => s
  | _ => "Error accessing camera"
  end.

Definition handleWebcamError (error : JsThrown) : M unit :=
  console_error "Webcam error:" error ;;
  let errorMessage := errorMessage_of error in
  when (includes "Permission" errorMessage || includes "permission" errorMessage)
    (setShowPermissionRequest true) ;;
  setLastError (Some errorMessage) ;;
  setIsLoading false.

(* ================================================================= *)
(** ** The overlay renderer *)

(** The body of the [for ... of] loop: one face. *)
Definition draw_face (ctx : Context2D) (landmarks : Landmarks) : Context2D :=
  let ctx := drawConnectors ctx landmarks FACEMESH_TESSELATION
    {| color := "rgba(255, 255, 255, 0.2)"; lineWidth := 0.8; radius := None |} in
  let ctx := drawConnectors ctx landmarks FACEMESH_RIGHT_EYE
    {| color := "rgba(255, 255, 255, 0.8)"; lineWidth := 1.5; radius := None |} in
  let ctx := drawConnectors ctx landmarks FACEMESH_LEFT_EYE
    {| color := "rgba(255, 255, 255, 0.8)"; lineWidth := 1.5; radius := None |} in
  let ctx := drawConnectors ctx landmarks FACEMESH_RIGHT_EYEBROW
    {| color := "rgba(255, 255, 255, 0.8)"; lineWidth := 1.5; radius := None |} in
  let ctx := drawConnectors ctx landmarks FACEMESH_LEFT_EYEBROW
    {| color := "rgba(255, 255, 255, 0.8)"; lineWidth := 1.5; radius := None |} in
  let ctx := drawConnectors ctx landmarks FACEMESH_FACE_OVAL
    {| color := "rgba(255, 255, 255, 0.8)"; lineWidth := 1.5; radius := None |} in
  let ctx := drawConnectors ctx landmarks FACEMESH_LIPS
    {| color := "rgba(255, 255, 255, 0.8)"; lineWidth := 1.5; radius := None |} in
  drawLandmarks ctx landmarks
    {| color := "rgba(255, 255, 255, 0.6)"; lineWidth := 0.8;
       radius := Some 1.2%Q |}.

(** [onResults] from [ctx.save()] to [ctx.restore()]. *)
Definition drawOverlay (canvas : Canvas) (ctx : Context2D)
    (results : Results) : Context2D :=
  let ctx := ctx_save ctx in
  let ctx := ctx_clearRect 0 0 (width canvas) (height canvas) ctx in
  let ctx := ctx_scale (-1) 1 ctx in
  let ctx := ctx_translate (- width canvas) 0 ctx in
  let ctx :=
    match multiFaceLandmarks results with
    | Some faces =>
        if (0 <? List.length faces)%nat then fold_left draw_face faces ctx else ctx
    | None => ctx
    end in
  ctx_restore ctx.

Definition onResults (results : Results) : M unit :=
  fun w =>
    match canvasRef w with
    | None => (w, Normal tt)
    | Some canvas =>
        match getContext canvas with
        | None => (w, Normal tt)
        | Some ctx =>
            (with_canvasRef
               (Some {| width := width canvas; height := height canvas;
                        context2d := Some (drawOverlay canvas ctx results) |})
               w,
             Normal tt)
        end
    end.

(* ================================================================= *)
(** ** Starting and stopping the session *)

(** The outcomes of the five library calls of [startFaceMesh], in the order
    it makes them.  [call_start] is the synchronous part of
    [cameraRef.current.start()]: when it returns, it returns a promise. *)
Record StartEnv : Type :=
  { construct_FaceMesh : Outcome;
    call_setOptions : Outcome;
    call_onResults : Outcome;
    construct_Camera : Outcome;
    call_start : Outcome }.

(** The outcomes of the two library calls of [stopFaceMesh]. *)
Record StopEnv : Type :=
  { call_stop : Outcome;
    call_close : Outcome }.

(** [webcamRef.current && webcamRef.current.video], as an option. *)
Definition current_video (webcam : option Webcam) : option nat :=
  match webcam with
  | Some cam => video cam
  | None => None
  end.

Definition is_some {A : Type} (o : option A) : bool :=
  match o with
  | Some _ => true
  | None => false
  end.

(** [new window.FaceMesh({ locateFile })]: a fresh detector, named by its
    position among the detectors constructed so far. *)
Definition new_FaceMesh (o : Outcome) : M nat :=
  match o with
  | Throws e => throw e
  | Returns =>
      fun w =>
        (with_detectors (fun ds =>
           ds ++ [{| fm_options := None; fm_listener := false;
                     fm_closed := false |}]) w,
         Normal (List.length (detectors w)))
  end.

Definition faceMesh_setOptions (fm : nat) (o : Outcome)
    (opts : FaceMeshOptions) : M unit :=
  external o (with_detectors (update_at fm (fun d =>
    {| fm_options := Some opts; fm_listener := fm_listener d;
       fm_closed := fm_closed d |}))).

(** [faceMesh.onResults(onResults)]: the renderer becomes the listener. *)
Definition faceMesh_onResults (fm : nat) (o : Outcome) : M unit :=
  external o (with_detectors (update_at fm (fun d =>
    {| fm_options := fm_options d; fm_listener := true;
       fm_closed := fm_closed d |}))).

Definition faceMesh_close (fm : nat) (o : Outcome) : M unit :=
  external o (with_detectors (update_at fm (fun d =>
    {| fm_options := fm_options d; fm_listener := fm_listener d;
       fm_closed := true |}))).

Definition set_status (s : LoopStatus) (l : CameraLoop) : CameraLoop :=
  {| loop_video := loop_video l; loop_width := loop_width l;
     loop_height := loop_height l; loop_status := s |}.

(** [new window.Camera(video, { onFrame, width, height })]. *)
Definition new_Camera (o : Outcome) (v : nat) (w h : Z) : M nat :=
  match o with
  | Throws e => throw e
  | Returns =>
      fun world =>
        (with_loops (fun ls =>
           ls ++ [{| loop_video := v; loop_width := w; loop_height := h;
                     loop_status := Constructed |}]) world,
         Normal (List.length (loops world)))
  end.

Definition camera_start (cam : nat) (o : Outcome) : M unit :=
  external o (with_loops (update_at cam (set_status Starting))).

Definition camera_stop (cam : nat) (o : Outcome) : M unit :=
  external o (with_loops (update_at cam (set_status Stopped))).

(** [startFaceMesh] up to the point where [start()] has handed back its
    promise.  [render] holds the state values of the render whose closure
    is being called: the function reads [isRunning] and [cdnAvailable]
    from there. *)
Definition startFaceMesh (render : Hooks) (env : StartEnv) : M unit :=
  webcam <- read webcamRef ;;
  canvas <- read canvasRef ;;
  match current_video webcam with
  | None => ret tt
  | Some videoElement =>
      if negb (is_some canvas) || isRunning render then ret tt
      else
        try_catch
          (setIsLoading true ;;
           when (negb (cdnAvailable render))
             (throw (ErrorObject
                "MediaPipe libraries are not available. Please check your internet connection and try again.")) ;;
           console_log "Initializing FaceMesh" ;;
           fm <- new_FaceMesh (construct_FaceMesh env) ;;
           modify (with_faceMeshRef (Some fm)) ;;
           faceMesh_setOptions fm (call_setOptions env)
             {| maxNumFaces := 1; refineLandmarks := true;
                minDetectionConfidence := 0.5; minTrackingConfidence := 0.5 |} ;;
           faceMesh_onResults fm (call_onResults env) ;;
           console_log "Creating camera instance" ;;
           cam <- new_Camera (construct_Camera env) videoElement 640 480 ;;
           modify (with_cameraRef (Some cam)) ;;
           console_log "Starting camera" ;;
           camera_start cam (call_start env))
          (fun error =>
             console_error "Error in startFaceMesh:" error ;;
             setLastError
               (Some (or_else (message_of error) "Failed to initialize face mesh")) ;;
             setIsLoading false)
  end.

(** The [.then], [.catch] and [.finally] handlers on the promise of
    [start()], run when the promise of camera loop [cam] settles. *)
Definition cameraStartSettled (cam : nat) (s : Settlement) : M unit :=
  match s with
  | Fulfilled =>
      modify (with_loops (update_at cam (set_status Active))) ;;
      console_log "Camera started successfully" ;;
      setIsRunning true ;;
      setLastError None
  | Rejected error =>
      modify (with_loops (update_at cam (set_status Failed))) ;;
      console_error "Error starting camera:" error ;;
      setLastError (Some (or_else (message_of error) "Failed to start camera"))
  end ;;
  setIsLoading false.

(** The camera loop a call of [startFaceMesh] left waiting on its promise:
    the loop constructed by that call, if its [start()] returned. *)
Definition pending_start (before after : World) : option nat :=
  let cam := List.length (loops before) in
  match nth_error (loops after) cam with
  | Some l =>
      match loop_status l with
      | Starting => Some cam
      | _ => None
      end
  | None => None
  end.

(** Component code [c] that may call [startFaceMesh], followed at once by
    the settlement of the promise that call is waiting on, if any. *)
Definition settling (c : M unit) (s : Settlement) : M unit :=
  fun w =>
    match c w with
    | (w', Normal tt) =>
        match pending_start w w' with
        | Some cam => cameraStartSettled cam s w'
        | None => (w', Normal tt)
        end
    | (w', Abrupt e) => (w', Abrupt e)
    end.

(** A start whose promise settles before anything else happens. *)
Definition start_and_settle (render : Hooks) (env : StartEnv)
    (s : Settlement) : M unit :=
  settling (startFaceMesh render env) s.

(** The [onFrame] callback given to the camera loop; [send] is the outcome
    of [faceMeshRef.current.send({ image })], a rejected promise counting
    as a throw under [await]. *)
Definition onFrame (send : Outcome) : M unit :=
  fm <- read faceMeshRef ;;
  webcam <- read webcamRef ;;
  when (is_some fm && is_some (current_video webcam))
    (try_catch
       (external send (fun w => w))
       (fun error => console_error "Error sending frame to facemesh:" error)).

Definition stopFaceMesh (env : StopEnv) : M unit :=
  try_catch
    (cam <- read cameraRef ;;
     match cam with
     | Some c => camera_stop c (call_stop env)
     | None => ret tt
     end ;;
     fm <- read faceMeshRef ;;
     match fm with
     | Some f => faceMesh_close f (call_close env)
     | None => ret tt
     end ;;
     setIsRunning false)
    (fun error => console_error "Error stopping face mesh:" error).

(** The effect with dependencies [showPermissionRequest], [cameraReady] and
    [isRunning], run with the state values of the render that scheduled
    it. *)
Definition startEffect (render : Hooks) (env : StartEnv) : M unit :=
  webcam <- read webcamRef ;;
  when (negb (showPermissionRequest render) && cameraReady render
        && negb (isRunning render) && is_some (current_video webcam))
    (console_log "Starting face detection" ;;
     startFaceMesh render env).

(** The Retry button.  [render] is the render whose button was clicked; the
    delayed start is its [startFaceMesh].  The id of the timeout is
    returned. *)
Definition handleRetry (render : Hooks) (env : StopEnv) : M nat :=
  setLastError None ;;
  when (isRunning render) (stopFaceMesh env) ;;
  setTimeout (RetryStart render) 500.

(* ================================================================= *)
(** ** Timers firing *)

Definition run_callback (env : StartEnv) (cb : TimerCallback) : M unit :=
  match cb with
  | PollAvailability => checkMediaPipeAvailability ;; ret tt
  | ReloadScriptsIfUnavailable => reloadScriptsIfUnavailable
  | RetryStart render => startFaceMesh render env
  end.

(** The event loop fires a pending timer: its callback runs, and a
    timeout is spent.  A timer that was cleared does not fire.  [env] gives
    the outcomes of the library calls a retry callback makes. *)
Definition fire (env : StartEnv) (id : nat) : M unit :=
  ts <- read timers ;;
  match find (fun t => Nat.eqb (timer_id t) id) ts with
  | None => ret tt
  | Some t =>
      (if repeats t then ret tt else clear_timer id) ;;
      run_callback env (callback t)
  end.

(* ================================================================= *)
(** ** What the component shows *)

(** The JSX returned by [FaceMeshView], as the layers it mounts. *)
Record View : Type :=
  { permissionGate : bool;
    loadingOverlay : bool;
    errorOverlay : option string;
    videoLayer : bool }.

Definition view (h : Hooks) : View :=
  if showPermissionRequest h then
    {| permissionGate := true; loadingOverlay := false;
       errorOverlay := None; videoLayer := false |}
  else
    {| permissionGate := false;
       loadingOverlay := isLoading h && negb (cameraReady h);
       errorOverlay :=
         match lastError h with
         | Some text => if truthy text then Some text else None
         | None => None
         end;
       videoLayer := true |}.

(* ================================================================= *)
(** ** Events *)

(** A click on Retry followed by its delayed start. *)
Definition retry_and_start (render : Hooks) (stop : StopEnv)
    (env : StartEnv) : M unit :=
  id <- handleRetry render stop ;;
  fire env id.

(** What can happen to the mounted component, one thing at a time.  The
    handlers and effects that run are those of the latest render, so they
    see the current state values; a start is followed by the settlement of
    its promise, and a click on Retry by its delayed start, before the next
    thing happens. *)
Inductive Op : Type :=
| ProbeMounted
| RequestCameraAccess
| WebcamLoad
| WebcamError (error : JsThrown)
| GlobalsChange (win : Window)
| TimerFires (id : nat) (env : StartEnv) (s : Settlement)
| Remount (webcam : option Webcam) (canvas : option Canvas)
| StartEffectRuns (env : StartEnv) (s : Settlement)
| RetryClicked (stop : StopEnv) (env : StartEnv) (s : Settlement)
| CleanupRuns (stop : StopEnv)
| FrameArrives (send : Outcome)
| ResultsArrive (results : Results).

Definition step (op : Op) (w : World) : World :=
  match op with
  | ProbeMounted => fst (availabilityEffect w)
  | RequestCameraAccess => fst (handleRequestCameraAccess w)
  | WebcamLoad => fst (handleWebcamLoad w)
  | WebcamError error => fst (handleWebcamError error w)
  | GlobalsChange win => with_window win w
  | TimerFires id env s => fst (settling (fire env id) s w)
  | Remount webcam canvas => with_canvasRef canvas (with_webcamRef webcam w)
  | StartEffectRuns env s => fst (settling (startEffect (hooks w) env) s w)
  | RetryClicked stop env s =>
      fst (settling (retry_and_start (hooks w) stop env) s w)
  | CleanupRuns stop => fst (stopFaceMesh stop w)
  | FrameArrives send => fst (onFrame send w)
  | ResultsArrive results => fst (onResults results w)
  end.

Definition run (ops : list Op) (w : World) : World :=
  fold_left (fun w op => step op w) ops w.

(* ================================================================= *)
(** ** The asset locator of the detector *)

(** The [locateFile] option handed to [new window.FaceMesh]: where the
    detector fetches the asset [file] from. *)
Definition locateFile (file : string) : string :=
  ("https://cdn.jsdelivr.net/npm/@mediapipe/face_mesh/" ++ file)%string.

(* ================================================================= *)
(** * The page component [App] *)

(** [App] checks with three HEAD requests that the MediaPipe scripts can be
    fetched, and shows a warning above [FaceMeshView] when they cannot.  Its
    state is its own: a record [Page]. *)

(** The two [useState] values of [App]. *)
Record AppHooks : Type :=
  { isCdnAvailable : bool;
    isCheckingCdn : bool }.

Definition initial_app_hooks : AppHooks :=
  {| isCdnAvailable := true; isCheckingCdn := true |}.

(** A [fetch(url, { method })] that was issued. *)
Record FetchRequest : Type :=
  { request_url : string; request_method : string }.

(** How the promise of a [fetch] settles: with a response, of which the
    code reads [ok], or rejected. *)
Inductive FetchResult : Type :=
| Response (ok : bool)
| NetworkError (error : JsThrown).

(** A [setInterval] of [App]: its id and its period. *)
Record Interval : Type := { interval_id : nat; period_ms : Z }.

Record Page : Type :=
  { app_hooks : AppHooks;
    app_console : list ConsoleEntry;
    requests : list FetchRequest;
    intervals : list Interval;
    next_interval : nat }.

(** An async function that has run up to an [await]: it has finished, or it
    waits for a fetch to settle and holds the rest of its body. *)
#[warnings="-register-all"]
Inductive Task : Type :=
| Finished
| AwaitingFetch (resume : FetchResult -> Page -> Page * Task).

Definition setIsCdnAvailable (b : bool) (p : Page) : Page :=
  {| app_hooks := {| isCdnAvailable := b;
                     isCheckingCdn := isCheckingCdn (app_hooks p) |};
     app_console := app_console p; requests := requests p;
     intervals := intervals p; next_interval := next_interval p |}.

Definition setIsCheckingCdn (b : bool) (p : Page) : Page :=
  {| app_hooks := {| isCdnAvailable := isCdnAvailable (app_hooks p);
                     isCheckingCdn := b |};
     app_console := app_console p; requests := requests p;
     intervals := intervals p; next_interval := next_interval p |}.

Definition app_console_error (text : string) (detail : JsThrown)
    (p : Page) : Page :=
  {| app_hooks := app_hooks p;
     app_console := app_console p ++ [ConsoleError text detail];
     requests := requests p;
     intervals := intervals p; next_interval := next_interval p |}.

(** [fetch(url, { method })] up to the promise it returns. *)
Definition fetch (url method : string) (p : Page) : Page :=
  {| app_hooks := app_hooks p; app_console := app_console p;
     requests := requests p
                 ++ [{| request_url := url; request_method := method |}];
     intervals := intervals p; next_interval := next_interval p |}.

(** The [catch] block of [checkCdnAvailability]. *)
Definition check_catch (error : JsThrown) (p : Page) : Page :=
  setIsCdnAvailable false
    (app_console_error "Error checking CDN availability:" error p).

(** Its [finally] block. *)
Definition check_finally (p : Page) : Page := setIsCheckingCdn false p.

(** [checkCdnAvailability], an async function: each [await fetch(...)]
    hands the rest of the body to the promise.  A rejected promise throws at
    the [await], into the [catch]; the [finally] runs on both ways out. *)
Definition checkCdnAvailability (p : Page) : Page * Task :=
  let p := setIsCheckingCdn true p in
  (fetch "https://cdn.jsdelivr.net/npm/@mediapipe/face_mesh/face_mesh.js"
     "HEAD" p,
   AwaitingFetch (fun faceMeshResponse p =>
     match faceMeshResponse with
     | NetworkError error => (check_finally (check_catch error p), Finished)
     | Response faceMesh_ok =>
         (fetch "https://cdn.jsdelivr.net/npm/@mediapipe/camera_utils/camera_utils.js"
            "HEAD" p,
          AwaitingFetch (fun cameraResponse p =>
            match cameraResponse with
            | NetworkError error =>
                (check_finally (check_catch error p), Finished)
            | Response camera_ok =>
                (fetch "https://cdn.jsdelivr.net/npm/@mediapipe/drawing_utils/drawing_utils.js"
                   "HEAD" p,
                 AwaitingFetch (fun drawingResponse p =>
                   match drawingResponse with
                   | NetworkError error =>
                       (check_finally (check_catch error p), Finished)
                   | Response drawing_ok =>
                       (check_finally
                          (setIsCdnAvailable
                             (faceMesh_ok && camera_ok && drawing_ok) p),
                        Finished)
                   end))
            end))
     end)).

(** The pending fetch of a task settles: the task runs on to its next
    [await] or to its end.  A finished task waits for nothing. *)
Definition settle (r : FetchResult) (pt : Page * Task) : Page * Task :=
  match snd pt with
  | Finished => pt
  | AwaitingFetch resume => resume r (fst pt)
  end.

(** The fetches of a task settle one after the other. *)
Definition settle_all (rs : list FetchResult) (pt : Page * Task) : Page * Task :=
  fold_left (fun pt r => settle r pt) rs pt.

(** The mount effect of [App]: one check at once, and one every minute.
    It returns the check it has begun and the id its cleanup needs. *)
Definition cdnEffect (p : Page) : (Page * Task) * nat :=
  let started := checkCdnAvailability p in
  let p := fst started in
  let intervalId := next_interval p in
  (({| app_hooks := app_hooks p; app_console := app_console p;
       requests := requests p;
       intervals := intervals p
                    ++ [{| interval_id := intervalId; period_ms := 60000 |}];
       next_interval := S intervalId |},
    snd started),
   intervalId).

Definition cdnCleanup (intervalId : nat) (p : Page) : Page :=
  {| app_hooks := app_hooks p; app_console := app_console p;
     requests := requests p;
     intervals := filter (fun i => negb (Nat.eqb (interval_id i) intervalId))
                    (intervals p);
     next_interval := next_interval p |}.

(** The interval fires: a registered one begins a new check. *)
Definition interval_fires (id : nat) (p : Page) : Page * Task :=
  if existsb (fun i => Nat.eqb (interval_id i) id) (intervals p)
  then checkCdnAvailability p
  else (p, Finished).

(** The condition under which [App] renders its warning. *)
Definition cdnWarning (h : AppHooks) : bool :=
  negb (isCheckingCdn h) && negb (isCdnAvailable h).

(* ================================================================= *)
(** * Vocabulary of the statements *)

(** ** The renderer *)

Definition faint : DrawingOptions :=
  {| color := "rgba(255, 255, 255, 0.2)"; lineWidth := 0.8; radius := None |}.

Definition bright : DrawingOptions :=
  {| color := "rgba(255, 255, 255, 0.8)"; lineWidth := 1.5; radius := None |}.

Definition dots : DrawingOptions :=
  {| color := "rgba(255, 255, 255, 0.6)"; lineWidth := 0.8;
     radius := Some 1.2%Q |}.

(** One pass of the full draw sequence over one face: the faint mesh, both
    eyes, both eyebrows, the face outline, the lips, then the points. *)
Definition full_draw_sequence (landmarks : Landmarks) : list CanvasCall :=
  [ CDrawConnectors landmarks FACEMESH_TESSELATION faint;
    CDrawConnectors landmarks FACEMESH_RIGHT_EYE bright;
    CDrawConnectors landmarks FACEMESH_LEFT_EYE bright;
    CDrawConnectors landmarks FACEMESH_RIGHT_EYEBROW bright;
    CDrawConnectors landmarks FACEMESH_LEFT_EYEBROW bright;
    CDrawConnectors landmarks FACEMESH_FACE_OVAL bright;
    CDrawConnectors landmarks FACEMESH_LIPS bright;
    CDrawLandmarks landmarks dots ].

(** The faces a result holds; none when [multiFaceLandmarks] is undefined. *)
Definition detected_faces (results : Results) : list Landmarks :=
  match multiFaceLandmarks results with
  | Some faces => faces
  | None => []
  end.

Definition is_connector_draw (c : CanvasCall) : bool :=
  match c with
  | CDrawConnectors _ _ _ => true
  | _ => false
  end.

Definition is_landmark_draw (c : CanvasCall) : bool :=
  match c with
  | CDrawLandmarks _ _ => true
  | _ => false
  end.

Definition is_drawing_call (c : CanvasCall) : bool :=
  is_connector_draw c || is_landmark_draw c.


(** The calls the mounted canvas has received; none without a canvas or
    without a context. *)
Definition canvas_calls (w : World) : list CanvasCall :=
  match canvasRef w with
  | Some canvas =>
      match getContext canvas with
      | Some ctx => calls ctx
      | None => []
      end
  | None => []
  end.

(** The world after the renderer has left [ctx'] on the canvas. *)
Definition painted (w : World) (canvas : Canvas) (ctx' : Context2D) : World :=
  with_canvasRef
    (Some {| width := width canvas; height := height canvas;
             context2d := Some ctx' |}) w.

(** The four calls every frame opens with. *)
Definition frame_prologue (canvas : Canvas) : list CanvasCall :=
  [ CSave; CClearRect 0 0 (width canvas) (height canvas);
    CScale (-1) 1; CTranslate (- width canvas) 0 ].

(** The mirror transform the renderer installs over the transform [m]. *)
Definition mirrored (canvas : Canvas) (m : Matrix) : Matrix :=
  matrix_translate (- width canvas) 0 (matrix_scale (-1) 1 m).

(** The context just before [ctx.restore()]. *)
Definition before_restore (canvas : Canvas) (ctx : Context2D)
    (results : Results) : Context2D :=
  let ctx := ctx_save ctx in
  let ctx := ctx_clearRect 0 0 (width canvas) (height canvas) ctx in
  let ctx := ctx_scale (-1) 1 ctx in
  let ctx := ctx_translate (- width canvas) 0 ctx in
  match multiFaceLandmarks results with
  | Some faces =>
      if (0 <? List.length faces)%nat then fold_left draw_face faces ctx else ctx
  | None => ctx
  end.

(** ** The orchestrator *)

(** The three globals the probe looks for. *)
Definition all_three_present (win : Window) : Prop :=
  win_FaceMesh win = true /\ win_Camera win = true
  /\ win_drawConnectors win = true.

Definition poll_timer (id : nat) : Timer :=
  {| timer_id := id; delay_ms := 1000; repeats := true;
     callback := PollAvailability |}.

(** The test [handleWebcamError] makes on the message. *)
Definition permission_class (error : JsThrown) : bool :=
  includes "Permission" (errorMessage_of error)
  || includes "permission" (errorMessage_of error).

Definition gate_view : View :=
  {| permissionGate := true; loadingOverlay := false; errorOverlay := None;
     videoLayer := false |}.

Definition logged (entry : ConsoleEntry) (w : World) : World :=
  with_console (fun c => c ++ [entry]) w.

(** The error the [try] block of [startFaceMesh] ends with, if a library
    call throws: the first of the five that does. *)
Definition first_failure (env : StartEnv) : option JsThrown :=
  match construct_FaceMesh env with
  | Throws e => Some e
  | Returns =>
      match call_setOptions env with
      | Throws e => Some e
      | Returns =>
          match call_onResults env with
          | Throws e => Some e
          | Returns =>
              match construct_Camera env with
              | Throws e => Some e
              | Returns =>
                  match call_start env with
                  | Throws e => Some e
                  | Returns => None
                  end
              end
          end
      end
  end.

Definition unavailable_message : string :=
  "MediaPipe libraries are not available. Please check your internet connection and try again.".

(** The refs and the flag let a call of [startFaceMesh] past its first
    line. *)
Definition passes_guard (render : Hooks) (w : World) : Prop :=
  is_some (current_video (webcamRef w)) = true
  /\ is_some (canvasRef w) = true
  /\ isRunning render = false.

(** The outcome [r] of a start made in world [before] is a failure
    reported as [text]: nothing is thrown to the caller, [lastError] holds
    [text], loading has ended, the session is no more running than it was,
    and unless the permission gate is up the error overlay shows [text]. *)
Definition failed_with (text : string) (before : World)
    (r : World * Completion unit) : Prop :=
  snd r = Normal tt
  /\ lastError (hooks (fst r)) = Some text
  /\ isLoading (hooks (fst r)) = false
  /\ isRunning (hooks (fst r)) = isRunning (hooks before)
  /\ (showPermissionRequest (hooks before) = false ->
      errorOverlay (view (hooks (fst r))) = Some text).

(** What a piece of component code added to the console. *)
Definition new_console (before after : World) : list ConsoleEntry :=
  skipn (List.length (console before)) (console after).

(** The start effect, run in world [w], goes on to call [startFaceMesh]: it
    logs "Starting face detection", the line before the call. *)
Definition attempts_start (render : Hooks) (env : StartEnv) (w : World) : Prop :=
  In (ConsoleLog "Starting face detection")
     (new_console w (fst (startEffect render env w))).

(** The test of the start effect. *)
Definition effect_condition (render : Hooks) (w : World) : Prop :=
  showPermissionRequest render = false
  /\ cameraReady render = true
  /\ isRunning render = false
  /\ is_some (current_video (webcamRef w)) = true.

(** No camera loop is capturing. *)
Definition no_active (w : World) : Prop :=
  forall (i : nat) (l : CameraLoop),
    nth_error (loops w) i = Some l -> loop_status l <> Active.


(** The invariant behind it: a capturing loop is the one in [cameraRef],
    and there is none unless [isRunning]. *)
Definition session_invariant (w : World) : Prop :=
  (forall (i : nat) (l : CameraLoop),
      nth_error (loops w) i = Some l -> loop_status l = Active ->
      cameraRef w = Some i)
  /\ (isRunning (hooks w) = false -> no_active w).

(** What a call that may start a session does to the loops: nothing, or one
    new loop that is not capturing yet and is put in [cameraRef]. *)
Definition starts_at_most_one (w w' : World) : Prop :=
  isRunning (hooks w') = isRunning (hooks w)
  /\ ((loops w' = loops w /\ cameraRef w' = cameraRef w)
      \/ (cameraRef w' = Some (List.length (loops w))
          /\ exists l : CameraLoop,
               loops w' = loops w ++ [l]
               /\ (loop_status l = Constructed \/ loop_status l = Starting))).

(** No delayed start is waiting, and timer ids are fresh. *)
Definition timers_settled (w : World) : Prop :=
  forall t : Timer,
    In t (timers w) ->
    (timer_id t < next_timer w)%nat
    /\ (forall render : Hooks, callback t <> RetryStart render).

(** What the runs preserve. *)
Definition orderly (w : World) : Prop :=
  session_invariant w /\ timers_settled w.

(** [handleRetry] before its [setTimeout]. *)
Definition retry_click (render : Hooks) (stop : StopEnv) : M unit :=
  setLastError None ;;
  when (isRunning render) (stopFaceMesh stop).

Definition retry_timer (id : nat) (render : Hooks) : Timer :=
  {| timer_id := id; delay_ms := 500; repeats := false;
     callback := RetryStart render |}.

(* ================================================================= *)
(** * Sample worlds *)

Definition blank_context : Context2D :=
  {| transform := identity; saved := []; calls := [] |}.

(** The 640 by 480 canvas the component mounts. *)
Definition overlay_canvas : Canvas :=
  {| width := 640; height := 480; context2d := Some blank_context |}.

Definition no_globals : Window :=
  {| win_FaceMesh := false; win_Camera := false;
     win_drawConnectors := false; win_drawLandmarks := false |}.

Definition all_globals : Window :=
  {| win_FaceMesh := true; win_Camera := true;
     win_drawConnectors := true; win_drawLandmarks := true |}.

(** The first render: the permission gate is shown, so neither the webcam
    nor the canvas is mounted. *)
Definition first_render : World :=
  {| hooks := initial_hooks; webcamRef := None; canvasRef := None;
     faceMeshRef := None; cameraRef := None; window := all_globals;
     console := []; detectors := []; loops := []; timers := [];
     next_timer := O; head := [] |}.

Definition camera_ready_hooks : Hooks :=
  {| showPermissionRequest := false; isLoading := false; cameraReady := true;
     lastError := None; isRunning := false; cdnAvailable := true |}.

(** Permission granted and the webcam loaded: video and canvas are
    mounted, nothing has been started. *)
Definition camera_ready : World :=
  {| hooks := camera_ready_hooks;
     webcamRef := Some {| video := Some O |};
     canvasRef := Some overlay_canvas;
     faceMeshRef := None; cameraRef := None; window := all_globals;
     console := []; detectors := []; loops := []; timers := [];
     next_timer := O; head := [] |}.

Definition all_return : StartEnv :=
  {| construct_FaceMesh := Returns; call_setOptions := Returns;
     call_onResults := Returns; construct_Camera := Returns;
     call_start := Returns |}.

Definition stop_returns : StopEnv :=
  {| call_stop := Returns; call_close := Returns |}.

(** A running session: [camera_ready] after a start whose promise was
    fulfilled. *)
Definition running : World :=
  fst (start_and_settle camera_ready_hooks all_return Fulfilled camera_ready).

Definition nose : NormalizedLandmark :=
  {| lm_x := 0.5; lm_y := 0.5; lm_z := 0 |}.

Definition chin : NormalizedLandmark :=
  {| lm_x := 0.5; lm_y := 0.9; lm_z := 0 |}.

Definition one_face : Results := {| multiFaceLandmarks := Some [[nose; chin]] |}.


Definition empty_result : Results := {| multiFaceLandmarks := Some [] |}.

Definition undefined_result : Results := {| multiFaceLandmarks := None |}.

(** The world of the first render after the mount effect, when the drawing
    script has not loaded yet. *)
Definition probing : World :=
  fst (availabilityEffect
         {| hooks := initial_hooks; webcamRef := None; canvasRef := None;
            faceMeshRef := None; cameraRef := None;
            window := {| win_FaceMesh := true; win_Camera := true;
                         win_drawConnectors := false;
                         win_drawLandmarks := false |};
            console := []; detectors := []; loops := []; timers := [];
            next_timer := O; head := [] |}).

Definition permission_denied : JsThrown :=
  DOMException "NotAllowedError" "Permission denied".

Definition send_failed : JsThrown := ErrorObject "send failed".


(** The camera script is missing: [new window.Camera] throws. *)
Definition camera_throws : StartEnv :=
  {| construct_FaceMesh := Returns; call_setOptions := Returns;
     call_onResults := Returns;
     construct_Camera := Throws (ErrorObject "window.Camera is not a constructor");
     call_start := Returns |}.

Definition libraries_missing_hooks : Hooks :=
  {| showPermissionRequest := false; isLoading := false; cameraReady := true;
     lastError := None; isRunning := false; cdnAvailable := false |}.

(** As [camera_ready], but the MediaPipe scripts have not loaded and the
    probe has recorded it. *)
Definition libraries_missing : World :=
  {| hooks := libraries_missing_hooks;
     webcamRef := Some {| video := Some O |};
     canvasRef := Some overlay_canvas;
     faceMeshRef := None; cameraRef := None; window := no_globals;
     console := []; detectors := []; loops := []; timers := [];
     next_timer := O; head := [] |}.

Definition permission_dismissed : JsThrown :=
  DOMException "NotAllowedError" "Permission dismissed".

(** The webcam and the canvas are mounted while the permission gate is
    down, and unmounted while it is up; [v] names the video element of
    this mount. *)
Definition mount (v : nat) (w : World) : World :=
  with_canvasRef (Some overlay_canvas)
    (with_webcamRef (Some {| video := Some v |}) w).




(* ================================================================= *)
(** * Vocabulary of the further properties *)

(** [needle] occurs in [hay]. *)
Definition contains (needle hay : string) : Prop :=
  exists pre post : string, hay = (pre ++ needle ++ post)%string.

(** Every pending timer was handed out before [next_timer]. *)
Definition fresh_timers (w : World) : Prop :=
  forall t : Timer, In t (timers w) -> (timer_id t < next_timer w)%nat.

Definition reload_timer (id : nat) : Timer :=
  {| timer_id := id; delay_ms := 3000; repeats := false;
     callback := ReloadScriptsIfUnavailable |}.

(** The script elements the reload appends, in its order. *)
Definition injected_scripts : list ScriptElement :=
  [ {| src := "https://cdn.jsdelivr.net/npm/@mediapipe/camera_utils/camera_utils.js";
       crossOrigin := "anonymous" |};
    {| src := "https://cdn.jsdelivr.net/npm/@mediapipe/drawing_utils/drawing_utils.js";
       crossOrigin := "anonymous" |};
    {| src := "https://cdn.jsdelivr.net/npm/@mediapipe/face_mesh/face_mesh.js";
       crossOrigin := "anonymous" |} ].

(** The options [startFaceMesh] sets on a detector. *)
Definition session_options : FaceMeshOptions :=
  {| maxNumFaces := 1; refineLandmarks := true;
     minDetectionConfidence := 0.5; minTrackingConfidence := 0.5 |}.

(** A detector as a successful start leaves it. *)
Definition configured_detector : FaceMeshInstance :=
  {| fm_options := Some session_options; fm_listener := true;
     fm_closed := false |}.

(** The camera loop of a started session on video element [v]. *)
Definition capturing_loop (v : nat) : CameraLoop :=
  {| loop_video := v; loop_width := 640; loop_height := 480;
     loop_status := Active |}.



(** The HEAD requests a check of [App] issues, given how the first two
    settle: a request is made for the next script unless the one before was
    rejected. *)
Definition probed (r1 r2 : FetchResult) : list FetchRequest :=
  {| request_url := "https://cdn.jsdelivr.net/npm/@mediapipe/face_mesh/face_mesh.js";
     request_method := "HEAD" |}
  :: match r1 with
     | NetworkError _ => []
     | Response _ =>
         {| request_url := "https://cdn.jsdelivr.net/npm/@mediapipe/camera_utils/camera_utils.js";
            request_method := "HEAD" |}
         :: match r2 with
            | NetworkError _ => []
            | Response _ =>
                [ {| request_url := "https://cdn.jsdelivr.net/npm/@mediapipe/drawing_utils/drawing_utils.js";
                     request_method := "HEAD" |} ]
            end
     end.

(** The rejection that ends a check, if one of its fetches is rejected. *)
Definition first_rejection (r1 r2 r3 : FetchResult) : option JsThrown :=
  match r1 with
  | NetworkError e => Some e
  | Response _ =>
      match r2 with
      | NetworkError e => Some e
      | Response _ =>
          match r3 with
          | NetworkError e => Some e
          | Response _ => None
          end
      end
  end.

(** What a start leaves of the instances it constructed: no camera loop, or
    one new loop named by [cameraRef]; no detector, or one new detector
    named by [faceMeshRef]. *)
Definition built_by_start (w w' : World) : Prop :=
  ((loops w' = loops w /\ cameraRef w' = cameraRef w)
   \/ (exists l : CameraLoop,
         loops w' = loops w ++ [l]
         /\ cameraRef w' = Some (List.length (loops w))))
  /\ ((detectors w' = detectors w /\ faceMeshRef w' = faceMeshRef w)
      \/ (exists d : FaceMeshInstance,
            detectors w' = detectors w ++ [d]
            /\ faceMeshRef w' = Some (List.length (detectors w)))).

(** What decides which screen is shown: the permission gate and the ready
    flag of the capture surface. *)
Definition screen (h : Hooks) : bool * bool :=
  (showPermissionRequest h, cameraReady h).

(** Component code that touches neither. *)
Definition keeps_screen {A : Type} (c : M A) : Prop :=
  forall w : World, screen (hooks (fst (c w))) = screen (hooks w).

(** The camera loop a start leaves on video element [v] once its promise
    has settled. *)
Definition settled_loop (v : nat) (s : Settlement) : CameraLoop :=
  {| loop_video := v; loop_width := 640; loop_height := 480;
     loop_status := match s with
                    | Fulfilled => Active
                    | Rejected _ => Failed
                    end |}.

(** The main flow: the user grants access, the webcam and the canvas are
    mounted, the webcam reports ready, the start effect runs and the promise
    of [start()] is fulfilled. *)
Definition granted_and_loaded (v : nat) (canvas : Canvas) (env : StartEnv)
    : list Op :=
  [ RequestCameraAccess;
    Remount (Some {| video := Some v |}) (Some canvas);
    WebcamLoad;
    StartEffectRuns env Fulfilled ].

(** Every interval of the page was handed out before [next_interval]. *)
Definition fresh_intervals (p : Page) : Prop :=
  forall i : Interval, In i (intervals p) -> (interval_id i < next_interval p)%nat.

(** Component code that does not clear an error that is set. *)
Definition keeps_error {A : Type} (c : M A) : Prop :=
  forall w : World,
    lastError (hooks w) <> None -> lastError (hooks (fst (c w))) <> None.

(** ** More sample worlds *)

(** The page as [App] first renders it. *)
Definition first_page : Page :=
  {| app_hooks := initial_app_hooks; app_console := []; requests := [];
     intervals := []; next_interval := O |}.

(** The page after a check that found the camera script missing: the warning
    is shown. *)
Definition warned_page : Page :=
  fst (settle_all [Response true; Response false; Response true]
         (checkCdnAvailability first_page)).

Definition offline : JsThrown := ErrorObject "Failed to fetch".

Definition camera_in_use : JsThrown :=
  DOMException "NotReadableError" "Could not start video source".

(** A start whose [new window.Camera] throws, in [camera_ready]. *)
Definition half_started : World :=
  fst (startFaceMesh camera_ready_hooks camera_throws camera_ready).

(** The webcam could not be opened after access was asked for: the video
    layer is mounted, the error overlay is up, the webcam never reported
    ready. *)
Definition webcam_failed : World :=
  fst (handleWebcamError camera_in_use
         (mount 0%nat (fst (handleRequestCameraAccess first_render)))).

(* ================================================================= *)
(** * Concrete runs *)

(** Split a conjunction of closed equations and evaluate each. *)
Ltac by_computation :=
  repeat match goal with |- _ /\ _ => split end; vm_compute; reflexivity.

Example includes_finds_a_substring :
  includes "Permission" "NotAllowedError: Permission denied" = true.
Proof. by_computation. Qed.

Example includes_is_case_sensitive :
  includes "permission" "Permission denied" = false.
Proof. by_computation. Qed.

Example or_else_keeps_a_message :
  or_else (message_of (ErrorObject "boom")) "Failed to start camera" = "boom".
Proof. by_computation. Qed.

Example or_else_replaces_an_empty_message :
  or_else (message_of (ErrorObject "")) "Failed to start camera"
  = "Failed to start camera".
Proof. by_computation. Qed.

(** The mirror sends the left edge of the 640 wide canvas to its right
    edge. *)
Example mirror_of_the_left_edge :
  matrix_apply (matrix_translate (-640) 0 (matrix_scale (-1) 1 identity)) (0, 100)
  = (640, 100).
Proof. by_computation. Qed.

(** While the permission gate is up the start effect does nothing. *)
Example first_render_is_idle :
  startEffect (hooks first_render) all_return first_render
  = (first_render, Normal tt).
Proof. by_computation. Qed.

(** What a successful start leaves behind. *)
Example running_session :
  hooks running
  = {| showPermissionRequest := false; isLoading := false; cameraReady := true;
       lastError := None; isRunning := true; cdnAvailable := true |}
  /\ faceMeshRef running = Some O
  /\ cameraRef running = Some O
  /\ loops running
     = [ {| loop_video := O; loop_width := 640; loop_height := 480;
            loop_status := Active |} ]
  /\ console running
     = [ ConsoleLog "Initializing FaceMesh";
         ConsoleLog "Creating camera instance";
         ConsoleLog "Starting camera";
         ConsoleLog "Camera started successfully" ].
Proof. by_computation. Qed.

(** A clean stop of the running session. *)
Example running_session_stopped :
  isRunning (hooks (fst (stopFaceMesh stop_returns running))) = false
  /\ map loop_status (loops (fst (stopFaceMesh stop_returns running))) = [Stopped]
  /\ map fm_closed (detectors (fst (stopFaceMesh stop_returns running))) = [true]
  /\ console (fst (stopFaceMesh stop_returns running)) = console running.
Proof. by_computation. Qed.

(** One face on the blank canvas: the twelve calls of a frame. *)
Example one_face_frame :
  canvas_calls (fst (onResults one_face running))
  = [ CSave; CClearRect 0 0 640 480; CScale (-1) 1; CTranslate (-640) 0;
      CDrawConnectors [nose; chin] FACEMESH_TESSELATION faint;
      CDrawConnectors [nose; chin] FACEMESH_RIGHT_EYE bright;
      CDrawConnectors [nose; chin] FACEMESH_LEFT_EYE bright;
      CDrawConnectors [nose; chin] FACEMESH_RIGHT_EYEBROW bright;
      CDrawConnectors [nose; chin] FACEMESH_LEFT_EYEBROW bright;
      CDrawConnectors [nose; chin] FACEMESH_FACE_OVAL bright;
      CDrawConnectors [nose; chin] FACEMESH_LIPS bright;
      CDrawLandmarks [nose; chin] dots;
      CRestore ].
Proof. by_computation. Qed.

(** An undefined [multiFaceLandmarks] is drawn like an empty one. *)
Example undefined_result_frame :
  onResults undefined_result running = onResults empty_result running.
Proof. by_computation. Qed.

(** The 3000 ms timeout fires while a script is missing: the three
    scripts are appended to the document head, and the timeout is spent. *)
Example scripts_reloaded :
  map src (head (fst (fire all_return 1%nat probing)))
  = [ "https://cdn.jsdelivr.net/npm/@mediapipe/camera_utils/camera_utils.js";
      "https://cdn.jsdelivr.net/npm/@mediapipe/drawing_utils/drawing_utils.js";
      "https://cdn.jsdelivr.net/npm/@mediapipe/face_mesh/face_mesh.js" ]
  /\ map timer_id (timers (fst (fire all_return 1%nat probing))) = [O]
  /\ map timer_id (timers (fst (availabilityCleanup (O, 1%nat) probing))) = [].
Proof. by_computation. Qed.

(** Retry clicked in a running session whose error overlay is up: the
    session is stopped, the delayed start sees the [isRunning] of the click
    and does nothing, and the start effect starts a new loop. *)
Example retry_while_running :
  map loop_status
    (loops (run [ WebcamError (StringValue "camera unplugged");
                  RetryClicked stop_returns all_return Fulfilled ]
              running))
  = [Stopped]
  /\ map loop_status
       (loops (run [ WebcamError (StringValue "camera unplugged");
                     RetryClicked stop_returns all_return Fulfilled;
                     StartEffectRuns all_return Fulfilled ]
                 running))
     = [Stopped; Active].
Proof. by_computation. Qed.

(* ================================================================= *)
(** * Properties of the renderer *)

(** ** One face, then all of them *)

Lemma draw_face_calls (ctx : Context2D) (landmarks : Landmarks) :
  calls (draw_face ctx landmarks) = calls ctx ++ full_draw_sequence landmarks.
Proof.
  unfold draw_face, drawConnectors, drawLandmarks, record_call; simpl.
  repeat rewrite <- app_assoc. reflexivity.
Qed.

Lemma draw_face_state (ctx : Context2D) (landmarks : Landmarks) :
  transform (draw_face ctx landmarks) = transform ctx
  /\ saved (draw_face ctx landmarks) = saved ctx.
Proof. split; reflexivity. Qed.

Lemma draw_faces_calls (faces : list Landmarks) :
  forall ctx,
    calls (fold_left draw_face faces ctx)
    = calls ctx ++ List.concat (map full_draw_sequence faces).
Proof.
  induction faces as [| face rest IH]; intros ctx.
  - simpl. now rewrite app_nil_r.
  - cbn [fold_left map List.concat]. rewrite IH, draw_face_calls.
    now rewrite <- app_assoc.
Qed.

Lemma draw_faces_state (faces : list Landmarks) :
  forall ctx,
    transform (fold_left draw_face faces ctx) = transform ctx
    /\ saved (fold_left draw_face faces ctx) = saved ctx.
Proof.
  induction faces as [| face rest IH]; intros ctx.
  - split; reflexivity.
  - cbn [fold_left]. destruct (IH (draw_face ctx face)) as [Ht Hs].
    now rewrite Ht, Hs.
Qed.

Lemma drawOverlay_restore canvas ctx results :
  drawOverlay canvas ctx results = ctx_restore (before_restore canvas ctx results).
Proof. reflexivity. Qed.

(** The loop guard only skips a loop that would not run: in every case
    the faces of the result are folded over the prepared context. *)
Lemma before_restore_fold canvas ctx results :
  before_restore canvas ctx results
  = fold_left draw_face (detected_faces results)
      (ctx_translate (- width canvas) 0
         (ctx_scale (-1) 1
            (ctx_clearRect 0 0 (width canvas) (height canvas) (ctx_save ctx)))).
Proof.
  unfold before_restore, detected_faces.
  destruct (multiFaceLandmarks results) as [[| face rest] |]; reflexivity.
Qed.

Lemma before_restore_state canvas ctx results :
  transform (before_restore canvas ctx results) = mirrored canvas (transform ctx)
  /\ saved (before_restore canvas ctx results) = transform ctx :: saved ctx.
Proof.
  rewrite before_restore_fold.
  match goal with
  | |- context [fold_left draw_face ?fs ?c] =>
      destruct (draw_faces_state fs c) as [Ht Hs]
  end.
  rewrite Ht, Hs. split; reflexivity.
Qed.

Lemma before_restore_calls canvas ctx results :
  calls (before_restore canvas ctx results)
  = calls ctx ++ frame_prologue canvas
      ++ List.concat (map full_draw_sequence (detected_faces results)).
Proof.
  rewrite before_restore_fold, draw_faces_calls.
  unfold frame_prologue. simpl. now repeat rewrite <- app_assoc.
Qed.

Lemma drawOverlay_calls canvas ctx results :
  calls (drawOverlay canvas ctx results)
  = calls ctx ++ frame_prologue canvas
      ++ List.concat (map full_draw_sequence (detected_faces results))
      ++ [CRestore].
Proof.
  rewrite drawOverlay_restore. unfold ctx_restore.
  destruct (before_restore_state canvas ctx results) as [_ Hs].
  rewrite Hs. cbn [calls]. rewrite before_restore_calls.
  now repeat rewrite <- app_assoc.
Qed.


Lemma onResults_painted w canvas ctx results :
  canvasRef w = Some canvas ->
  getContext canvas = Some ctx ->
  onResults results w = (painted w canvas (drawOverlay canvas ctx results), Normal tt).
Proof.
  intros Hc Hx. unfold onResults. rewrite Hc, Hx. reflexivity.
Qed.



(** Under the identity, the mirror sends [x] to [width - x] and keeps
    [y]. *)
Lemma mirrored_identity canvas (x y : Z) :
  matrix_apply (mirrored canvas identity) (x, y) = (width canvas - x, y).
Proof.
  unfold matrix_apply, mirrored, matrix_translate, matrix_scale, identity.
  cbn [m_a m_b m_c m_d m_e m_f fst snd]. f_equal; lia.
Qed.

Lemma detected_faces_none (results : Results) :
  detected_faces results = [] <->
  multiFaceLandmarks results = None \/ multiFaceLandmarks results = Some [].
Proof.
  unfold detected_faces. destruct (multiFaceLandmarks results) as [faces |].
  - split.
    + intros ->. now right.
    + intros [H | H]; [discriminate | now inversion H].
  - split; [now left | reflexivity].
Qed.


Lemma canvas_calls_painted w canvas ctx' :
  canvas_calls (painted w canvas ctx') = calls ctx'.
Proof. reflexivity. Qed.

(** ** The claims about the renderer *)



(** C2.  For a result with no detected face ([multiFaceLandmarks] undefined
    or empty) [onResults] returns normally and no drawing helper is invoked,
    whatever the state of the canvas; and on a mounted canvas with a context
    the calls it makes are exactly save, [clearRect] over the whole canvas,
    the mirror transform, and restore. *)
Theorem onResults_no_faces_no_drawing :
  forall (w : World) (results : Results),
    detected_faces results = [] ->
    snd (onResults results w) = Normal tt
    /\ filter is_drawing_call (canvas_calls (fst (onResults results w)))
       = filter is_drawing_call (canvas_calls w)
    /\ (forall (canvas : Canvas) (ctx : Context2D),
          canvasRef w = Some canvas ->
          getContext canvas = Some ctx ->
          canvas_calls (fst (onResults results w))
          = calls ctx
              ++ [ CSave; CClearRect 0 0 (width canvas) (height canvas);
                   CScale (-1) 1; CTranslate (- width canvas) 0; CRestore ]).
Proof.
  intros w results Hnone.
  assert (Hcalls : forall canvas ctx,
             calls (drawOverlay canvas ctx results)
             = calls ctx
                 ++ [ CSave; CClearRect 0 0 (width canvas) (height canvas);
                      CScale (-1) 1; CTranslate (- width canvas) 0; CRestore ]).
  { intros canvas ctx. rewrite drawOverlay_calls, Hnone. reflexivity. }
  split; [| split].
  - unfold onResults. destruct (canvasRef w) as [canvas |]; [| reflexivity].
    destruct (getContext canvas); reflexivity.
  - destruct (canvasRef w) as [canvas |] eqn:Hc.
    + destruct (getContext canvas) as [ctx |] eqn:Hx.
      * rewrite (onResults_painted w canvas ctx results Hc Hx).
        cbn [fst]. rewrite canvas_calls_painted, Hcalls.
        unfold canvas_calls at 1. rewrite Hc, Hx.
        rewrite filter_app. cbn. now rewrite app_nil_r.
      * unfold onResults. now rewrite Hc, Hx.
    + unfold onResults. now rewrite Hc.
  - intros canvas ctx Hc Hx.
    rewrite (onResults_painted w canvas ctx results Hc Hx).
    cbn [fst]. rewrite canvas_calls_painted. apply Hcalls.
Qed.

(** An empty result on the canvas of a running session. *)
Lemma onResults_no_faces_no_drawing_witness :
  snd (onResults empty_result running) = Normal tt
  /\ filter is_drawing_call (canvas_calls (fst (onResults empty_result running)))
     = filter is_drawing_call (canvas_calls running)
  /\ canvas_calls (fst (onResults empty_result running))
     = [ CSave; CClearRect 0 0 640 480; CScale (-1) 1; CTranslate (-640) 0;
         CRestore ].
Proof.
  destruct (onResults_no_faces_no_drawing running empty_result eq_refl)
    as [Hret [Hnone Hclear]].
  split; [exact Hret |]. split; [exact Hnone |].
  exact (Hclear overlay_canvas blank_context eq_refl eq_refl).
Defined.



(* ================================================================= *)
(** * Properties of the orchestrator *)

(** ** The availability flag *)

Lemma checkMediaPipeAvailability_flag (w : World) :
  cdnAvailable (hooks (fst (checkMediaPipeAvailability w)))
  = win_FaceMesh (window w) && win_Camera (window w)
    && win_drawConnectors (window w).
Proof. reflexivity. Qed.

Lemma checkMediaPipeAvailability_frame (w : World) :
  let w' := fst (checkMediaPipeAvailability w) in
  window w' = window w /\ timers w' = timers w /\ next_timer w' = next_timer w.
Proof. repeat split. Qed.

Lemma three_flags (win : Window) :
  win_FaceMesh win && win_Camera win && win_drawConnectors win = true
  <-> all_three_present win.
Proof.
  unfold all_three_present.
  destruct (win_FaceMesh win), (win_Camera win), (win_drawConnectors win);
    cbn; intuition congruence.
Qed.

(** C7.  Whatever the flag was, after [checkMediaPipeAvailability] it is
    true exactly when [FaceMesh], [Camera] and [drawConnectors] are all
    defined on [window], so it is false as soon as one of them is missing.
    The mount effect makes that check at once and registers it as a
    repeating timer of 1000 ms; each time that timer fires the flag is
    recomputed the same way, and the timer stays registered. *)
Theorem availability_flag_tracks_globals :
  forall w : World,
    (cdnAvailable (hooks (fst (checkMediaPipeAvailability w))) = true
     <-> all_three_present (window w))
    /\ snd (checkMediaPipeAvailability w)
       = Normal (cdnAvailable (hooks (fst (checkMediaPipeAvailability w))))
    /\ (cdnAvailable (hooks (fst (availabilityEffect w))) = true
        <-> all_three_present (window w))
    /\ In (poll_timer (next_timer w)) (timers (fst (availabilityEffect w)))
    /\ (forall (env : StartEnv) (id : nat),
          find (fun t => Nat.eqb (timer_id t) id) (timers w) = Some (poll_timer id) ->
          (cdnAvailable (hooks (fst (fire env id w))) = true
           <-> all_three_present (window w))
          /\ timers (fst (fire env id w)) = timers w).
Proof.
  intros w. split; [| split; [| split; [| split]]].
  - rewrite checkMediaPipeAvailability_flag. apply three_flags.
  - reflexivity.
  - change (cdnAvailable (hooks (fst (availabilityEffect w))))
      with (win_FaceMesh (window w) && win_Camera (window w)
            && win_drawConnectors (window w)).
    apply three_flags.
  - change (timers (fst (availabilityEffect w)))
      with ((timers w ++ [poll_timer (next_timer w)])
            ++ [{| timer_id := S (next_timer w); delay_ms := 3000;
                   repeats := false; callback := ReloadScriptsIfUnavailable |}]).
    apply in_or_app. left. apply in_or_app. right. now left.
  - intros env id Hfind. unfold fire, bind, read. rewrite Hfind. cbn.
    split; [apply three_flags | reflexivity].
Qed.

(** The interval registered by the mount effect fires while one global is
    missing: the flag is false, and the timer is still there. *)
Lemma availability_flag_tracks_globals_witness :
  (cdnAvailable (hooks (fst (fire all_return O probing))) = true
   <-> all_three_present (window probing))
  /\ timers (fst (fire all_return O probing)) = timers probing.
Proof.
  apply (proj2 (proj2 (proj2 (proj2 (availability_flag_tracks_globals probing))))).
  reflexivity.
Defined.

(** ** Webcam errors *)

(** C5.  From any state, a webcam error whose message contains
    "Permission" or "permission" makes [handleWebcamError] set
    [showPermissionRequest]: the component shows the permission gate and
    nothing else.  The message is kept in [lastError] and loading ends. *)
Theorem permission_error_returns_to_gate :
  forall (w : World) (error : JsThrown),
    permission_class error = true ->
    snd (handleWebcamError error w) = Normal tt
    /\ showPermissionRequest (hooks (fst (handleWebcamError error w))) = true
    /\ view (hooks (fst (handleWebcamError error w))) = gate_view
    /\ lastError (hooks (fst (handleWebcamError error w)))
       = Some (errorMessage_of error)
    /\ isLoading (hooks (fst (handleWebcamError error w))) = false.
Proof.
  intros w error Hclass. unfold permission_class in Hclass.
  unfold handleWebcamError, bind, when. cbn. rewrite Hclass. cbn.
  repeat split.
Qed.

(** The browser's denial, arriving while the session runs. *)
Lemma permission_error_returns_to_gate_witness :
  snd (handleWebcamError permission_denied running) = Normal tt
  /\ showPermissionRequest
       (hooks (fst (handleWebcamError permission_denied running))) = true
  /\ view (hooks (fst (handleWebcamError permission_denied running))) = gate_view
  /\ lastError (hooks (fst (handleWebcamError permission_denied running)))
     = Some (errorMessage_of permission_denied)
  /\ isLoading (hooks (fst (handleWebcamError permission_denied running))) = false.
Proof.
  apply (permission_error_returns_to_gate running permission_denied).
  reflexivity.
Defined.

(** ** Frame errors *)

(** C3.  When [onFrame] makes its send (a detector and a video element are
    there) and the send fails, [onFrame] returns normally and the only
    change to the world is one [console.error] entry carrying the failure.
    A running session therefore stays running, [lastError] keeps its value
    and the view does not change. *)
Theorem frame_send_failure_is_logged_only :
  forall (w : World) (error : JsThrown),
    is_some (faceMeshRef w) = true ->
    is_some (current_video (webcamRef w)) = true ->
    isRunning (hooks w) = true ->
    onFrame (Throws error) w
    = (logged (ConsoleError "Error sending frame to facemesh:" error) w,
       Normal tt)
    /\ isRunning (hooks (fst (onFrame (Throws error) w))) = true
    /\ lastError (hooks (fst (onFrame (Throws error) w))) = lastError (hooks w)
    /\ view (hooks (fst (onFrame (Throws error) w))) = view (hooks w).
Proof.
  intros w error Hfm Hvideo Hrun.
  assert (Heq : onFrame (Throws error) w
                = (logged (ConsoleError "Error sending frame to facemesh:" error) w,
                   Normal tt)).
  { unfold onFrame, bind, read, when. rewrite Hfm, Hvideo. reflexivity. }
  rewrite Heq. cbn [fst]. repeat split. exact Hrun.
Qed.

Lemma frame_send_failure_is_logged_only_witness :
  onFrame (Throws send_failed) running
  = (logged (ConsoleError "Error sending frame to facemesh:" send_failed) running,
     Normal tt)
  /\ isRunning (hooks (fst (onFrame (Throws send_failed) running))) = true
  /\ lastError (hooks (fst (onFrame (Throws send_failed) running)))
     = lastError (hooks running)
  /\ view (hooks (fst (onFrame (Throws send_failed) running)))
     = view (hooks running).
Proof.
  apply (frame_send_failure_is_logged_only running send_failed); reflexivity.
Defined.

Lemma onFrame_hooks (send : Outcome) (w : World) :
  hooks (fst (onFrame send w)) = hooks w.
Proof.
  unfold onFrame, bind, read, when, try_catch, external.
  destruct (is_some (faceMeshRef w) && is_some (current_video (webcamRef w)));
    [| reflexivity].
  destruct send; reflexivity.
Qed.

(** ** Stopping *)


(** The [catch] of [stopFaceMesh] takes whatever the [try] throws. *)
Lemma stopFaceMesh_returns (env : StopEnv) (w : World) :
  snd (stopFaceMesh env w) = Normal tt.
Proof.
  unfold stopFaceMesh, try_catch, bind, read, camera_stop, faceMesh_close,
    external.
  destruct (cameraRef w) as [cam |], (call_stop env); cbn;
    destruct (faceMeshRef w) as [fm |], (call_close env); reflexivity.
Qed.



(** ** Starting *)

(** Unfold component code down to functions on worlds. *)
Ltac run_js :=
  unfold startEffect, start_and_settle, settling, startFaceMesh,
    cameraStartSettled,
    onFrame, try_catch, bind, read, when, external, new_FaceMesh, new_Camera,
    faceMesh_setOptions, faceMesh_onResults, camera_start, console_log,
    console_error, setIsLoading, setLastError, setIsRunning, modify, throw, ret.

Lemma update_at_last {A : Type} (f : A -> A) (l : list A) (x : A) :
  update_at (List.length l) f (l ++ [x]) = l ++ [f x].
Proof. induction l as [| a l IH]; cbn; [reflexivity | now rewrite IH]. Qed.

Lemma nth_error_last {A : Type} (l : list A) (x : A) :
  nth_error (l ++ [x]) (List.length l) = Some x.
Proof. induction l as [| a l IH]; cbn; [reflexivity | exact IH]. Qed.

Lemma nth_error_update_at {A : Type} (f : A -> A) (l : list A) (i j : nat) :
  nth_error (update_at i f l) j
  = if Nat.eqb i j then option_map f (nth_error l j) else nth_error l j.
Proof.
  revert i j. induction l as [| a l IH]; intros i j.
  - destruct j; cbn; destruct (Nat.eqb i _); reflexivity.
  - destruct i, j; cbn; try reflexivity. apply IH.
Qed.

Lemma update_at_length {A : Type} (f : A -> A) (l : list A) (i : nat) :
  List.length (update_at i f l) = List.length l.
Proof.
  revert i. induction l as [| a l IH]; intros [| i]; cbn; auto.
Qed.


Lemma error_overlay_shows (h : Hooks) (text : string) :
  showPermissionRequest h = false ->
  lastError h = Some text ->
  truthy text = true ->
  errorOverlay (view h) = Some text.
Proof.
  intros Hgate Herr Htruthy. unfold view. rewrite Hgate. cbn.
  now rewrite Herr, Htruthy.
Qed.

Lemma failed_with_intro (text : string) (before : World)
    (r : World * Completion unit) :
  truthy text = true ->
  snd r = Normal tt ->
  lastError (hooks (fst r)) = Some text ->
  isLoading (hooks (fst r)) = false ->
  isRunning (hooks (fst r)) = isRunning (hooks before) ->
  showPermissionRequest (hooks (fst r)) = showPermissionRequest (hooks before) ->
  failed_with text before r.
Proof.
  intros Ht Hn He Hl Hr Hg. unfold failed_with. repeat split; try assumption.
  intros Hgate. apply error_overlay_shows; congruence.
Qed.


(** A call of [startFaceMesh] that gets past its first line. *)
Section PastTheGuard.

Variables (render : Hooks) (w : World).
Hypothesis Hguard : passes_guard render w.

Lemma startFaceMesh_unavailable (env : StartEnv) :
  cdnAvailable render = false ->
  failed_with unavailable_message w (startFaceMesh render env w)
  /\ detectors (fst (startFaceMesh render env w)) = detectors w
  /\ loops (fst (startFaceMesh render env w)) = loops w
  /\ faceMeshRef (fst (startFaceMesh render env w)) = faceMeshRef w
  /\ cameraRef (fst (startFaceMesh render env w)) = cameraRef w.
Proof.
  intros Hcdn. pose proof Hguard as (Hv & Hc & Hr). run_js.
  destruct (current_video (webcamRef w)); [| discriminate].
  rewrite Hc, Hr, Hcdn. cbn.
  split; [apply failed_with_intro |]; repeat split.
Qed.


(** When no library call throws, the call leaves one new detector and
    one new camera loop, the loop waiting on the promise of its
    [start()]. *)
Lemma startFaceMesh_pending (env : StartEnv) :
  cdnAvailable render = true ->
  first_failure env = None ->
  snd (startFaceMesh render env w) = Normal tt
  /\ pending_start w (fst (startFaceMesh render env w))
     = Some (List.length (loops w))
  /\ cameraRef (fst (startFaceMesh render env w))
     = Some (List.length (loops w))
  /\ faceMeshRef (fst (startFaceMesh render env w))
     = Some (List.length (detectors w))
  /\ List.length (loops (fst (startFaceMesh render env w)))
     = S (List.length (loops w))
  /\ List.length (detectors (fst (startFaceMesh render env w)))
     = S (List.length (detectors w))
  /\ hooks (fst (startFaceMesh render env w))
     = hooks (fst (setIsLoading true w)).
Proof.
  intros Hcdn Hfail. pose proof Hguard as (Hv & Hc & Hr).
  revert Hfail. unfold first_failure, pending_start. run_js.
  destruct (current_video (webcamRef w)) as [v |]; [| discriminate].
  rewrite Hc, Hr, Hcdn.
  destruct env as [o1 o2 o3 o4 o5]; cbn.
  destruct o1; [| discriminate]. destruct o2; [| discriminate].
  destruct o3; [| discriminate]. destruct o4; [| discriminate].
  destruct o5; [| discriminate]. intros _. cbn.
  rewrite update_at_last, nth_error_last. cbn.
  rewrite !update_at_length, !length_app. cbn.
  repeat split; lia.
Qed.


(** A start that succeeds: running, error cleared, loading over. *)
Lemma start_fulfilled (env : StartEnv) :
  cdnAvailable render = true ->
  first_failure env = None ->
  let r := start_and_settle render env Fulfilled w in
  snd r = Normal tt
  /\ isRunning (hooks (fst r)) = true
  /\ lastError (hooks (fst r)) = None
  /\ isLoading (hooks (fst r)) = false.
Proof.
  intros Hcdn Hfail.
  destruct (startFaceMesh_pending env Hcdn Hfail)
    as (Hn & Hp & _ & _ & _ & _ & Hh).
  unfold start_and_settle, settling.
  destruct (startFaceMesh render env w) as [w' c]. cbn [fst snd] in *.
  subst c. rewrite Hp. repeat split.
Qed.

End PastTheGuard.

(** ** Start failures and frame failures *)




(** ** The start effect *)

Lemma effect_condition_bool (render : Hooks) (w : World) :
  negb (showPermissionRequest render) && cameraReady render
  && negb (isRunning render) && is_some (current_video (webcamRef w)) = true
  <-> effect_condition render w.
Proof.
  unfold effect_condition.
  destruct (showPermissionRequest render), (cameraReady render),
    (isRunning render), (is_some (current_video (webcamRef w)));
    cbn; intuition congruence.
Qed.

Lemma skipn_length_app {A : Type} (l more : list A) :
  skipn (List.length l) (l ++ more) = more.
Proof. induction l as [| a l IH]; cbn; [reflexivity | exact IH]. Qed.

(** [startFaceMesh] only ever appends to the console. *)
Lemma startFaceMesh_console render env w :
  exists more : list ConsoleEntry,
    console (fst (startFaceMesh render env w)) = console w ++ more.
Proof.
  run_js.
  destruct (current_video (webcamRef w)); [| exists []; cbn; now rewrite app_nil_r].
  destruct (negb (is_some (canvasRef w)) || isRunning render);
    [exists []; cbn; now rewrite app_nil_r |].
  destruct (cdnAvailable render); cbn;
    [| eexists; repeat rewrite <- app_assoc; reflexivity].
  destruct env as [o1 o2 o3 o4 o5]; cbn.
  destruct o1; cbn; [| eexists; repeat rewrite <- app_assoc; reflexivity].
  destruct o2; cbn; [| eexists; repeat rewrite <- app_assoc; reflexivity].
  destruct o3; cbn; [| eexists; repeat rewrite <- app_assoc; reflexivity].
  destruct o4; cbn; [| eexists; repeat rewrite <- app_assoc; reflexivity].
  destruct o5; cbn; eexists; repeat rewrite <- app_assoc; reflexivity.
Qed.

Lemma startEffect_fires render env w :
  effect_condition render w ->
  startEffect render env w
  = (console_log "Starting face detection" ;; startFaceMesh render env) w.
Proof.
  intros Hcond. apply effect_condition_bool in Hcond.
  unfold startEffect. unfold bind at 1. unfold read. rewrite Hcond. reflexivity.
Qed.

Lemma startEffect_idle render env w :
  ~ effect_condition render w ->
  startEffect render env w = (w, Normal tt).
Proof.
  intros Hcond. unfold startEffect, bind, read, when.
  destruct (negb (showPermissionRequest render) && cameraReady render
            && negb (isRunning render) && is_some (current_video (webcamRef w)))
    eqn:Hb; [| reflexivity].
  exfalso. apply Hcond. now apply effect_condition_bool.
Qed.

Lemma effect_condition_dec render w :
  effect_condition render w \/ ~ effect_condition render w.
Proof.
  destruct (negb (showPermissionRequest render) && cameraReady render
            && negb (isRunning render) && is_some (current_video (webcamRef w)))
    eqn:Hb.
  - left. now apply effect_condition_bool.
  - right. intros H. apply effect_condition_bool in H. congruence.
Qed.

Lemma attempts_start_iff render env w :
  attempts_start render env w <-> effect_condition render w.
Proof.
  unfold attempts_start, new_console. split.
  - intros Hin. destruct (effect_condition_dec render w) as [H | H]; [exact H |].
    rewrite (startEffect_idle render env w H) in Hin. cbn [fst] in Hin.
    rewrite <- (app_nil_r (console w)) in Hin at 2.
    rewrite skipn_length_app in Hin. destruct Hin.
  - intros Hcond. rewrite (startEffect_fires render env w Hcond).
    unfold bind at 1. unfold console_log at 1. unfold modify at 1.
    destruct (startFaceMesh_console render env
                (logged (ConsoleLog "Starting face detection") w)) as [more Hmore].
    fold (logged (ConsoleLog "Starting face detection") w).
    rewrite Hmore. cbn [logged with_console console].
    rewrite <- app_assoc, skipn_length_app. now left.
Qed.

Lemma startFaceMesh_unavailable_frame render env w :
  cdnAvailable render = false ->
  detectors (fst (startFaceMesh render env w)) = detectors w
  /\ loops (fst (startFaceMesh render env w)) = loops w
  /\ faceMeshRef (fst (startFaceMesh render env w)) = faceMeshRef w
  /\ cameraRef (fst (startFaceMesh render env w)) = cameraRef w.
Proof.
  intros Hcdn. run_js.
  destruct (current_video (webcamRef w)); [| repeat split].
  destruct (negb (is_some (canvasRef w)) || isRunning render); [repeat split |].
  rewrite Hcdn. repeat split.
Qed.

(** C8, refuted as stated: with the capture surface ready and the session
    not running, the start effect calls [startFaceMesh] although the
    availability flag is false; the call fails with the "not available"
    message.  So starts are not attempted exactly when ready, available and
    not running. *)
Lemma start_attempted_while_unavailable :
  cdnAvailable libraries_missing_hooks = false
  /\ attempts_start libraries_missing_hooks all_return libraries_missing
  /\ lastError (hooks (fst (startEffect libraries_missing_hooks all_return
                              libraries_missing)))
     = Some unavailable_message
  /\ ~ (attempts_start libraries_missing_hooks all_return libraries_missing
        <-> cameraReady libraries_missing_hooks = true
            /\ cdnAvailable libraries_missing_hooks = true
            /\ isRunning libraries_missing_hooks = false).
Proof.
  assert (Hattempt : attempts_start libraries_missing_hooks all_return
                       libraries_missing).
  { apply attempts_start_iff. repeat split. }
  split; [reflexivity |]. split; [exact Hattempt |]. split; [reflexivity |].
  intros [Honly _]. destruct (Honly Hattempt) as (_ & Hflag & _). discriminate.
Qed.

(** C8, as amended.  The start effect calls [startFaceMesh] exactly when
    the permission gate is down, the capture surface has reported ready, the
    session is not running and the video element is mounted; otherwise it
    does nothing.  The availability flag is no part of that test: it is read
    inside [startFaceMesh], and while it is false a start constructs no
    detector and no camera loop and leaves both refs alone; a call made then
    with the canvas mounted ends with the "not available" message in
    [lastError]. *)
Theorem startEffect_attempts_start_iff :
  forall (render : Hooks) (env : StartEnv) (w : World),
    (attempts_start render env w <-> effect_condition render w)
    /\ (effect_condition render w ->
        startEffect render env w
        = (console_log "Starting face detection" ;; startFaceMesh render env) w)
    /\ (~ effect_condition render w -> startEffect render env w = (w, Normal tt))
    /\ (cdnAvailable render = false ->
        detectors (fst (startEffect render env w)) = detectors w
        /\ loops (fst (startEffect render env w)) = loops w
        /\ faceMeshRef (fst (startEffect render env w)) = faceMeshRef w
        /\ cameraRef (fst (startEffect render env w)) = cameraRef w)
    /\ (effect_condition render w ->
        is_some (canvasRef w) = true ->
        cdnAvailable render = false ->
        lastError (hooks (fst (startEffect render env w)))
        = Some unavailable_message).
Proof.
  intros render env w.
  split; [apply attempts_start_iff |].
  split; [apply startEffect_fires |].
  split; [apply startEffect_idle |].
  split.
  - intros Hcdn. destruct (effect_condition_dec render w) as [H | H].
    + rewrite (startEffect_fires render env w H).
      unfold bind at 1 2 3 4. unfold console_log, modify.
      apply (startFaceMesh_unavailable_frame render env
               (logged (ConsoleLog "Starting face detection") w) Hcdn).
    + rewrite (startEffect_idle render env w H). repeat split.
  - intros Hcond Hcanvas Hcdn.
    rewrite (startEffect_fires render env w Hcond).
    unfold bind at 1. unfold console_log, modify.
    destruct Hcond as (_ & _ & Hrun & Hvideo).
    destruct (startFaceMesh_unavailable render
                (logged (ConsoleLog "Starting face detection") w)
                (conj Hvideo (conj Hcanvas Hrun)) env Hcdn) as [Hfail _].
    destruct Hfail as (_ & Herr & _). exact Herr.
Qed.

(** The effect fires in [libraries_missing] and leaves the message. *)
Lemma startEffect_attempts_start_iff_witness :
  lastError (hooks (fst (startEffect libraries_missing_hooks all_return
                           libraries_missing)))
  = Some unavailable_message.
Proof.
  apply (proj2 (proj2 (proj2 (proj2
           (startEffect_attempts_start_iff libraries_missing_hooks all_return
              libraries_missing)))));
    repeat split.
Defined.

(** ** One capture loop at a time *)

Lemma invariant_of_no_active (w : World) : no_active w -> session_invariant w.
Proof.
  intros Hnone. split.
  - intros i l Hi Hactive. now destruct (Hnone i l Hi).
  - intros _. exact Hnone.
Qed.

Lemma invariant_frame (w w' : World) :
  loops w' = loops w ->
  cameraRef w' = cameraRef w ->
  isRunning (hooks w') = isRunning (hooks w) ->
  session_invariant w -> session_invariant w'.
Proof.
  intros Hl Hc Hr [H1 H2]. unfold session_invariant, no_active.
  rewrite Hl, Hc, Hr. split; assumption.
Qed.


Lemma nth_error_snoc {A : Type} (l : list A) (x y : A) (i : nat) :
  nth_error (l ++ [x]) i = Some y ->
  nth_error l i = Some y \/ (i = List.length l /\ y = x).
Proof.
  intros H. destruct (Nat.lt_ge_cases i (List.length l)) as [Hlt | Hge].
  - left. now rewrite nth_error_app1 in H.
  - right. rewrite nth_error_app2 in H by exact Hge.
    destruct (i - List.length l)%nat as [| k] eqn:Hk.
    + cbn in H. split; [lia | congruence].
    + cbn in H. destruct k; discriminate.
Qed.

Lemma nth_error_at_length {A : Type} (l : list A) :
  nth_error l (List.length l) = None.
Proof. apply nth_error_None. lia. Qed.

(** The call ended before constructing a camera loop. *)
Ltac no_new_loop := split; [| split; [| left; split]]; reflexivity.

(** The call constructed one. *)
Ltac one_new_loop :=
  split; [| split; [| right; split; [| eexists; split; [reflexivity |]]]];
  try reflexivity.

Lemma startFaceMesh_session render env w :
  snd (startFaceMesh render env w) = Normal tt
  /\ starts_at_most_one w (fst (startFaceMesh render env w)).
Proof.
  unfold starts_at_most_one. run_js.
  destruct (current_video (webcamRef w)) as [v |]; [| no_new_loop].
  destruct (negb (is_some (canvasRef w)) || isRunning render); [no_new_loop |].
  destruct (cdnAvailable render); cbn; [| no_new_loop].
  destruct env as [o1 o2 o3 o4 o5]; cbn.
  destruct o1; cbn; [| no_new_loop].
  destruct o2; cbn; [| no_new_loop].
  destruct o3; cbn; [| no_new_loop].
  destruct o4; cbn; [| no_new_loop].
  destruct o5; cbn.
  - rewrite update_at_last. one_new_loop. now right.
  - one_new_loop. now left.
Qed.

Lemma startEffect_session render env w :
  snd (startEffect render env w) = Normal tt
  /\ starts_at_most_one w (fst (startEffect render env w)).
Proof.
  destruct (effect_condition_dec render w) as [H | H].
  - rewrite (startEffect_fires render env w H).
    unfold bind at 1 2. unfold console_log, modify.
    apply (startFaceMesh_session render env
             (logged (ConsoleLog "Starting face detection") w)).
  - rewrite (startEffect_idle render env w H).
    split; [reflexivity |]. split; [reflexivity |]. left. now split.
Qed.

(** Settlement turns the waiting loop into a capturing one only in a
    session that was not running, where no other loop captures. *)
Lemma settling_invariant (c : M unit) (s : Settlement) (w : World) :
  snd (c w) = Normal tt ->
  starts_at_most_one w (fst (c w)) ->
  (isRunning (hooks w) = true -> loops (fst (c w)) = loops w) ->
  session_invariant w ->
  session_invariant (fst (settling c s w)).
Proof.
  intros Hn (Hrun & Hloops) Hguard Hinv. unfold settling.
  destruct (c w) as [w' r]. cbn [fst snd] in *. subst r.
  destruct Hloops as [[Hl Hc] | (Hc & l & Hl & Hst)].
  - unfold pending_start. rewrite Hl, nth_error_at_length. cbn [fst].
    now apply (invariant_frame w w').
  - assert (Hidle : isRunning (hooks w) = false).
    { destruct (isRunning (hooks w)) eqn:E; [| reflexivity].
      specialize (Hguard eq_refl). rewrite Hl in Hguard.
      apply (f_equal (@List.length _)) in Hguard.
      rewrite length_app in Hguard. cbn in Hguard. lia. }
    destruct Hinv as [_ Hnone]. specialize (Hnone Hidle).
    unfold pending_start. rewrite Hl, nth_error_last.
    destruct Hst as [Hst | Hst]; rewrite Hst.
    + cbn [fst]. apply invariant_of_no_active. intros i l' Hi.
      rewrite Hl in Hi. apply nth_error_snoc in Hi.
      destruct Hi as [Hi | [_ ->]]; [now apply (Hnone i) | congruence].
    + destruct s as [| error]; unfold cameraStartSettled; run_js; cbn [fst].
      * split.
        -- cbn. rewrite Hl, update_at_last. intros i l' Hi Hactive.
           apply nth_error_snoc in Hi.
           destruct Hi as [Hi | [-> _]]; [now destruct (Hnone i l' Hi) | exact Hc].
        -- cbn. discriminate.
      * apply invariant_of_no_active. unfold no_active. cbn.
        rewrite Hl, update_at_last. intros i l' Hi.
        apply nth_error_snoc in Hi.
        destruct Hi as [Hi | [_ ->]]; [now apply (Hnone i) | cbn; discriminate].
Qed.

Lemma startFaceMesh_running render env w :
  isRunning render = true -> startFaceMesh render env w = (w, Normal tt).
Proof.
  intros Hrun. run_js. destruct (current_video (webcamRef w)); [| reflexivity].
  rewrite Hrun, orb_true_r. reflexivity.
Qed.

Lemma startEffect_running render env w :
  isRunning render = true -> startEffect render env w = (w, Normal tt).
Proof.
  intros Hrun. apply startEffect_idle. intros (_ & _ & H & _). congruence.
Qed.

Lemma stopFaceMesh_invariant env w :
  session_invariant w -> session_invariant (fst (stopFaceMesh env w)).
Proof.
  intros Hinv. pose proof Hinv as [H1 H2].
  unfold stopFaceMesh, try_catch, bind, read, camera_stop,
    faceMesh_close, external.
  destruct (cameraRef w) as [cam |] eqn:Hc.
  - destruct (call_stop env) as [| e]; cbn.
    + apply invariant_of_no_active.
      assert (Hnone : forall i l,
                 nth_error (update_at cam (set_status Stopped) (loops w)) i = Some l ->
                 loop_status l <> Active).
      { intros i l Hi. rewrite nth_error_update_at in Hi.
        destruct (Nat.eqb_spec cam i) as [-> | Hne].
        - destruct (nth_error (loops w) i); [| discriminate].
          cbn in Hi. injection Hi as <-. cbn. discriminate.
        - intros Hactive. apply Hne. specialize (H1 i l Hi Hactive). congruence. }
      destruct (faceMeshRef w), (call_close env); exact Hnone.
    + apply (invariant_frame w); try reflexivity. exact Hinv.
  - cbn. apply invariant_of_no_active.
    assert (Hnone : no_active w).
    { intros i l Hi Hactive. specialize (H1 i l Hi Hactive). discriminate. }
    destruct (faceMeshRef w), (call_close env); exact Hnone.
Qed.

(** *** Timers *)

Lemma startFaceMesh_timers render env w :
  timers (fst (startFaceMesh render env w)) = timers w
  /\ next_timer (fst (startFaceMesh render env w)) = next_timer w.
Proof.
  run_js.
  destruct (current_video (webcamRef w)); [| split; reflexivity].
  destruct (negb (is_some (canvasRef w)) || isRunning render);
    [split; reflexivity |].
  destruct (cdnAvailable render); cbn; [| split; reflexivity].
  destruct env as [o1 o2 o3 o4 o5]; cbn.
  destruct o1; cbn; [| split; reflexivity].
  destruct o2; cbn; [| split; reflexivity].
  destruct o3; cbn; [| split; reflexivity].
  destruct o4; cbn; [| split; reflexivity].
  destruct o5; cbn; split; reflexivity.
Qed.

Lemma stopFaceMesh_timers env w :
  timers (fst (stopFaceMesh env w)) = timers w
  /\ next_timer (fst (stopFaceMesh env w)) = next_timer w.
Proof.
  unfold stopFaceMesh, try_catch, bind, read, camera_stop, faceMesh_close,
    external.
  destruct (cameraRef w) as [cam |], (call_stop env); cbn;
    destruct (faceMeshRef w) as [fm |], (call_close env); split; reflexivity.
Qed.

Lemma stopFaceMesh_loops_length env w :
  List.length (loops (fst (stopFaceMesh env w))) = List.length (loops w).
Proof.
  unfold stopFaceMesh, try_catch, bind, read, camera_stop, faceMesh_close,
    external.
  destruct (cameraRef w) as [cam |], (call_stop env); cbn;
    destruct (faceMeshRef w) as [fm |], (call_close env); cbn;
    rewrite ?update_at_length; reflexivity.
Qed.

Lemma settling_timers (c : M unit) (s : Settlement) (w : World) :
  timers (fst (settling c s w)) = timers (fst (c w))
  /\ next_timer (fst (settling c s w)) = next_timer (fst (c w)).
Proof.
  unfold settling. destruct (c w) as [w' [[] | e]]; [| split; reflexivity].
  destruct (pending_start w w'); [| split; reflexivity].
  destruct s; split; reflexivity.
Qed.

(** When nothing is waiting on a promise, settlement has nothing to do. *)
Lemma settling_quiet (c : M unit) (s : Settlement) (w : World) :
  List.length (loops (fst (c w))) = List.length (loops w) ->
  fst (settling c s w) = fst (c w).
Proof.
  intros Hlen. unfold settling. destruct (c w) as [w' [[] | e]]; [| reflexivity].
  cbn [fst] in *. unfold pending_start.
  rewrite <- Hlen, nth_error_at_length. reflexivity.
Qed.

Lemma timers_settled_frame (w w' : World) :
  timers w' = timers w ->
  next_timer w' = next_timer w ->
  timers_settled w -> timers_settled w'.
Proof. intros Ht Hn H. unfold timers_settled. now rewrite Ht, Hn. Qed.

Lemma find_fresh (n : nat) (l : list Timer) (t : Timer) :
  (forall t', In t' l -> (timer_id t' < n)%nat) ->
  timer_id t = n ->
  find (fun t' => Nat.eqb (timer_id t') n) (l ++ [t]) = Some t.
Proof.
  intros Hfresh Hid. induction l as [| a l IH]; cbn.
  - now rewrite Hid, Nat.eqb_refl.
  - destruct (Nat.eqb_spec (timer_id a) n) as [E | _].
    + specialize (Hfresh a (or_introl eq_refl)). lia.
    + apply IH. intros t' Hin. apply Hfresh. now right.
Qed.

Lemma filter_fresh (n : nat) (l : list Timer) (t : Timer) :
  (forall t', In t' l -> (timer_id t' < n)%nat) ->
  timer_id t = n ->
  filter (fun t' => negb (Nat.eqb (timer_id t') n)) (l ++ [t]) = l.
Proof.
  intros Hfresh Hid. induction l as [| a l IH]; cbn.
  - now rewrite Hid, Nat.eqb_refl.
  - destruct (Nat.eqb_spec (timer_id a) n) as [E | _]; cbn.
    + specialize (Hfresh a (or_introl eq_refl)). lia.
    + f_equal. apply IH. intros t' Hin. apply Hfresh. now right.
Qed.

(** While no delayed start is waiting, a timer that fires is one of the
    probe's: the session is not touched and no timer is added. *)
Lemma fire_probe env id w :
  timers_settled w ->
  loops (fst (fire env id w)) = loops w
  /\ cameraRef (fst (fire env id w)) = cameraRef w
  /\ isRunning (hooks (fst (fire env id w))) = isRunning (hooks w)
  /\ next_timer (fst (fire env id w)) = next_timer w
  /\ (forall t, In t (timers (fst (fire env id w))) -> In t (timers w)).
Proof.
  intros Hsettled. unfold fire, bind, read.
  destruct (find (fun t => Nat.eqb (timer_id t) id) (timers w)) as [t |] eqn:Hfind;
    [| repeat split; auto].
  apply find_some in Hfind. destruct Hfind as [Hin _].
  destruct (Hsettled t Hin) as [_ Hprobe].
  destruct (callback t) as [| | render] eqn:Hcb;
    [| | now destruct (Hprobe render)];
    destruct (repeats t); cbn;
    try (destruct (win_FaceMesh (window w) && win_Camera (window w)
                   && win_drawConnectors (window w)); cbn);
    repeat split; auto; intros t' Hin'; now apply filter_In in Hin'.
Qed.

(** *** A click on Retry *)

Lemma retry_click_facts render stop w :
  snd (retry_click render stop w) = Normal tt
  /\ timers (fst (retry_click render stop w)) = timers w
  /\ next_timer (fst (retry_click render stop w)) = next_timer w
  /\ List.length (loops (fst (retry_click render stop w))) = List.length (loops w).
Proof.
  unfold retry_click, bind, when, setLastError, modify.
  destruct (isRunning render); [| repeat split].
  set (w1 := with_hooks _ w).
  pose proof (stopFaceMesh_returns stop w1) as Hn.
  destruct (stopFaceMesh_timers stop w1) as [Ht Hx].
  pose proof (stopFaceMesh_loops_length stop w1) as Hl.
  repeat split; assumption.
Qed.

Lemma handleRetry_unfold render stop w :
  handleRetry render stop w
  = setTimeout (RetryStart render) 500 (fst (retry_click render stop w)).
Proof.
  pose proof (retry_click_facts render stop w) as (Hn & _).
  revert Hn. unfold handleRetry, retry_click, bind.
  destruct (setLastError None w) as [w1 [[] | e]]; cbn [fst snd].
  - destruct (when (isRunning render) (stopFaceMesh stop) w1) as [w2 [[] | e]];
      cbn [fst snd]; [reflexivity | discriminate].
  - discriminate.
Qed.

(** With fresh timer ids, firing the timeout a click has just registered
    spends it and calls the [startFaceMesh] of the render that was
    clicked. *)
Lemma fire_retry_timer render env w :
  (forall t, In t (timers w) -> (timer_id t < next_timer w)%nat) ->
  fire env (next_timer w)
    (with_timers (fun ts => ts ++ [retry_timer (next_timer w) render])
       (S (next_timer w)) w)
  = startFaceMesh render env (with_timers (fun ts => ts) (S (next_timer w)) w).
Proof.
  intros Hfresh. unfold fire, bind, read.
  cbn [timers with_timers].
  rewrite find_fresh by (assumption || reflexivity).
  cbn [repeats retry_timer callback run_callback]. unfold clear_timer.
  cbn [timers with_timers next_timer].
  f_equal. unfold with_timers. cbn.
  rewrite filter_fresh by (assumption || reflexivity).
  reflexivity.
Qed.

Lemma retry_and_start_unfold render stop env w :
  (forall t, In t (timers w) -> (timer_id t < next_timer w)%nat) ->
  retry_and_start render stop env w
  = startFaceMesh render env
      (with_timers (fun ts => ts) (S (next_timer w))
         (fst (retry_click render stop w))).
Proof.
  intros Hfresh.
  destruct (retry_click_facts render stop w) as (_ & Ht & Hx & _).
  unfold retry_and_start, bind. rewrite handleRetry_unfold.
  unfold setTimeout, add_timer. cbn [fst snd].
  fold (retry_timer (next_timer (fst (retry_click render stop w))) render).
  rewrite fire_retry_timer by (rewrite Ht, Hx; exact Hfresh).
  now rewrite Hx.
Qed.

Lemma retry_click_running render stop w :
  isRunning render = true ->
  retry_click render stop w = stopFaceMesh stop (fst (setLastError None w)).
Proof. intros Hrun. unfold retry_click, bind, when. now rewrite Hrun. Qed.

Lemma retry_click_idle render stop w :
  isRunning render = false ->
  retry_click render stop w = setLastError None w.
Proof. intros Hrun. unfold retry_click, bind, when. now rewrite Hrun. Qed.

(** *** Every event keeps the session orderly *)

Lemma startEffect_timers render env w :
  timers (fst (startEffect render env w)) = timers w
  /\ next_timer (fst (startEffect render env w)) = next_timer w.
Proof.
  destruct (effect_condition_dec render w) as [H | H].
  - rewrite (startEffect_fires render env w H).
    unfold bind at 1 2. unfold console_log, modify.
    apply (startFaceMesh_timers render env
             (logged (ConsoleLog "Starting face detection") w)).
  - rewrite (startEffect_idle render env w H). split; reflexivity.
Qed.

Lemma starts_at_most_one_frame (w0 w w' : World) :
  loops w0 = loops w ->
  cameraRef w0 = cameraRef w ->
  isRunning (hooks w0) = isRunning (hooks w) ->
  starts_at_most_one w0 w' -> starts_at_most_one w w'.
Proof.
  intros Hl Hc Hr. unfold starts_at_most_one. now rewrite Hl, Hc, Hr.
Qed.

Lemma retry_orderly stop env s w :
  orderly w ->
  orderly (fst (settling (retry_and_start (hooks w) stop env) s w)).
Proof.
  intros [Hinv Hsettled].
  assert (Hfresh : forall t, In t (timers w) -> (timer_id t < next_timer w)%nat)
    by (intros t Hin; apply (Hsettled t Hin)).
  pose proof (retry_and_start_unfold (hooks w) stop env w Hfresh) as Hc.
  destruct (retry_click_facts (hooks w) stop w) as (_ & Ht & Hx & Hlen).
  set (w4 := with_timers (fun ts => ts) (S (next_timer w))
               (fst (retry_click (hooks w) stop w))) in *.
  split.
  - destruct (isRunning (hooks w)) eqn:Hrun.
    + rewrite settling_quiet.
      * rewrite Hc, (startFaceMesh_running _ env w4 Hrun). cbn [fst].
        apply (invariant_frame (fst (retry_click (hooks w) stop w)));
          try reflexivity.
        rewrite (retry_click_running _ stop w Hrun).
        apply stopFaceMesh_invariant. now apply (invariant_frame w).
      * rewrite Hc, (startFaceMesh_running _ env w4 Hrun). exact Hlen.
    + destruct (startFaceMesh_session (hooks w) env w4) as [Hn Hs].
      apply settling_invariant.
      * now rewrite Hc.
      * rewrite Hc. apply (starts_at_most_one_frame w4); try assumption;
          unfold w4; rewrite (retry_click_idle _ stop w Hrun); reflexivity.
      * congruence.
      * exact Hinv.
  - destruct (settling_timers (retry_and_start (hooks w) stop env) s w)
      as [Hst Hsx].
    destruct (startFaceMesh_timers (hooks w) env w4) as [Hft Hfx].
    intros t Hin. rewrite Hst, Hc, Hft in Hin. rewrite Hsx, Hc, Hfx.
    change (timers w4) with (timers (fst (retry_click (hooks w) stop w))) in Hin.
    rewrite Ht in Hin. destruct (Hsettled t Hin) as [Hlt Hcb].
    split; [cbn; lia | exact Hcb].
Qed.

Lemma step_orderly (op : Op) (w : World) : orderly w -> orderly (step op w).
Proof.
  intros Hord. pose proof Hord as [Hinv Hsettled].
  destruct op as [| | | error | win | id env s | webcam canvas | env s
                  | stop env s | stop | send | results]; cbn [step].
  - split; [now apply (invariant_frame w) |].
    intros t Hin.
    change (timers (fst (availabilityEffect w)))
      with ((timers w ++ [poll_timer (next_timer w)])
            ++ [{| timer_id := S (next_timer w); delay_ms := 3000;
                   repeats := false; callback := ReloadScriptsIfUnavailable |}])
      in Hin.
    change (next_timer (fst (availabilityEffect w))) with (S (S (next_timer w))).
    apply in_app_or in Hin. destruct Hin as [Hin | [<- | []]].
    + apply in_app_or in Hin. destruct Hin as [Hin | [<- | []]].
      * destruct (Hsettled t Hin) as [Hlt Hcb]. split; [lia | exact Hcb].
      * split; [cbn; lia | discriminate].
    + split; [cbn; lia | discriminate].
  - split; [now apply (invariant_frame w) | now apply (timers_settled_frame w)].
  - split; [now apply (invariant_frame w) | now apply (timers_settled_frame w)].
  - assert (Hsame : forall b : bool,
               fst (handleWebcamError error w)
               = fst ((console_error "Webcam error:" error ;;
                       when b (setShowPermissionRequest true) ;;
                       setLastError (Some (errorMessage_of error)) ;;
                       setIsLoading false) w) ->
               orderly (fst (handleWebcamError error w))).
    { intros b ->. destruct b.
      - split; [now apply (invariant_frame w) | now apply (timers_settled_frame w)].
      - split; [now apply (invariant_frame w) | now apply (timers_settled_frame w)]. }
    apply (Hsame (includes "Permission" (errorMessage_of error)
                  || includes "permission" (errorMessage_of error))).
    reflexivity.
  - split; [now apply (invariant_frame w) | now apply (timers_settled_frame w)].
  - destruct (fire_probe env id w Hsettled) as (Hl & Hc & Hr & Hx & Hsub).
    rewrite settling_quiet by now rewrite Hl.
    split; [now apply (invariant_frame w) |].
    intros t Hin. rewrite Hx. apply Hsettled. now apply Hsub.
  - split; [now apply (invariant_frame w) | now apply (timers_settled_frame w)].
  - destruct (startEffect_session (hooks w) env w) as [Hn Hs].
    split.
    + apply settling_invariant; try assumption.
      intros Hrun. now rewrite startEffect_running.
    + destruct (settling_timers (startEffect (hooks w) env) s w) as [Ht Hx].
      destruct (startEffect_timers (hooks w) env w) as [Hft Hfx].
      apply (timers_settled_frame w); [congruence | congruence | assumption].
  - now apply retry_orderly.
  - destruct (stopFaceMesh_timers stop w) as [Ht Hx].
    split; [now apply stopFaceMesh_invariant
           | now apply (timers_settled_frame w)].
  - split; [| apply (timers_settled_frame w); try assumption];
      [apply (invariant_frame w); try assumption | |];
      unfold onFrame, bind, read, when, try_catch, external;
      destruct (is_some (faceMeshRef w) && is_some (current_video (webcamRef w)));
      try reflexivity; destruct send; reflexivity.
  - split; [| apply (timers_settled_frame w); try assumption];
      [apply (invariant_frame w); try assumption | |];
      unfold onResults; destruct (canvasRef w) as [canvas |]; try reflexivity;
      destruct (getContext canvas); reflexivity.
Qed.

Lemma run_orderly (ops : list Op) :
  forall w : World, orderly w -> orderly (run ops w).
Proof.
  induction ops as [| op ops IH]; intros w Hord; [exact Hord |].
  cbn [run fold_left]. apply IH. now apply step_orderly.
Qed.

(** *** The claim *)




(* ================================================================= *)
(** * Further properties: the page component [App] *)

Lemma settle_all_finished (rs : list FetchResult) (p : Page) :
  settle_all rs (p, Finished) = (p, Finished).
Proof. induction rs as [| r rs IH]; [reflexivity | exact IH]. Qed.

Lemma settle_all_cons (r : FetchResult) (rs : list FetchResult)
    (pt : Page * Task) :
  settle_all (r :: rs) pt = settle_all rs (settle r pt).
Proof. reflexivity. Qed.

(** The network is down: the first fetch is rejected, no other request is
    made, the rejection is logged and the warning is shown. *)
Example check_while_offline :
  requests (fst (settle_all [NetworkError offline] (checkCdnAvailability first_page)))
  = [ {| request_url := "https://cdn.jsdelivr.net/npm/@mediapipe/face_mesh/face_mesh.js";
         request_method := "HEAD" |} ]
  /\ app_console (fst (settle_all [NetworkError offline]
                         (checkCdnAvailability first_page)))
     = [ConsoleError "Error checking CDN availability:" offline]
  /\ cdnWarning (app_hooks (fst (settle_all [NetworkError offline]
                                   (checkCdnAvailability first_page))))
     = true.
Proof. by_computation. Qed.

(** Nothing is warned of on the first render, before any response. *)
Example first_page_shows_no_warning :
  cdnWarning (app_hooks first_page) = false.
Proof. by_computation. Qed.

(** Where the detector is sent for one of its assets. *)
Example locateFile_of_an_asset :
  locateFile "face_mesh.binarypb"
  = "https://cdn.jsdelivr.net/npm/@mediapipe/face_mesh/face_mesh.binarypb".
Proof. by_computation. Qed.

(** X1.  A check of [App] whose fetches all settle ends with
    [isCheckingCdn] false, and with [isCdnAvailable] true exactly when all
    three promises were fulfilled with a response whose [ok] is true; the
    warning is then shown exactly when they were not.  The three HEAD
    requests are made one after the other: a response that is not [ok] does
    not stop the next request, a rejected promise does, and it is logged
    once. *)
Theorem cdn_check_reports_three_responses :
  forall (p : Page) (r1 r2 r3 : FetchResult),
    snd (settle_all [r1; r2; r3] (checkCdnAvailability p)) = Finished
    /\ isCheckingCdn
         (app_hooks (fst (settle_all [r1; r2; r3] (checkCdnAvailability p))))
       = false
    /\ (isCdnAvailable
          (app_hooks (fst (settle_all [r1; r2; r3] (checkCdnAvailability p))))
        = true
        <-> r1 = Response true /\ r2 = Response true /\ r3 = Response true)
    /\ (cdnWarning
          (app_hooks (fst (settle_all [r1; r2; r3] (checkCdnAvailability p))))
        = true
        <-> ~ (r1 = Response true /\ r2 = Response true /\ r3 = Response true))
    /\ requests (fst (settle_all [r1; r2; r3] (checkCdnAvailability p)))
       = requests p ++ probed r1 r2
    /\ app_console (fst (settle_all [r1; r2; r3] (checkCdnAvailability p)))
       = app_console p
         ++ match first_rejection r1 r2 r3 with
            | Some error =>
                [ConsoleError "Error checking CDN availability:" error]
            | None => []
            end.
Proof.
  intros p r1 r2 r3.
  destruct r1 as [[] | e1], r2 as [[] | e2], r3 as [[] | e3];
    cbn; rewrite <- ?app_assoc, ?app_nil_r;
    (split; [reflexivity |]); (split; [reflexivity |]);
    (split; [split; [try discriminate; auto | intros (H1 & H2 & H3);
                                              try discriminate; auto] |]);
    (split; [split; [intros H (H1 & H2 & H3); discriminate
                    | intros H; try reflexivity; exfalso; apply H; auto] |]);
    split; reflexivity.
Qed.

(** X2.  While a check of [App] waits for one of its fetches (and no other
    check is in flight on the page), [isCheckingCdn] is true and
    [isCdnAvailable] still has the value it had before the check began: the
    warning is not shown, whatever the check before found. *)
Theorem cdn_warning_hidden_while_checking :
  forall (p : Page) (rs : list FetchResult),
    snd (settle_all rs (checkCdnAvailability p)) <> Finished ->
    isCheckingCdn (app_hooks (fst (settle_all rs (checkCdnAvailability p))))
    = true
    /\ isCdnAvailable (app_hooks (fst (settle_all rs (checkCdnAvailability p))))
       = isCdnAvailable (app_hooks p)
    /\ cdnWarning (app_hooks (fst (settle_all rs (checkCdnAvailability p))))
       = false.
Proof.
  intros p rs Hwaits.
  destruct rs as [| r1 rs]; [repeat split |].
  rewrite settle_all_cons in *.
  destruct r1 as [ok1 | e1]; cbn [checkCdnAvailability settle fst snd] in *;
    [| rewrite settle_all_finished in Hwaits; now destruct Hwaits].
  destruct rs as [| r2 rs]; [repeat split |].
  rewrite settle_all_cons in *.
  destruct r2 as [ok2 | e2]; cbn [settle fst snd] in *;
    [| rewrite settle_all_finished in Hwaits; now destruct Hwaits].
  destruct rs as [| r3 rs]; [repeat split |].
  rewrite settle_all_cons in *.
  destruct r3 as [ok3 | e3]; cbn [settle fst snd] in *;
    rewrite settle_all_finished in Hwaits; now destruct Hwaits.
Qed.

(** The minute's check begins on the page that shows the warning: the
    warning goes while the first response is awaited. *)
Lemma cdn_warning_hidden_while_checking_witness :
  cdnWarning (app_hooks warned_page) = true
  /\ isCheckingCdn
       (app_hooks (fst (settle_all [Response true]
                          (checkCdnAvailability warned_page))))
     = true
  /\ isCdnAvailable
       (app_hooks (fst (settle_all [Response true]
                          (checkCdnAvailability warned_page))))
     = isCdnAvailable (app_hooks warned_page)
  /\ cdnWarning
       (app_hooks (fst (settle_all [Response true]
                          (checkCdnAvailability warned_page))))
     = false.
Proof.
  split; [reflexivity |].
  apply (cdn_warning_hidden_while_checking warned_page [Response true]).
  cbn. discriminate.
Defined.

(* ================================================================= *)
(** * Further properties: webcam errors and the permission gate *)

(** ** [includes] is the substring test *)

Lemma prefix_spec (a s : string) :
  String.prefix a s = true <-> exists post : string, s = (a ++ post)%string.
Proof.
  revert s. induction a as [| c a IH]; intros s.
  - destruct s; cbn; split; eauto.
  - destruct s as [| d s]; cbn.
    + split; [discriminate | intros [post H]; discriminate].
    + destruct (Ascii.ascii_dec c d) as [-> | Hne].
      * rewrite IH. split; intros [post H]; exists post; [now rewrite H |].
        now injection H.
      * split; [discriminate | intros [post H]; injection H; congruence].
Qed.

Lemma includes_spec (needle hay : string) :
  includes needle hay = true <-> contains needle hay.
Proof.
  unfold contains. induction hay as [| c rest IH].
  - cbn [includes]. destruct (String.prefix needle "") eqn:E.
    + apply prefix_spec in E. destruct E as [post E].
      split; [intros _; now exists "", post | reflexivity].
    + split; [discriminate |]. intros (pre & post & H).
      assert (Hp : String.prefix needle "" = true).
      { apply prefix_spec. destruct pre; [now exists post | discriminate]. }
      congruence.
  - cbn [includes]. destruct (String.prefix needle (String c rest)) eqn:E.
    + apply prefix_spec in E. destruct E as [post E].
      split; [intros _; now exists "", post | reflexivity].
    + rewrite IH. split.
      * intros (pre & post & H). exists (String c pre), post. cbn. now rewrite H.
      * intros (pre & post & H). destruct pre as [| d pre].
        -- assert (Hp : String.prefix needle (String c rest) = true)
             by (apply prefix_spec; now exists post).
           congruence.
        -- cbn in H. injection H as _ H. now exists pre, post.
Qed.

(** ** What [handleWebcamError] does to the world *)

Lemma handleWebcamError_world (error : JsThrown) (w : World) :
  handleWebcamError error w
  = (with_hooks
       (fun h =>
          {| showPermissionRequest := permission_class error || showPermissionRequest h;
             isLoading := false; cameraReady := cameraReady h;
             lastError := Some (errorMessage_of error);
             isRunning := isRunning h; cdnAvailable := cdnAvailable h |})
       (logged (ConsoleError "Webcam error:" error) w),
     Normal tt).
Proof.
  unfold handleWebcamError, permission_class, bind, when.
  destruct (includes "Permission" (errorMessage_of error)
            || includes "permission" (errorMessage_of error));
    reflexivity.
Qed.

Lemma permission_message_truthy (error : JsThrown) :
  permission_class error = true -> truthy (errorMessage_of error) = true.
Proof.
  unfold permission_class. destruct (errorMessage_of error); [discriminate |].
  reflexivity.
Qed.

(** X3.  [handleWebcamError] sends the user back to the permission gate
    exactly when the message of the error has "Permission" or "permission"
    somewhere in it; the test is case-sensitive, and an error that is neither
    a [DOMException] nor a string counts with the fixed message
    "Error accessing camera", which has neither. *)
Theorem gate_returns_iff_message_mentions_permission :
  forall (w : World) (error : JsThrown),
    showPermissionRequest (hooks w) = false ->
    (showPermissionRequest (hooks (fst (handleWebcamError error w))) = true
     <-> contains "Permission" (errorMessage_of error)
         \/ contains "permission" (errorMessage_of error))
    /\ (error = OtherValue \/ (exists m : string, error = ErrorObject m) ->
        showPermissionRequest (hooks (fst (handleWebcamError error w))) = false).
Proof.
  intros w error Hdown. rewrite handleWebcamError_world. cbn [fst].
  cbn [hooks with_hooks logged with_console showPermissionRequest].
  rewrite Hdown, orb_false_r. unfold permission_class. split.
  - rewrite orb_true_iff, !includes_spec. reflexivity.
  - intros [-> | [m ->]]; reflexivity.
Qed.

(** The camera is busy: not a matter of permission, the gate stays down. *)
Lemma gate_returns_iff_message_mentions_permission_witness :
  (showPermissionRequest (hooks (fst (handleWebcamError camera_in_use camera_ready)))
   = true
   <-> contains "Permission" (errorMessage_of camera_in_use)
       \/ contains "permission" (errorMessage_of camera_in_use))
  /\ (camera_in_use = OtherValue
      \/ (exists m : string, camera_in_use = ErrorObject m) ->
      showPermissionRequest (hooks (fst (handleWebcamError camera_in_use camera_ready)))
      = false).
Proof.
  apply (gate_returns_iff_message_mentions_permission camera_ready camera_in_use).
  reflexivity.
Defined.

(** X4.  [handleWebcamError] never throws and touches nothing of the
    session: the running flag, the ready flag, the availability flag, the
    refs, the detectors, the camera loops and the timers are as before.  It
    logs the error once, ends loading and keeps the message in [lastError];
    a gate that is up stays up.  When the gate is down afterwards the error
    overlay shows the message, unless the message is the empty string: then
    no overlay is shown. *)
Theorem webcam_error_is_shown_and_stops_nothing :
  forall (w : World) (error : JsThrown),
    snd (handleWebcamError error w) = Normal tt
    /\ console (fst (handleWebcamError error w))
       = console w ++ [ConsoleError "Webcam error:" error]
    /\ lastError (hooks (fst (handleWebcamError error w)))
       = Some (errorMessage_of error)
    /\ isLoading (hooks (fst (handleWebcamError error w))) = false
    /\ (showPermissionRequest (hooks w) = true ->
        showPermissionRequest (hooks (fst (handleWebcamError error w))) = true)
    /\ isRunning (hooks (fst (handleWebcamError error w))) = isRunning (hooks w)
    /\ cameraReady (hooks (fst (handleWebcamError error w))) = cameraReady (hooks w)
    /\ cdnAvailable (hooks (fst (handleWebcamError error w))) = cdnAvailable (hooks w)
    /\ faceMeshRef (fst (handleWebcamError error w)) = faceMeshRef w
    /\ cameraRef (fst (handleWebcamError error w)) = cameraRef w
    /\ detectors (fst (handleWebcamError error w)) = detectors w
    /\ loops (fst (handleWebcamError error w)) = loops w
    /\ timers (fst (handleWebcamError error w)) = timers w
    /\ (showPermissionRequest (hooks (fst (handleWebcamError error w))) = false ->
        errorOverlay (view (hooks (fst (handleWebcamError error w))))
        = if truthy (errorMessage_of error)
          then Some (errorMessage_of error) else None).
Proof.
  intros w error. rewrite handleWebcamError_world. cbn [fst snd].
  repeat (split; [reflexivity |]).
  split.
  - cbn. intros ->. apply orb_true_r.
  - repeat (split; [reflexivity |]).
    intros Hdown. unfold view. rewrite Hdown. reflexivity.
Qed.

(** X5.  After a permission-class error has brought the gate back, asking
    for the camera again does not clear [lastError]: the video layer comes
    back with the error overlay of the old message, and its Retry button,
    on top; the ready flag is as it was before the error. *)
Theorem old_error_is_shown_after_asking_again :
  forall (w : World) (error : JsThrown),
    permission_class error = true ->
    view (hooks (fst (handleWebcamError error w))) = gate_view
    /\ view (hooks (fst (handleRequestCameraAccess
                           (fst (handleWebcamError error w)))))
       = {| permissionGate := false;
            loadingOverlay := negb (cameraReady (hooks w));
            errorOverlay := Some (errorMessage_of error);
            videoLayer := true |}.
Proof.
  intros w error Hclass.
  pose proof (permission_message_truthy error Hclass) as Htruthy.
  rewrite handleWebcamError_world. cbn [fst].
  unfold handleRequestCameraAccess, bind, view. cbn. rewrite Hclass, Htruthy.
  split; reflexivity.
Qed.

(** The browser's prompt is dismissed on the first render's page, and the
    user asks again. *)
Lemma old_error_is_shown_after_asking_again_witness :
  view (hooks (fst (handleWebcamError permission_dismissed first_render)))
  = gate_view
  /\ view (hooks (fst (handleRequestCameraAccess
                         (fst (handleWebcamError permission_dismissed
                                 first_render)))))
     = {| permissionGate := false;
          loadingOverlay := negb (cameraReady (hooks first_render));
          errorOverlay := Some (errorMessage_of permission_dismissed);
          videoLayer := true |}.
Proof.
  apply (old_error_is_shown_after_asking_again first_render permission_dismissed).
  reflexivity.
Defined.

(* ================================================================= *)
(** * Further properties: the renderer *)

(** X6.  While the faces are drawn the context maps a point [(x, y)] to
    where the transform found on entry maps [(width - x, y)]: the overlay is
    flipped left to right across the canvas, and rows are kept.  On a context
    found with the identity, [(x, y)] lands on [(width - x, y)], so the left
    and right edges of the canvas change places. *)
Theorem overlay_is_drawn_flipped_left_to_right :
  forall (canvas : Canvas) (ctx : Context2D) (results : Results) (x y : Z),
    matrix_apply (transform (before_restore canvas ctx results)) (x, y)
    = matrix_apply (transform ctx) (width canvas - x, y)
    /\ (transform ctx = identity ->
        matrix_apply (transform (before_restore canvas ctx results)) (x, y)
        = (width canvas - x, y)
        /\ matrix_apply (transform (before_restore canvas ctx results)) (0, y)
           = (width canvas, y)
        /\ matrix_apply (transform (before_restore canvas ctx results))
             (width canvas, y)
           = (0, y)).
Proof.
  intros canvas ctx results x y.
  destruct (before_restore_state canvas ctx results) as [Ht _]. rewrite Ht.
  assert (Hflip : forall (m : Matrix) (px py : Z),
             matrix_apply (mirrored canvas m) (px, py)
             = matrix_apply m (width canvas - px, py)).
  { intros m px py. unfold matrix_apply, mirrored, matrix_translate, matrix_scale.
    cbn [m_a m_b m_c m_d m_e m_f fst snd]. f_equal; lia. }
  split; [apply Hflip |].
  intros ->. rewrite !Hflip. unfold matrix_apply, identity.
  cbn [m_a m_b m_c m_d m_e m_f fst snd].
  repeat split; f_equal; lia.
Qed.


Lemma painted_twice (w : World) (canvas : Canvas) (c1 c2 : Context2D) :
  painted (painted w canvas c1) canvas c2 = painted w canvas c2.
Proof. reflexivity. Qed.




(* ================================================================= *)
(** * Further properties: frames and the guard of a start *)

(** X8.  [onFrame] never throws.  It makes its send only when a detector is
    in [faceMeshRef] and a video element is mounted; otherwise, and when the
    send returns, it leaves the world exactly as it was, so a frame that
    arrives before a detector exists, or after the video has been unmounted,
    is dropped without a trace. *)
Theorem onFrame_drops_frames_it_cannot_send :
  forall (send : Outcome) (w : World),
    snd (onFrame send w) = Normal tt
    /\ (faceMeshRef w = None \/ current_video (webcamRef w) = None
        \/ send = Returns ->
        onFrame send w = (w, Normal tt))
    /\ (onFrame send w = (w, Normal tt)
        \/ exists error : JsThrown,
             send = Throws error
             /\ onFrame send w
                = (logged (ConsoleError "Error sending frame to facemesh:" error) w,
                   Normal tt)).
Proof.
  intros send w. unfold onFrame, bind, read, when, try_catch, external, modify,
    throw, ret, console_error.
  destruct (faceMeshRef w) as [fm |] eqn:Hf;
    destruct (current_video (webcamRef w)) as [v |] eqn:Hv;
    destruct send as [| error]; cbn;
    (split; [reflexivity |]);
    (split; [first [ intros _; reflexivity
                   | intros [H | [H | H]]; discriminate ] |]);
    first [ left; reflexivity | right; exists error; split; reflexivity ].
Qed.

(** X9.  A call of [startFaceMesh] made while the video element or the
    canvas is not mounted is a silent no-op: no state value changes, not
    even the loading flag, nothing is logged and nothing is constructed.
    The start effect tests the video element but not the canvas: with the
    canvas alone missing it logs "Starting face detection" and that is
    all. *)
Theorem start_without_video_or_canvas_does_nothing :
  forall (render : Hooks) (env : StartEnv) (w : World),
    (current_video (webcamRef w) = None \/ canvasRef w = None ->
     startFaceMesh render env w = (w, Normal tt))
    /\ (current_video (webcamRef w) = None ->
        startEffect render env w = (w, Normal tt))
    /\ (effect_condition render w ->
        canvasRef w = None ->
        startEffect render env w
        = (logged (ConsoleLog "Starting face detection") w, Normal tt)).
Proof.
  intros render env w. split; [| split].
  - intros Hmissing. unfold startFaceMesh, bind, read, ret.
    destruct (current_video (webcamRef w)) as [v |]; [| reflexivity].
    destruct Hmissing as [H | H]; [discriminate |]. now rewrite H.
  - intros Hvideo. apply startEffect_idle. intros (_ & _ & _ & H).
    rewrite Hvideo in H. discriminate.
  - intros Hcond Hcanvas. rewrite (startEffect_fires render env w Hcond).
    destruct Hcond as (_ & _ & _ & Hvideo).
    unfold bind at 1. unfold console_log, modify.
    fold (logged (ConsoleLog "Starting face detection") w).
    unfold startFaceMesh, bind, read, ret.
    cbn [webcamRef canvasRef logged with_console].
    destruct (current_video (webcamRef w)); [| discriminate].
    now rewrite Hcanvas.
Qed.

(* ================================================================= *)
(** * Further properties: the timers of the availability probe *)

Lemma find_cleared (id : nat) (l : list Timer) :
  find (fun t => Nat.eqb (timer_id t) id)
    (filter (fun t => negb (Nat.eqb (timer_id t) id)) l)
  = None.
Proof.
  induction l as [| a l IH]; cbn; [reflexivity |].
  destruct (Nat.eqb (timer_id a) id) eqn:E; cbn; [exact IH | now rewrite E].
Qed.

Lemma filter_older (n k : nat) (l : list Timer) :
  (forall t, In t l -> (timer_id t < n)%nat) ->
  (n <= k)%nat ->
  filter (fun t => negb (Nat.eqb (timer_id t) k)) l = l.
Proof.
  intros Hfresh Hk. induction l as [| a l IH]; cbn; [reflexivity |].
  destruct (Nat.eqb_spec (timer_id a) k) as [E | _]; cbn.
  - specialize (Hfresh a (or_introl eq_refl)). lia.
  - f_equal. apply IH. intros t Hin. apply Hfresh. now right.
Qed.

Lemma find_older (n k : nat) (l : list Timer) :
  (forall t, In t l -> (timer_id t < n)%nat) ->
  (n <= k)%nat ->
  find (fun t => Nat.eqb (timer_id t) k) l = None.
Proof.
  intros Hfresh Hk. induction l as [| a l IH]; cbn; [reflexivity |].
  destruct (Nat.eqb_spec (timer_id a) k) as [E | _].
  - specialize (Hfresh a (or_introl eq_refl)). lia.
  - apply IH. intros t Hin. apply Hfresh. now right.
Qed.

(** The timeout of the probe fires: it is spent, then its body runs. *)
Lemma fire_reload_timer (env : StartEnv) (id : nat) (w : World) :
  find (fun t => Nat.eqb (timer_id t) id) (timers w) = Some (reload_timer id) ->
  fire env id w = reloadScriptsIfUnavailable (fst (clear_timer id w)).
Proof.
  intros Hfind. unfold fire, bind, read. rewrite Hfind. reflexivity.
Qed.

Lemma reloadScripts_timers (w : World) :
  timers (fst (reloadScriptsIfUnavailable w)) = timers w
  /\ next_timer (fst (reloadScriptsIfUnavailable w)) = next_timer w.
Proof.
  unfold reloadScriptsIfUnavailable, checkMediaPipeAvailability, bind, read,
    when, setCdnAvailable, console_log, modify, ret.
  destruct (win_FaceMesh (window w) && win_Camera (window w)
            && win_drawConnectors (window w)); split; reflexivity.
Qed.

Lemma fire_spent (env : StartEnv) (id : nat) (w : World) :
  find (fun t => Nat.eqb (timer_id t) id) (timers w) = None ->
  fire env id w = (w, Normal tt).
Proof. intros Hfind. unfold fire, bind, read. now rewrite Hfind. Qed.

(** X10.  The 3000 ms timeout of the probe injects the scripts at most
    once.  When it fires it recomputes the flag; if one of the three globals
    is missing it logs the reload and appends to the document head the
    script elements of camera_utils, drawing_utils and face_mesh, in that
    order and with [crossOrigin] anonymous, and if all three are there it
    appends nothing and logs nothing.  Either way the timeout is spent:
    firing it again changes nothing, so the head never receives the scripts
    a second time from it. *)
Theorem scripts_are_injected_at_most_once :
  forall (env : StartEnv) (id : nat) (w : World),
    find (fun t => Nat.eqb (timer_id t) id) (timers w) = Some (reload_timer id) ->
    (all_three_present (window w) ->
     head (fst (fire env id w)) = head w
     /\ console (fst (fire env id w)) = console w
     /\ cdnAvailable (hooks (fst (fire env id w))) = true)
    /\ (~ all_three_present (window w) ->
        head (fst (fire env id w)) = head w ++ injected_scripts
        /\ console (fst (fire env id w))
           = console w
             ++ [ConsoleLog "MediaPipe not available after timeout, reloading scripts"]
        /\ cdnAvailable (hooks (fst (fire env id w))) = false)
    /\ timers (fst (fire env id w))
       = filter (fun t => negb (Nat.eqb (timer_id t) id)) (timers w)
    /\ (forall env' : StartEnv,
          fire env' id (fst (fire env id w)) = (fst (fire env id w), Normal tt)).
Proof.
  intros env id w Hfind. rewrite (fire_reload_timer env id w Hfind).
  assert (Htimers : timers (fst (reloadScriptsIfUnavailable (fst (clear_timer id w))))
                    = filter (fun t => negb (Nat.eqb (timer_id t) id)) (timers w)).
  { destruct (reloadScripts_timers (fst (clear_timer id w))) as [Ht _].
    rewrite Ht. reflexivity. }
  split; [| split; [| split]].
  - intros Hall. apply three_flags in Hall.
    unfold reloadScriptsIfUnavailable, checkMediaPipeAvailability, bind, read,
      when, setCdnAvailable, console_log, modify, ret.
    cbn [clear_timer fst window with_timers]. rewrite Hall. repeat split.
  - intros Hmissing.
    assert (Hflag : win_FaceMesh (window w) && win_Camera (window w)
                    && win_drawConnectors (window w) = false).
    { destruct (win_FaceMesh (window w) && win_Camera (window w)
                && win_drawConnectors (window w)) eqn:E; [| reflexivity].
      destruct Hmissing. now apply three_flags. }
    unfold reloadScriptsIfUnavailable, checkMediaPipeAvailability, bind, read,
      when, setCdnAvailable, console_log, modify, ret.
    cbn [clear_timer fst window with_timers]. rewrite Hflag. repeat split.
  - exact Htimers.
  - intros env'. apply fire_spent. rewrite Htimers. apply find_cleared.
Qed.

(** The timeout of [probing], where the drawing script is missing. *)
Lemma scripts_are_injected_at_most_once_witness :
  head (fst (fire all_return 1%nat probing)) = head probing ++ injected_scripts
  /\ console (fst (fire all_return 1%nat probing))
     = console probing
       ++ [ConsoleLog "MediaPipe not available after timeout, reloading scripts"]
  /\ cdnAvailable (hooks (fst (fire all_return 1%nat probing))) = false.
Proof.
  apply (proj1 (proj2 (scripts_are_injected_at_most_once
                         all_return 1%nat probing eq_refl))).
  intros (_ & _ & H). discriminate H.
Defined.

Lemma availabilityEffect_timers (w : World) :
  snd (availabilityEffect w) = Normal (next_timer w, S (next_timer w))
  /\ timers (fst (availabilityEffect w))
     = (timers w ++ [poll_timer (next_timer w)])
       ++ [reload_timer (S (next_timer w))]
  /\ next_timer (fst (availabilityEffect w)) = S (S (next_timer w)).
Proof. repeat split. Qed.

Lemma availabilityCleanup_timers (ids : nat * nat) (w : World) :
  timers (fst (availabilityCleanup ids w))
  = filter (fun t => negb (Nat.eqb (timer_id t) (snd ids)))
      (filter (fun t => negb (Nat.eqb (timer_id t) (fst ids))) (timers w)).
Proof. reflexivity. Qed.

Lemma cleared_after_mount (w : World) :
  fresh_timers w ->
  filter (fun t => negb (Nat.eqb (timer_id t) (S (next_timer w))))
    (filter (fun t => negb (Nat.eqb (timer_id t) (next_timer w)))
       ((timers w ++ [poll_timer (next_timer w)])
        ++ [reload_timer (S (next_timer w))]))
  = timers w.
Proof.
  intros Hfresh. rewrite !filter_app. cbn [filter poll_timer reload_timer timer_id].
  rewrite Nat.eqb_refl. cbn [negb app].
  replace (Nat.eqb (S (next_timer w)) (next_timer w)) with false
    by (symmetry; apply Nat.eqb_neq; lia).
  cbn [negb filter timer_id]. rewrite Nat.eqb_refl. cbn [negb].
  rewrite !app_nil_r.
  rewrite (filter_older (next_timer w) (next_timer w)) by (auto || lia).
  apply (filter_older (next_timer w)); [exact Hfresh | lia].
Qed.

(** X11.  Unmounting undoes what the mount effect of the probe registered.
    With timer ids handed out in order, the cleanup called with the two ids
    the effect returned leaves exactly the timers there were before the
    mount, whether or not the 3000 ms timeout has fired in between; after
    it neither of the two ids fires anything, so no poll and no script
    reload happens after the unmount. *)
Theorem cleanup_clears_the_timers_of_the_probe :
  forall (env : StartEnv) (w : World),
    fresh_timers w ->
    snd (availabilityEffect w) = Normal (next_timer w, S (next_timer w))
    /\ timers (fst (availabilityCleanup (next_timer w, S (next_timer w))
                      (fst (availabilityEffect w))))
       = timers w
    /\ timers (fst (availabilityCleanup (next_timer w, S (next_timer w))
                      (fst (fire env (S (next_timer w))
                              (fst (availabilityEffect w))))))
       = timers w
    /\ (forall (env' : StartEnv) (id : nat) (w' : World),
          timers w' = timers w ->
          id = next_timer w \/ id = S (next_timer w) ->
          fire env' id w' = (w', Normal tt)).
Proof.
  intros env w Hfresh.
  destruct (availabilityEffect_timers w) as (Hids & Ht & Hx).
  split; [exact Hids |]. split; [| split].
  - rewrite availabilityCleanup_timers, Ht. cbn [fst snd].
    now apply cleared_after_mount.
  - assert (Hfind : find (fun t => Nat.eqb (timer_id t) (S (next_timer w)))
                      (timers (fst (availabilityEffect w)))
                    = Some (reload_timer (S (next_timer w)))).
    { rewrite Ht. apply find_fresh; [| reflexivity].
      intros t Hin. apply in_app_or in Hin. destruct Hin as [Hin | [<- | []]].
      - specialize (Hfresh t Hin). lia.
      - cbn. lia. }
    rewrite availabilityCleanup_timers.
    rewrite (fire_reload_timer env _ _ Hfind).
    destruct (reloadScripts_timers
                (fst (clear_timer (S (next_timer w)) (fst (availabilityEffect w)))))
      as [Hr _].
    rewrite Hr. cbn [fst snd clear_timer with_timers timers].
    fold (timers (fst (availabilityEffect w))). rewrite Ht.
    set (l := (timers w ++ [poll_timer (next_timer w)])
              ++ [reload_timer (S (next_timer w))]).
    assert (Hcomm : filter (fun t => negb (Nat.eqb (timer_id t) (next_timer w)))
                      (filter (fun t => negb (Nat.eqb (timer_id t) (S (next_timer w)))) l)
                    = filter (fun t => negb (Nat.eqb (timer_id t) (S (next_timer w))))
                        (filter (fun t => negb (Nat.eqb (timer_id t) (next_timer w))) l)).
    { clear. induction l as [| a l IH]; cbn; [reflexivity |].
      destruct (Nat.eqb (timer_id a) (S (next_timer w))) eqn:E1,
               (Nat.eqb (timer_id a) (next_timer w)) eqn:E2; cbn;
        rewrite ?E1, ?E2; cbn; now rewrite IH. }
    rewrite Hcomm. unfold l. rewrite (cleared_after_mount w Hfresh).
    apply (filter_older (next_timer w)); [exact Hfresh | lia].
  - intros env' id w' Hsame Hid. apply fire_spent. rewrite Hsame.
    apply (find_older (next_timer w)); [exact Hfresh |].
    destruct Hid as [-> | ->]; lia.
Qed.

(** Mounting and unmounting the probe on the first render. *)
Lemma cleanup_clears_the_timers_of_the_probe_witness :
  timers (fst (availabilityCleanup (next_timer first_render, S (next_timer first_render))
                 (fst (availabilityEffect first_render))))
  = timers first_render.
Proof.
  apply (proj1 (proj2 (cleanup_clears_the_timers_of_the_probe
                         all_return first_render
                         (fun t (Hin : In t (timers first_render)) =>
                            match Hin with end)))).
Defined.

(* ================================================================= *)
(** * Further properties: a session from start to stop *)

(** The world a start leaves when it gets past the guard with the libraries
    available and its library calls return, however its promise settles. *)
Lemma start_settled_world (render : Hooks) (env : StartEnv) (s : Settlement)
    (w : World) (v : nat) :
  current_video (webcamRef w) = Some v ->
  is_some (canvasRef w) = true ->
  isRunning render = false ->
  cdnAvailable render = true ->
  first_failure env = None ->
  snd (start_and_settle render env s w) = Normal tt
  /\ detectors (fst (start_and_settle render env s w))
     = detectors w ++ [configured_detector]
  /\ loops (fst (start_and_settle render env s w))
     = loops w ++ [settled_loop v s]
  /\ faceMeshRef (fst (start_and_settle render env s w))
     = Some (List.length (detectors w))
  /\ cameraRef (fst (start_and_settle render env s w))
     = Some (List.length (loops w))
  /\ webcamRef (fst (start_and_settle render env s w)) = webcamRef w
  /\ canvasRef (fst (start_and_settle render env s w)) = canvasRef w
  /\ hooks (fst (start_and_settle render env s w))
     = {| showPermissionRequest := showPermissionRequest (hooks w);
          isLoading := false; cameraReady := cameraReady (hooks w);
          lastError := match s with
                       | Fulfilled => None
                       | Rejected error =>
                           Some (or_else (message_of error) "Failed to start camera")
                       end;
          isRunning := match s with
                       | Fulfilled => true
                       | Rejected _ => isRunning (hooks w)
                       end;
          cdnAvailable := cdnAvailable (hooks w) |}
  /\ console (fst (start_and_settle render env s w))
     = console w
       ++ [ ConsoleLog "Initializing FaceMesh";
            ConsoleLog "Creating camera instance";
            ConsoleLog "Starting camera";
            match s with
            | Fulfilled => ConsoleLog "Camera started successfully"
            | Rejected error => ConsoleError "Error starting camera:" error
            end ].
Proof.
  intros Hv Hc Hr Hcdn Hfail.
  revert Hfail. unfold first_failure, start_and_settle, settling, pending_start.
  run_js. rewrite Hv, Hc, Hr, Hcdn.
  destruct env as [o1 o2 o3 o4 o5]; cbn.
  destruct o1; [| discriminate]. destruct o2; [| discriminate].
  destruct o3; [| discriminate]. destruct o4; [| discriminate].
  destruct o5; [| discriminate]. intros _. cbn.
  rewrite !update_at_last, nth_error_last. cbn.
  destruct s; cbn; rewrite !update_at_last, <- !app_assoc; repeat split.
Qed.

(** X12.  A start that gets past the guard with the libraries available,
    whose library calls all return and whose promise is fulfilled, leaves
    one new detector, configured for one face with refined landmarks and
    both confidences at 0.5, the renderer registered as its listener; and
    one new camera loop, capturing the mounted video element at 640 by 480.
    The refs name the two, [isRunning] is true, loading has ended and an
    older error is cleared; four lines are logged and nothing else of the
    state changes. *)
Theorem successful_start_configures_the_session :
  forall (render : Hooks) (env : StartEnv) (w : World) (v : nat),
    current_video (webcamRef w) = Some v ->
    is_some (canvasRef w) = true ->
    isRunning render = false ->
    cdnAvailable render = true ->
    first_failure env = None ->
    snd (start_and_settle render env Fulfilled w) = Normal tt
    /\ detectors (fst (start_and_settle render env Fulfilled w))
       = detectors w ++ [configured_detector]
    /\ loops (fst (start_and_settle render env Fulfilled w))
       = loops w ++ [capturing_loop v]
    /\ faceMeshRef (fst (start_and_settle render env Fulfilled w))
       = Some (List.length (detectors w))
    /\ cameraRef (fst (start_and_settle render env Fulfilled w))
       = Some (List.length (loops w))
    /\ hooks (fst (start_and_settle render env Fulfilled w))
       = {| showPermissionRequest := showPermissionRequest (hooks w);
            isLoading := false; cameraReady := cameraReady (hooks w);
            lastError := None; isRunning := true;
            cdnAvailable := cdnAvailable (hooks w) |}
    /\ console (fst (start_and_settle render env Fulfilled w))
       = console w
         ++ [ ConsoleLog "Initializing FaceMesh";
              ConsoleLog "Creating camera instance";
              ConsoleLog "Starting camera";
              ConsoleLog "Camera started successfully" ].
Proof.
  intros render env w v Hv Hc Hr Hcdn Hfail.
  destruct (start_settled_world render env Fulfilled w v Hv Hc Hr Hcdn Hfail)
    as (Hn & Hd & Hl & Hfm & Hcam & _ & _ & Hh & Hlog).
  split; [exact Hn |]. split; [exact Hd |]. split; [exact Hl |].
  split; [exact Hfm |]. split; [exact Hcam |]. split; [exact Hh | exact Hlog].
Qed.

(** The start that made [running]. *)
Lemma successful_start_configures_the_session_witness :
  detectors running = detectors camera_ready ++ [configured_detector]
  /\ loops running = loops camera_ready ++ [capturing_loop O].
Proof.
  destruct (successful_start_configures_the_session
              camera_ready_hooks all_return camera_ready O
              eq_refl eq_refl eq_refl eq_refl eq_refl)
    as (_ & Hd & Hl & _).
  split; [exact Hd | exact Hl].
Defined.

(** ** Stopping after a start, however far the start got *)

Ltac nothing_built := split; left; split; reflexivity.

Lemma start_and_settle_built (render : Hooks) (env : StartEnv) (s : Settlement)
    (w : World) :
  built_by_start w (fst (start_and_settle render env s w)).
Proof.
  unfold built_by_start, start_and_settle, settling, pending_start. run_js.
  destruct (current_video (webcamRef w)) as [v |];
    [| cbn; rewrite nth_error_at_length; nothing_built].
  destruct (negb (is_some (canvasRef w)) || isRunning render);
    [cbn; rewrite nth_error_at_length; nothing_built |].
  destruct (cdnAvailable render); cbn;
    [| rewrite nth_error_at_length; nothing_built].
  destruct env as [o1 o2 o3 o4 o5]; cbn.
  destruct o1; cbn; [| rewrite nth_error_at_length; nothing_built].
  destruct o2; cbn;
    [| rewrite nth_error_at_length; cbn; rewrite ?update_at_last;
       split; [left; split; reflexivity | right; eexists; split; reflexivity]].
  destruct o3; cbn;
    [| rewrite nth_error_at_length; cbn; rewrite ?update_at_last;
       split; [left; split; reflexivity | right; eexists; split; reflexivity]].
  destruct o4; cbn;
    [| rewrite nth_error_at_length; cbn; rewrite ?update_at_last;
       split; [left; split; reflexivity | right; eexists; split; reflexivity]].
  destruct o5; cbn; rewrite ?update_at_last, nth_error_last; cbn.
  - destruct s; cbn; rewrite ?update_at_last;
      split; right; eexists; split; reflexivity.
  - rewrite ?update_at_last. split; right; eexists; split; reflexivity.
Qed.

Lemma stopFaceMesh_clean (stop : StopEnv) (w : World) :
  call_stop stop = Returns ->
  call_close stop = Returns ->
  snd (stopFaceMesh stop w) = Normal tt
  /\ loops (fst (stopFaceMesh stop w))
     = match cameraRef w with
       | Some cam => update_at cam (set_status Stopped) (loops w)
       | None => loops w
       end
  /\ detectors (fst (stopFaceMesh stop w))
     = match faceMeshRef w with
       | Some fm =>
           update_at fm
             (fun d => {| fm_options := fm_options d;
                          fm_listener := fm_listener d; fm_closed := true |})
             (detectors w)
       | None => detectors w
       end
  /\ isRunning (hooks (fst (stopFaceMesh stop w))) = false
  /\ cameraRef (fst (stopFaceMesh stop w)) = cameraRef w
  /\ faceMeshRef (fst (stopFaceMesh stop w)) = faceMeshRef w.
Proof.
  intros Hstop Hclose.
  unfold stopFaceMesh, try_catch, bind, read, camera_stop, faceMesh_close,
    external.
  rewrite Hstop, Hclose.
  destruct (cameraRef w) as [cam |] eqn:Hc; cbn;
    destruct (faceMeshRef w) as [fm |] eqn:Hf; cbn;
    repeat split; assumption.
Qed.

Lemma nth_error_beyond {A : Type} (l : list A) (i : nat) (x : A) :
  (List.length l <= i)%nat -> nth_error l i = Some x -> False.
Proof.
  intros Hi Hnth. apply nth_error_None in Hi. congruence.
Qed.

(** X13.  A stop whose [stop()] and [close()] return releases whatever the
    start before it constructed, however far that start got: whether it
    ended at the guard, failed at a library call, or had its promise
    fulfilled or rejected, after the stop every camera loop it constructed
    is stopped, every detector it constructed is closed, and [isRunning] is
    false. *)
Theorem stop_releases_what_the_start_constructed :
  forall (render : Hooks) (env : StartEnv) (s : Settlement) (stop : StopEnv)
         (w : World),
    call_stop stop = Returns ->
    call_close stop = Returns ->
    (forall (i : nat) (l : CameraLoop),
        (List.length (loops w) <= i)%nat ->
        nth_error
          (loops (fst (stopFaceMesh stop (fst (start_and_settle render env s w)))))
          i = Some l ->
        loop_status l = Stopped)
    /\ (forall (i : nat) (d : FaceMeshInstance),
          (List.length (detectors w) <= i)%nat ->
          nth_error
            (detectors
               (fst (stopFaceMesh stop (fst (start_and_settle render env s w)))))
            i = Some d ->
          fm_closed d = true)
    /\ isRunning
         (hooks (fst (stopFaceMesh stop (fst (start_and_settle render env s w)))))
       = false.
Proof.
  intros render env s stop w Hstop Hclose.
  destruct (start_and_settle_built render env s w) as [Hloops Hdetectors].
  set (w1 := fst (start_and_settle render env s w)) in *.
  destruct (stopFaceMesh_clean stop w1 Hstop Hclose) as (_ & Sl & Sd & Sr & _).
  split; [| split; [| exact Sr]].
  - intros i l Hi Hnth. rewrite Sl in Hnth.
    destruct Hloops as [[El Ec] | (l0 & El & Ec)].
    + exfalso. apply (nth_error_beyond _ i l) in Hnth; [exact Hnth |].
      destruct (cameraRef w1); rewrite ?update_at_length, El; exact Hi.
    + rewrite Ec, El, update_at_last in Hnth.
      apply nth_error_snoc in Hnth. destruct Hnth as [Hold | [_ ->]].
      * exfalso. exact (nth_error_beyond _ i l Hi Hold).
      * reflexivity.
  - intros i d Hi Hnth. rewrite Sd in Hnth.
    destruct Hdetectors as [[Ed Ef] | (d0 & Ed & Ef)].
    + exfalso. apply (nth_error_beyond _ i d) in Hnth; [exact Hnth |].
      destruct (faceMeshRef w1); rewrite ?update_at_length, Ed; exact Hi.
    + rewrite Ef, Ed, update_at_last in Hnth.
      apply nth_error_snoc in Hnth. destruct Hnth as [Hold | [_ ->]].
      * exfalso. exact (nth_error_beyond _ i d Hi Hold).
      * reflexivity.
Qed.

(** The start in [camera_ready] whose [new window.Camera] throws leaves an
    open detector behind; the stop closes it. *)
Lemma stop_releases_what_the_start_constructed_witness :
  map fm_closed (detectors half_started) = [false]
  /\ exists d : FaceMeshInstance,
       nth_error
         (detectors
            (fst (stopFaceMesh stop_returns
                    (fst (start_and_settle camera_ready_hooks camera_throws
                            Fulfilled camera_ready)))))
         O = Some d
       /\ fm_closed d = true.
Proof.
  split; [reflexivity |].
  eexists. split; [reflexivity |].
  apply (proj1 (proj2 (stop_releases_what_the_start_constructed
                         camera_ready_hooks camera_throws Fulfilled stop_returns
                         camera_ready eq_refl eq_refl))
           O);
    [cbn; lia | reflexivity].
Defined.

(* ================================================================= *)
(** * Further properties: Retry *)

Lemma stopFaceMesh_lastError (stop : StopEnv) (w : World) :
  lastError (hooks (fst (stopFaceMesh stop w))) = lastError (hooks w).
Proof.
  unfold stopFaceMesh, try_catch, bind, read, camera_stop, faceMesh_close,
    external.
  destruct (cameraRef w) as [cam |], (call_stop stop); cbn;
    destruct (faceMeshRef w) as [fm |], (call_close stop); reflexivity.
Qed.

Lemma retry_click_lastError (render : Hooks) (stop : StopEnv) (w : World) :
  lastError (hooks (fst (retry_click render stop w))) = None.
Proof.
  unfold retry_click, bind, when, setLastError, modify.
  destruct (isRunning render); [| reflexivity].
  cbn [fst]. now rewrite stopFaceMesh_lastError.
Qed.

(** X14.  A click on Retry never throws, whatever [stop()] and [close()]
    do.  It clears [lastError] at once, so the error overlay goes, and it
    registers exactly one new timer: a 500 ms timeout whose callback is the
    [startFaceMesh] of the render that was clicked.  Clicked in a render
    that is not running it calls neither [stop()] nor [close()]: apart from
    the cleared error and the timer the world is untouched. *)
Theorem retry_clears_the_error_and_schedules_one_start :
  forall (render : Hooks) (stop : StopEnv) (w : World),
    snd (handleRetry render stop w) = Normal (next_timer w)
    /\ lastError (hooks (fst (handleRetry render stop w))) = None
    /\ errorOverlay (view (hooks (fst (handleRetry render stop w)))) = None
    /\ timers (fst (handleRetry render stop w))
       = timers w ++ [retry_timer (next_timer w) render]
    /\ next_timer (fst (handleRetry render stop w)) = S (next_timer w)
    /\ (isRunning render = false ->
        fst (handleRetry render stop w)
        = with_timers (fun ts => ts ++ [retry_timer (next_timer w) render])
            (S (next_timer w)) (fst (setLastError None w))).
Proof.
  intros render stop w. rewrite handleRetry_unfold.
  destruct (retry_click_facts render stop w) as (_ & Ht & Hx & _).
  pose proof (retry_click_lastError render stop w) as He.
  unfold setTimeout, add_timer. cbn [fst snd]. rewrite Hx.
  split; [reflexivity |].
  split; [exact He |].
  split.
  { unfold view. cbn [hooks with_timers].
    destruct (showPermissionRequest (hooks (fst (retry_click render stop w))));
      [reflexivity |].
    cbn [errorOverlay]. now rewrite He. }
  split; [cbn [timers with_timers]; now rewrite Ht |].
  split; [reflexivity |].
  intros Hidle. now rewrite (retry_click_idle render stop w Hidle).
Qed.

(** X15.  The delayed start of a click on Retry is the [startFaceMesh] of
    the render that was clicked, and reads that render's state values, not
    the current ones.  Clicked in a render that was running, the session is
    stopped and, 500 ms later, the start returns at its guard: it constructs
    nothing and changes nothing, and only the timeout is spent.  Clicked in
    a render whose availability flag was false, the start fails with the
    "not available" message and constructs nothing, whatever the flag and
    the globals are by the time it runs. *)
Theorem retry_start_reads_the_clicked_render :
  forall (render : Hooks) (stop : StopEnv) (env : StartEnv) (w : World),
    fresh_timers w ->
    (isRunning render = true ->
     retry_and_start render stop env w
     = (with_timers (fun ts => ts) (S (next_timer w))
          (fst (stopFaceMesh stop (fst (setLastError None w)))),
        Normal tt)
     /\ List.length (loops (fst (retry_and_start render stop env w)))
        = List.length (loops w)
     /\ timers (fst (retry_and_start render stop env w)) = timers w)
    /\ (isRunning render = false ->
        cdnAvailable render = false ->
        is_some (current_video (webcamRef w)) = true ->
        is_some (canvasRef w) = true ->
        lastError (hooks (fst (retry_and_start render stop env w)))
        = Some unavailable_message
        /\ detectors (fst (retry_and_start render stop env w)) = detectors w
        /\ loops (fst (retry_and_start render stop env w)) = loops w).
Proof.
  intros render stop env w Hfresh.
  rewrite (retry_and_start_unfold render stop env w Hfresh).
  split.
  - intros Hrun. rewrite (startFaceMesh_running render env _ Hrun).
    rewrite (retry_click_running render stop w Hrun). cbn [fst].
    split; [reflexivity |].
    destruct (stopFaceMesh_timers stop (fst (setLastError None w))) as [Ht _].
    split.
    + cbn [loops with_timers]. now rewrite stopFaceMesh_loops_length.
    + cbn [timers with_timers]. now rewrite Ht.
  - intros Hidle Hcdn Hvideo Hcanvas.
    rewrite (retry_click_idle render stop w Hidle).
    set (w4 := with_timers (fun ts => ts) (S (next_timer w))
                 (fst (setLastError None w))).
    assert (Hguard : passes_guard render w4) by (repeat split; assumption).
    destruct (startFaceMesh_unavailable render w4 Hguard env Hcdn)
      as ((_ & Herr & _) & Hd & Hl & _).
    split; [exact Herr |]. split; [exact Hd | exact Hl].
Qed.

(** Retry clicked in the running session: after the delayed start the one
    camera loop is still the only one. *)
Lemma retry_start_reads_the_clicked_render_witness :
  List.length
    (loops (fst (retry_and_start (hooks running) stop_returns all_return running)))
  = List.length (loops running).
Proof.
  apply (proj1 (retry_start_reads_the_clicked_render
                  (hooks running) stop_returns all_return running
                  (fun t (Hin : In t (timers running)) => match Hin with end))).
  reflexivity.
Defined.

(* ================================================================= *)
(** * Further properties: unmounting *)

Lemma stopFaceMesh_no_active (stop : StopEnv) (w : World) :
  session_invariant w ->
  call_stop stop = Returns ->
  no_active (fst (stopFaceMesh stop w)).
Proof.
  intros [Hone _] Hstop.
  assert (Hloops : loops (fst (stopFaceMesh stop w))
                   = match cameraRef w with
                     | Some cam => update_at cam (set_status Stopped) (loops w)
                     | None => loops w
                     end).
  { unfold stopFaceMesh, try_catch, bind, read, camera_stop, faceMesh_close,
      external.
    rewrite Hstop.
    destruct (cameraRef w) as [cam |]; cbn;
      destruct (faceMeshRef w) as [fm |], (call_close stop); reflexivity. }
  intros i l Hi Hactive. rewrite Hloops in Hi.
  destruct (cameraRef w) as [cam |] eqn:Hc.
  - rewrite nth_error_update_at in Hi.
    destruct (Nat.eqb_spec cam i) as [-> | Hne].
    + destruct (nth_error (loops w) i); [| discriminate].
      cbn in Hi. injection Hi as <-. discriminate.
    + specialize (Hone i l Hi Hactive). congruence.
  - specialize (Hone i l Hi Hactive). discriminate.
Qed.

(** X16.  Unmounting ends the capture.  After any sequence of events in
    which every start's promise settles, and every click on Retry is
    followed by its delayed start, before the next event, the cleanup of
    the component leaves no camera loop capturing, provided the library's
    [stop()] returns; if [close()] returns as well, [isRunning] ends
    false. *)
Theorem unmount_leaves_no_loop_capturing :
  forall (ops : list Op) (stop : StopEnv) (w0 : World),
    loops w0 = [] ->
    timers w0 = [] ->
    call_stop stop = Returns ->
    no_active (step (CleanupRuns stop) (run ops w0))
    /\ (call_close stop = Returns ->
        isRunning (hooks (step (CleanupRuns stop) (run ops w0))) = false).
Proof.
  intros ops stop w0 Hloops Htimers Hstop.
  assert (Hord : orderly (run ops w0)).
  { apply run_orderly. split.
    - apply invariant_of_no_active.
      intros i l Hi. rewrite Hloops in Hi. destruct i; discriminate.
    - intros t Hin. rewrite Htimers in Hin. destruct Hin. }
  destruct Hord as [Hinv _]. cbn [step]. split.
  - now apply stopFaceMesh_no_active.
  - intros Hclose.
    now destruct (stopFaceMesh_clean stop (run ops w0) Hstop Hclose)
      as (_ & _ & _ & Hr & _).
Qed.

(** Granting access, the webcam loading, the session starting, a frame and
    its result, then the unmount. *)
Lemma unmount_leaves_no_loop_capturing_witness :
  isRunning
    (hooks (run [ RequestCameraAccess;
                  Remount (Some {| video := Some O |}) (Some overlay_canvas);
                  WebcamLoad; StartEffectRuns all_return Fulfilled;
                  FrameArrives Returns; ResultsArrive one_face ]
              first_render))
  = true
  /\ no_active
       (step (CleanupRuns stop_returns)
          (run [ RequestCameraAccess;
                 Remount (Some {| video := Some O |}) (Some overlay_canvas);
                 WebcamLoad; StartEffectRuns all_return Fulfilled;
                 FrameArrives Returns; ResultsArrive one_face ]
             first_render))
  /\ isRunning
       (hooks (step (CleanupRuns stop_returns)
                 (run [ RequestCameraAccess;
                        Remount (Some {| video := Some O |}) (Some overlay_canvas);
                        WebcamLoad; StartEffectRuns all_return Fulfilled;
                        FrameArrives Returns; ResultsArrive one_face ]
                    first_render)))
     = false.
Proof.
  split; [vm_compute; reflexivity |].
  destruct (unmount_leaves_no_loop_capturing
              [ RequestCameraAccess;
                Remount (Some {| video := Some O |}) (Some overlay_canvas);
                WebcamLoad; StartEffectRuns all_return Fulfilled;
                FrameArrives Returns; ResultsArrive one_face ]
              stop_returns first_render eq_refl eq_refl eq_refl)
    as [Hnone Hidle].
  split; [exact Hnone | exact (Hidle eq_refl)].
Defined.

(* ================================================================= *)
(** * Further properties: who moves the gate and the ready flag *)

(** ** Code that keeps the screen *)

Lemma keeps_screen_ret {A : Type} (a : A) : keeps_screen (ret a).
Proof. intros w. reflexivity. Qed.

Lemma keeps_screen_throw {A : Type} (e : JsThrown) : keeps_screen (@throw A e).
Proof. intros w. reflexivity. Qed.

Lemma keeps_screen_read {A : Type} (f : World -> A) : keeps_screen (read f).
Proof. intros w. reflexivity. Qed.

Lemma keeps_screen_bind {A B : Type} (c : M A) (k : A -> M B) :
  keeps_screen c -> (forall a, keeps_screen (k a)) -> keeps_screen (bind c k).
Proof.
  intros Hc Hk w. unfold bind. specialize (Hc w).
  destruct (c w) as [w' [a | e]]; cbn [fst] in *; [| exact Hc].
  now rewrite Hk.
Qed.

Lemma keeps_screen_try_catch {A : Type} (body : M A) (handler : JsThrown -> M A) :
  keeps_screen body -> (forall e, keeps_screen (handler e)) ->
  keeps_screen (try_catch body handler).
Proof.
  intros Hb Hh w. unfold try_catch. specialize (Hb w).
  destruct (body w) as [w' [a | e]]; cbn [fst] in *; [exact Hb |].
  now rewrite Hh.
Qed.

Lemma keeps_screen_when (b : bool) (c : M unit) :
  keeps_screen c -> keeps_screen (when b c).
Proof. intros Hc. destruct b; [exact Hc | apply keeps_screen_ret]. Qed.

Lemma keeps_screen_modify (f : World -> World) :
  (forall w, screen (hooks (f w)) = screen (hooks w)) -> keeps_screen (modify f).
Proof. intros Hf w. apply Hf. Qed.

Lemma keeps_screen_external (o : Outcome) (f : World -> World) :
  (forall w, screen (hooks (f w)) = screen (hooks w)) ->
  keeps_screen (external o f).
Proof.
  intros Hf. destruct o; [now apply keeps_screen_modify | apply keeps_screen_throw].
Qed.

(** One step through component code built from the monad's operations. *)
Ltac keeps_screen_step :=
  match goal with
  | |- keeps_screen (bind _ _) => apply keeps_screen_bind; [| intros ?]
  | |- keeps_screen (try_catch _ _) => apply keeps_screen_try_catch; [| intros ?]
  | |- keeps_screen (when _ _) => apply keeps_screen_when
  | |- keeps_screen (ret _) => apply keeps_screen_ret
  | |- keeps_screen (throw _) => apply keeps_screen_throw
  | |- keeps_screen (read _) => apply keeps_screen_read
  | |- keeps_screen (external _ _) =>
      apply keeps_screen_external; intros ?; reflexivity
  | |- keeps_screen (modify _) =>
      apply keeps_screen_modify; intros ?; reflexivity
  | |- keeps_screen (match ?x with _ => _ end) => destruct x
  end.

Ltac keeps_screen_auto := repeat keeps_screen_step.

Lemma keeps_screen_new_FaceMesh (o : Outcome) : keeps_screen (new_FaceMesh o).
Proof. destruct o; intros w; reflexivity. Qed.

Lemma keeps_screen_new_Camera (o : Outcome) (v : nat) (width height : Z) :
  keeps_screen (new_Camera o v width height).
Proof. destruct o; intros w; reflexivity. Qed.

Lemma keeps_screen_startFaceMesh (render : Hooks) (env : StartEnv) :
  keeps_screen (startFaceMesh render env).
Proof.
  unfold startFaceMesh, faceMesh_setOptions, faceMesh_onResults, camera_start,
    console_log, console_error, setIsLoading, setLastError.
  keeps_screen_auto;
    first [apply keeps_screen_new_FaceMesh | apply keeps_screen_new_Camera].
Qed.

Lemma keeps_screen_cameraStartSettled (cam : nat) (s : Settlement) :
  keeps_screen (cameraStartSettled cam s).
Proof.
  unfold cameraStartSettled, console_log, console_error, setIsRunning,
    setLastError, setIsLoading.
  keeps_screen_auto.
Qed.

Lemma keeps_screen_settling (c : M unit) (s : Settlement) :
  keeps_screen c -> keeps_screen (settling c s).
Proof.
  intros Hc w. unfold settling. specialize (Hc w).
  destruct (c w) as [w' [[] | e]]; cbn [fst] in *; [| exact Hc].
  destruct (pending_start w w') as [cam |]; [| exact Hc].
  now rewrite keeps_screen_cameraStartSettled.
Qed.

Lemma keeps_screen_stopFaceMesh (stop : StopEnv) :
  keeps_screen (stopFaceMesh stop).
Proof.
  unfold stopFaceMesh, camera_stop, faceMesh_close, console_error, setIsRunning.
  keeps_screen_auto.
Qed.

Lemma keeps_screen_startEffect (render : Hooks) (env : StartEnv) :
  keeps_screen (startEffect render env).
Proof.
  unfold startEffect, console_log. keeps_screen_auto.
  apply keeps_screen_startFaceMesh.
Qed.

Lemma keeps_screen_checkMediaPipeAvailability :
  keeps_screen checkMediaPipeAvailability.
Proof.
  unfold checkMediaPipeAvailability, setCdnAvailable. keeps_screen_auto.
Qed.

Lemma keeps_screen_add_timer (cb : TimerCallback) (ms : Z) (again : bool) :
  keeps_screen (add_timer cb ms again).
Proof. intros w. reflexivity. Qed.

Lemma keeps_screen_clear_timer (id : nat) : keeps_screen (clear_timer id).
Proof. intros w. reflexivity. Qed.

Lemma keeps_screen_fire (env : StartEnv) (id : nat) : keeps_screen (fire env id).
Proof.
  unfold fire, run_callback, reloadScriptsIfUnavailable, console_log.
  keeps_screen_auto;
    first [ apply keeps_screen_clear_timer
          | apply keeps_screen_checkMediaPipeAvailability
          | apply keeps_screen_startFaceMesh ].
Qed.

Lemma keeps_screen_retry_and_start (render : Hooks) (stop : StopEnv)
    (env : StartEnv) :
  keeps_screen (retry_and_start render stop env).
Proof.
  unfold retry_and_start, handleRetry, setTimeout, setLastError.
  keeps_screen_auto;
    first [ apply keeps_screen_stopFaceMesh | apply keeps_screen_add_timer
          | apply keeps_screen_fire ].
Qed.

Lemma keeps_screen_availabilityEffect : keeps_screen availabilityEffect.
Proof.
  unfold availabilityEffect, setInterval, setTimeout.
  keeps_screen_auto;
    first [ apply keeps_screen_checkMediaPipeAvailability
          | apply keeps_screen_add_timer ].
Qed.

Lemma keeps_screen_onFrame (send : Outcome) : keeps_screen (onFrame send).
Proof. intros w. now rewrite onFrame_hooks. Qed.

Lemma keeps_screen_onResults (results : Results) : keeps_screen (onResults results).
Proof.
  intros w. unfold onResults. destruct (canvasRef w) as [canvas |]; [| reflexivity].
  destruct (getContext canvas); reflexivity.
Qed.

(** What each event does to the gate and to the ready flag. *)
Lemma step_screen (op : Op) (w : World) :
  screen (hooks (step op w))
  = match op with
    | RequestCameraAccess => (false, cameraReady (hooks w))
    | WebcamLoad => (showPermissionRequest (hooks w), true)
    | WebcamError error =>
        (permission_class error || showPermissionRequest (hooks w),
         cameraReady (hooks w))
    | _ => screen (hooks w)
    end.
Proof.
  destruct op as [| | | error | win | id env s | webcam canvas | env s
                  | stop env s | stop | send | results]; cbn [step].
  - apply keeps_screen_availabilityEffect.
  - reflexivity.
  - reflexivity.
  - now rewrite handleWebcamError_world.
  - reflexivity.
  - apply keeps_screen_settling, keeps_screen_fire.
  - reflexivity.
  - apply keeps_screen_settling, keeps_screen_startEffect.
  - apply keeps_screen_settling, keeps_screen_retry_and_start.
  - apply keeps_screen_stopFaceMesh.
  - apply keeps_screen_onFrame.
  - apply keeps_screen_onResults.
Qed.

(** X17.  Only two things move the permission gate.  Asking for the camera
    takes it down, and a webcam error of the permission class puts it up;
    every other event (the probe and its timers, the webcam loading, a
    start and the settlement of its promise, a click on Retry and its
    delayed start, a stop, a frame, a result, a remount) leaves it where it
    was.  In particular no failure of a start, of a stop or of a frame send
    brings the gate back. *)
Theorem gate_moves_only_on_request_or_permission_error :
  forall (op : Op) (w : World),
    showPermissionRequest (hooks (step op w))
    = match op with
      | RequestCameraAccess => false
      | WebcamError error =>
          permission_class error || showPermissionRequest (hooks w)
      | _ => showPermissionRequest (hooks w)
      end.
Proof.
  intros op w.
  change (showPermissionRequest (hooks (step op w)))
    with (fst (screen (hooks (step op w)))).
  rewrite step_screen. destruct op; reflexivity.
Qed.

Lemma run_cons (op : Op) (ops : list Op) (w : World) :
  run (op :: ops) w = run ops (step op w).
Proof. reflexivity. Qed.

(** X18.  The ready flag of the capture surface is never reset.  Once the
    webcam has reported ready, [cameraReady] stays true through every
    sequence of events: through webcam errors, the return of the permission
    gate and a new mount of the webcam, a stop, a click on Retry.  So the
    "Loading camera..." overlay is never shown again, and the ready part of
    the start effect's test holds from then on. *)
Theorem camera_ready_is_never_reset :
  forall (ops : list Op) (w : World),
    cameraReady (hooks w) = true ->
    cameraReady (hooks (run ops w)) = true
    /\ loadingOverlay (view (hooks (run ops w))) = false.
Proof.
  intros ops w Hready.
  assert (Hstays : cameraReady (hooks (run ops w)) = true).
  { revert w Hready. induction ops as [| op ops IH]; intros w Hready;
      [exact Hready |].
    rewrite run_cons. apply IH.
    change (cameraReady (hooks (step op w)))
      with (snd (screen (hooks (step op w)))).
    rewrite step_screen. destruct op; cbn [snd screen]; auto. }
  split; [exact Hstays |].
  unfold view. destruct (showPermissionRequest (hooks (run ops w)));
    [reflexivity |].
  cbn [loadingOverlay]. rewrite Hstays. apply andb_false_r.
Qed.

(** The permission is withdrawn during the running session, the gate comes
    back, the user asks again and the webcam is mounted anew: no loading
    overlay. *)
Lemma camera_ready_is_never_reset_witness :
  cameraReady
    (hooks (run [ WebcamError permission_denied; Remount None None;
                  RequestCameraAccess;
                  Remount (Some {| video := Some 1%nat |}) (Some overlay_canvas) ]
              running))
  = true
  /\ loadingOverlay
       (view (hooks (run [ WebcamError permission_denied; Remount None None;
                           RequestCameraAccess;
                           Remount (Some {| video := Some 1%nat |})
                             (Some overlay_canvas) ]
                       running)))
     = false.
Proof.
  apply (camera_ready_is_never_reset
           [ WebcamError permission_denied; Remount None None;
             RequestCameraAccess;
             Remount (Some {| video := Some 1%nat |}) (Some overlay_canvas) ]
           running).
  reflexivity.
Defined.

(* ================================================================= *)
(** * Further properties: the main flow, and what a second start abandons *)

(** When the start effect fires, what follows is a start in the world with
    one more log line. *)
Lemma settling_startEffect (render : Hooks) (env : StartEnv) (s : Settlement)
    (w : World) :
  effect_condition render w ->
  settling (startEffect render env) s w
  = start_and_settle render env s
      (logged (ConsoleLog "Starting face detection") w).
Proof.
  intros Hcond. unfold start_and_settle, settling.
  rewrite (startEffect_fires render env w Hcond).
  unfold bind at 1. unfold console_log, modify.
  fold (logged (ConsoleLog "Starting face detection") w).
  reflexivity.
Qed.

(** X19.  The main flow reaches a running session.  From any world that is
    not running and whose availability flag is true: the user grants access
    (the loading overlay shows unless the webcam had reported ready before),
    the webcam and the canvas are mounted, the webcam reports ready, the
    start effect runs with library calls that return and the promise is
    fulfilled.  Then [isRunning] is true, the view is the video layer with
    neither gate nor loading overlay nor error overlay, and there is one new
    configured detector and one new camera loop capturing the mounted
    video. *)
Theorem granted_access_leads_to_a_running_session :
  forall (env : StartEnv) (w : World) (v : nat) (canvas : Canvas),
    isRunning (hooks w) = false ->
    cdnAvailable (hooks w) = true ->
    first_failure env = None ->
    loadingOverlay (view (hooks (run [RequestCameraAccess] w)))
    = negb (cameraReady (hooks w))
    /\ hooks (run (granted_and_loaded v canvas env) w)
       = {| showPermissionRequest := false; isLoading := false;
            cameraReady := true; lastError := None; isRunning := true;
            cdnAvailable := true |}
    /\ view (hooks (run (granted_and_loaded v canvas env) w))
       = {| permissionGate := false; loadingOverlay := false;
            errorOverlay := None; videoLayer := true |}
    /\ detectors (run (granted_and_loaded v canvas env) w)
       = detectors w ++ [configured_detector]
    /\ loops (run (granted_and_loaded v canvas env) w)
       = loops w ++ [capturing_loop v].
Proof.
  intros env w v canvas Hidle Hcdn Hfail.
  split; [reflexivity |].
  unfold granted_and_loaded, run. cbn [fold_left step].
  set (w3 := fst (handleWebcamLoad _)).
  assert (Hcond : effect_condition (hooks w3) w3) by (repeat split; assumption).
  rewrite (settling_startEffect (hooks w3) env Fulfilled w3 Hcond).
  destruct (start_settled_world (hooks w3) env Fulfilled
              (logged (ConsoleLog "Starting face detection") w3) v
              eq_refl eq_refl Hidle Hcdn Hfail)
    as (_ & Hd & Hl & _ & _ & _ & _ & Hh & _).
  assert (Hhooks : hooks (fst (start_and_settle (hooks w3) env Fulfilled
                                 (logged (ConsoleLog "Starting face detection") w3)))
                   = {| showPermissionRequest := false; isLoading := false;
                        cameraReady := true; lastError := None; isRunning := true;
                        cdnAvailable := true |}).
  { rewrite Hh. cbn [hooks logged with_console]. subst w3.
    unfold handleWebcamLoad, handleRequestCameraAccess, bind, console_log,
      setCameraReady, setIsLoading, setShowPermissionRequest, modify.
    cbn. now rewrite Hcdn. }
  split; [exact Hhooks |]. split; [now rewrite Hhooks |].
  split; [exact Hd | exact Hl].
Qed.

(** From the first render to a running session on video element 0. *)
Lemma granted_access_leads_to_a_running_session_witness :
  view (hooks (run (granted_and_loaded O overlay_canvas all_return) first_render))
  = {| permissionGate := false; loadingOverlay := false;
       errorOverlay := None; videoLayer := true |}
  /\ loops (run (granted_and_loaded O overlay_canvas all_return) first_render)
     = loops first_render ++ [capturing_loop O].
Proof.
  destruct (granted_access_leads_to_a_running_session
              all_return first_render O overlay_canvas eq_refl eq_refl eq_refl)
    as (_ & _ & Hview & _ & Hloops).
  split; [exact Hview | exact Hloops].
Defined.

Lemma nth_error_before_last {A : Type} (l : list A) (x y : A) :
  nth_error ((l ++ [x]) ++ [y]) (List.length l) = Some x.
Proof.
  rewrite nth_error_app1 by (rewrite length_app; cbn; lia).
  apply nth_error_last.
Qed.

(** X20.  A start overwrites the refs without releasing what they named.
    When a start's promise is rejected and a second start follows (the
    delayed start of a click on Retry does not stop a session that is not
    running, and neither does the start effect), the detector of the first
    start is never closed and its camera loop never stopped: the refs name
    the instances of the second start, and a later stop, even one whose
    [stop()] and [close()] return, reaches only those. *)
Theorem second_start_abandons_the_first_instances :
  forall (render1 render2 : Hooks) (env1 env2 : StartEnv) (error : JsThrown)
         (s : Settlement) (stop : StopEnv) (w : World) (v : nat),
    current_video (webcamRef w) = Some v ->
    is_some (canvasRef w) = true ->
    isRunning render1 = false -> cdnAvailable render1 = true ->
    first_failure env1 = None ->
    isRunning render2 = false -> cdnAvailable render2 = true ->
    first_failure env2 = None ->
    call_stop stop = Returns ->
    call_close stop = Returns ->
    faceMeshRef
      (fst (start_and_settle render2 env2 s
              (fst (start_and_settle render1 env1 (Rejected error) w))))
    = Some (S (List.length (detectors w)))
    /\ cameraRef
         (fst (start_and_settle render2 env2 s
                 (fst (start_and_settle render1 env1 (Rejected error) w))))
       = Some (S (List.length (loops w)))
    /\ nth_error
         (detectors
            (fst (stopFaceMesh stop
                    (fst (start_and_settle render2 env2 s
                            (fst (start_and_settle render1 env1 (Rejected error)
                                    w)))))))
         (List.length (detectors w))
       = Some configured_detector
    /\ fm_closed configured_detector = false
    /\ nth_error
         (loops
            (fst (stopFaceMesh stop
                    (fst (start_and_settle render2 env2 s
                            (fst (start_and_settle render1 env1 (Rejected error)
                                    w)))))))
         (List.length (loops w))
       = Some (settled_loop v (Rejected error)).
Proof.
  intros render1 render2 env1 env2 error s stop w v
    Hv Hc Hr1 Hcdn1 Hf1 Hr2 Hcdn2 Hf2 Hstop Hclose.
  destruct (start_settled_world render1 env1 (Rejected error) w v
              Hv Hc Hr1 Hcdn1 Hf1)
    as (_ & Hd1 & Hl1 & _ & _ & Hweb1 & Hcan1 & _).
  set (w1 := fst (start_and_settle render1 env1 (Rejected error) w)) in *.
  destruct (start_settled_world render2 env2 s w1 v)
    as (_ & Hd2 & Hl2 & Hfm2 & Hcam2 & _);
    try assumption; try (now rewrite Hweb1); try (now rewrite Hcan1).
  set (w2 := fst (start_and_settle render2 env2 s w1)) in *.
  destruct (stopFaceMesh_clean stop w2 Hstop Hclose) as (_ & Sl & Sd & _).
  rewrite Hd1, length_app in Hfm2. rewrite Hl1, length_app in Hcam2.
  cbn [List.length] in Hfm2, Hcam2. rewrite Nat.add_1_r in Hfm2, Hcam2.
  split; [exact Hfm2 |]. split; [exact Hcam2 |].
  split; [| split; [reflexivity |]].
  - rewrite Sd, Hfm2, nth_error_update_at.
    replace (Nat.eqb (S (List.length (detectors w))) (List.length (detectors w)))
      with false by (symmetry; apply Nat.eqb_neq; lia).
    rewrite Hd2, Hd1. apply nth_error_before_last.
  - rewrite Sl, Hcam2, nth_error_update_at.
    replace (Nat.eqb (S (List.length (loops w))) (List.length (loops w)))
      with false by (symmetry; apply Nat.eqb_neq; lia).
    rewrite Hl2, Hl1. apply nth_error_before_last.
Qed.

(** In [camera_ready]: the camera refuses to start, a second start
    succeeds, the session is stopped; the first detector is still open. *)
Lemma second_start_abandons_the_first_instances_witness :
  nth_error
    (detectors
       (fst (stopFaceMesh stop_returns
               (fst (start_and_settle camera_ready_hooks all_return Fulfilled
                       (fst (start_and_settle camera_ready_hooks all_return
                               (Rejected camera_in_use) camera_ready)))))))
    O
  = Some configured_detector.
Proof.
  apply (proj1 (proj2 (proj2 (second_start_abandons_the_first_instances
                                camera_ready_hooks camera_ready_hooks
                                all_return all_return camera_in_use Fulfilled
                                stop_returns camera_ready O
                                eq_refl eq_refl eq_refl eq_refl eq_refl
                                eq_refl eq_refl eq_refl eq_refl eq_refl)))).
Defined.

(* ================================================================= *)
(** * Further properties: a teardown cut short *)

(** X21.  [stop()] and [close()] share one [try] block with the reset of
    [isRunning].  When [stop()] returns and [close()] then throws, the
    camera loop has been stopped but the state values are untouched:
    [isRunning] keeps its value, the detector is not marked closed, and the
    failure is logged.  If the session was running it is still marked
    running, so the start effect and [startFaceMesh] of that state do
    nothing; and in a session where the only capturing loop was the one in
    [cameraRef], no loop captures any more. *)
Theorem failing_close_leaves_the_session_marked_running :
  forall (stop : StopEnv) (w : World) (fm : nat) (error : JsThrown),
    faceMeshRef w = Some fm ->
    call_stop stop = Returns ->
    call_close stop = Throws error ->
    loops (fst (stopFaceMesh stop w))
    = match cameraRef w with
      | Some cam => update_at cam (set_status Stopped) (loops w)
      | None => loops w
      end
    /\ detectors (fst (stopFaceMesh stop w)) = detectors w
    /\ hooks (fst (stopFaceMesh stop w)) = hooks w
    /\ console (fst (stopFaceMesh stop w))
       = console w ++ [ConsoleError "Error stopping face mesh:" error]
    /\ (isRunning (hooks w) = true ->
        forall env : StartEnv,
          startEffect (hooks (fst (stopFaceMesh stop w))) env
            (fst (stopFaceMesh stop w))
          = (fst (stopFaceMesh stop w), Normal tt)
          /\ startFaceMesh (hooks (fst (stopFaceMesh stop w))) env
               (fst (stopFaceMesh stop w))
             = (fst (stopFaceMesh stop w), Normal tt))
    /\ (session_invariant w -> no_active (fst (stopFaceMesh stop w))).
Proof.
  intros stop w fm error Hfm Hstop Hclose.
  assert (Hworld : loops (fst (stopFaceMesh stop w))
                   = match cameraRef w with
                     | Some cam => update_at cam (set_status Stopped) (loops w)
                     | None => loops w
                     end
                   /\ detectors (fst (stopFaceMesh stop w)) = detectors w
                   /\ hooks (fst (stopFaceMesh stop w)) = hooks w
                   /\ console (fst (stopFaceMesh stop w))
                      = console w ++ [ConsoleError "Error stopping face mesh:" error]).
  { unfold stopFaceMesh, try_catch, bind, read, camera_stop, faceMesh_close,
      external.
    rewrite Hstop, Hclose.
    destruct (cameraRef w) as [cam |]; cbn; rewrite Hfm; cbn; repeat split. }
  destruct Hworld as (Hl & Hd & Hh & Hc).
  split; [exact Hl |]. split; [exact Hd |]. split; [exact Hh |].
  split; [exact Hc |]. split.
  - intros Hrun env. rewrite Hh.
    split; [now apply startEffect_running | now apply startFaceMesh_running].
  - intros Hinv. now apply stopFaceMesh_no_active.
Qed.

(** The detector of the running session refuses to close. *)
Lemma failing_close_leaves_the_session_marked_running_witness :
  map loop_status
    (loops (fst (stopFaceMesh
                   {| call_stop := Returns;
                      call_close := Throws (ErrorObject "close failed") |}
                   running)))
  = [Stopped]
  /\ isRunning
       (hooks (fst (stopFaceMesh
                      {| call_stop := Returns;
                         call_close := Throws (ErrorObject "close failed") |}
                      running)))
     = true.
Proof.
  destruct (failing_close_leaves_the_session_marked_running
              {| call_stop := Returns;
                 call_close := Throws (ErrorObject "close failed") |}
              running O (ErrorObject "close failed") eq_refl eq_refl eq_refl)
    as (Hl & _ & Hh & _).
  split; [now rewrite Hl | now rewrite Hh].
Defined.

(* ================================================================= *)
(** * Further properties: the interval of [App] *)

Lemma filter_older_intervals (n k : nat) (l : list Interval) :
  (forall i, In i l -> (interval_id i < n)%nat) ->
  (n <= k)%nat ->
  filter (fun i => negb (Nat.eqb (interval_id i) k)) l = l.
Proof.
  intros Hfresh Hk. induction l as [| a l IH]; cbn; [reflexivity |].
  destruct (Nat.eqb_spec (interval_id a) k) as [E | _]; cbn.
  - specialize (Hfresh a (or_introl eq_refl)). lia.
  - f_equal. apply IH. intros i Hin. apply Hfresh. now right.
Qed.

(** X22.  The mount effect of [App] begins a check at once (the first HEAD
    request is out and [isCheckingCdn] is true) and registers one interval
    of 60000 ms that begins a new check each time it fires.  With interval
    ids handed out in order, the cleanup called with the id the effect
    returned leaves the intervals there were before the mount, and that id
    fires nothing afterwards; the cleanup does not touch the state values or
    the requests. *)
Theorem app_interval_is_registered_and_cleared :
  forall p : Page,
    fresh_intervals p ->
    snd (cdnEffect p) = next_interval p
    /\ requests (fst (fst (cdnEffect p)))
       = requests p
         ++ [{| request_url := "https://cdn.jsdelivr.net/npm/@mediapipe/face_mesh/face_mesh.js";
                request_method := "HEAD" |}]
    /\ isCheckingCdn (app_hooks (fst (fst (cdnEffect p)))) = true
    /\ intervals (fst (fst (cdnEffect p)))
       = intervals p
         ++ [{| interval_id := next_interval p; period_ms := 60000 |}]
    /\ interval_fires (next_interval p) (fst (fst (cdnEffect p)))
       = checkCdnAvailability (fst (fst (cdnEffect p)))
    /\ intervals (cdnCleanup (next_interval p) (fst (fst (cdnEffect p))))
       = intervals p
    /\ interval_fires (next_interval p)
         (cdnCleanup (next_interval p) (fst (fst (cdnEffect p))))
       = (cdnCleanup (next_interval p) (fst (fst (cdnEffect p))), Finished)
    /\ app_hooks (cdnCleanup (next_interval p) (fst (fst (cdnEffect p))))
       = app_hooks (fst (fst (cdnEffect p)))
    /\ requests (cdnCleanup (next_interval p) (fst (fst (cdnEffect p))))
       = requests (fst (fst (cdnEffect p))).
Proof.
  intros p Hfresh.
  set (q := fst (fst (cdnEffect p))).
  assert (Hq : intervals q
               = intervals p
                 ++ [{| interval_id := next_interval p; period_ms := 60000 |}])
    by reflexivity.
  assert (Hcleared : intervals (cdnCleanup (next_interval p) q) = intervals p).
  { unfold cdnCleanup. cbn [intervals]. rewrite Hq, filter_app. cbn [filter interval_id].
    rewrite Nat.eqb_refl. cbn [negb]. rewrite app_nil_r.
    apply (filter_older_intervals (next_interval p)); [exact Hfresh | lia]. }
  assert (Hnone : existsb (fun i => Nat.eqb (interval_id i) (next_interval p))
                    (intervals p) = false).
  { clear Hq Hcleared. unfold fresh_intervals in Hfresh.
    induction (intervals p) as [| a l IH]; [reflexivity |].
    cbn [existsb]. rewrite IH by (intros i Hin; apply Hfresh; now right).
    destruct (Nat.eqb_spec (interval_id a) (next_interval p)) as [E | _];
      [| reflexivity].
    specialize (Hfresh a (or_introl eq_refl)). lia. }
  split; [reflexivity |]. split; [reflexivity |]. split; [reflexivity |].
  split; [exact Hq |].
  split.
  { unfold interval_fires. rewrite Hq, existsb_app. cbn [existsb interval_id].
    now rewrite Nat.eqb_refl, orb_true_r. }
  split; [exact Hcleared |].
  split; [| split; reflexivity].
  unfold interval_fires. now rewrite Hcleared, Hnone.
Qed.

(** Mounting and unmounting [App] on its first page. *)
Lemma app_interval_is_registered_and_cleared_witness :
  intervals (cdnCleanup (next_interval first_page) (fst (fst (cdnEffect first_page))))
  = intervals first_page.
Proof.
  apply (proj1 (proj2 (proj2 (proj2 (proj2 (proj2
           (app_interval_is_registered_and_cleared first_page
              (fun i (Hin : In i (intervals first_page)) => match Hin with end)))))))).
Defined.

(* ================================================================= *)
(** * Further properties: how long an error stays, and what Retry skips *)

(** ** Code that keeps an error *)

Lemma keeps_error_ret {A : Type} (a : A) : keeps_error (ret a).
Proof. intros w H. exact H. Qed.

Lemma keeps_error_throw {A : Type} (e : JsThrown) : keeps_error (@throw A e).
Proof. intros w H. exact H. Qed.

Lemma keeps_error_read {A : Type} (f : World -> A) : keeps_error (read f).
Proof. intros w H. exact H. Qed.

Lemma keeps_error_bind {A B : Type} (c : M A) (k : A -> M B) :
  keeps_error c -> (forall a, keeps_error (k a)) -> keeps_error (bind c k).
Proof.
  intros Hc Hk w H. unfold bind. specialize (Hc w H).
  destruct (c w) as [w' [a | e]]; cbn [fst] in *; [| exact Hc].
  now apply Hk.
Qed.

Lemma keeps_error_try_catch {A : Type} (body : M A) (handler : JsThrown -> M A) :
  keeps_error body -> (forall e, keeps_error (handler e)) ->
  keeps_error (try_catch body handler).
Proof.
  intros Hb Hh w H. unfold try_catch. specialize (Hb w H).
  destruct (body w) as [w' [a | e]]; cbn [fst] in *; [exact Hb |].
  now apply Hh.
Qed.

Lemma keeps_error_when (b : bool) (c : M unit) :
  keeps_error c -> keeps_error (when b c).
Proof. intros Hc. destruct b; [exact Hc | apply keeps_error_ret]. Qed.

Lemma keeps_error_modify (f : World -> World) :
  (forall w, lastError (hooks w) <> None -> lastError (hooks (f w)) <> None) ->
  keeps_error (modify f).
Proof. intros Hf w. apply Hf. Qed.

Lemma keeps_error_external (o : Outcome) (f : World -> World) :
  (forall w, lastError (hooks w) <> None -> lastError (hooks (f w)) <> None) ->
  keeps_error (external o f).
Proof.
  intros Hf. destruct o; [now apply keeps_error_modify | apply keeps_error_throw].
Qed.

(** A change of the world that leaves [lastError] alone, or sets it. *)
Ltac error_kept := intros ? ?; first [assumption | discriminate].

Ltac keeps_error_step :=
  match goal with
  | |- keeps_error (bind _ _) => apply keeps_error_bind; [| intros ?]
  | |- keeps_error (try_catch _ _) => apply keeps_error_try_catch; [| intros ?]
  | |- keeps_error (when _ _) => apply keeps_error_when
  | |- keeps_error (ret _) => apply keeps_error_ret
  | |- keeps_error (throw _) => apply keeps_error_throw
  | |- keeps_error (read _) => apply keeps_error_read
  | |- keeps_error (external _ _) => apply keeps_error_external; error_kept
  | |- keeps_error (modify _) => apply keeps_error_modify; error_kept
  | |- keeps_error (match ?x with _ => _ end) => destruct x
  end.

Ltac keeps_error_auto := repeat keeps_error_step.

Lemma keeps_error_new_FaceMesh (o : Outcome) : keeps_error (new_FaceMesh o).
Proof. destruct o; intros w H; exact H. Qed.

Lemma keeps_error_new_Camera (o : Outcome) (v : nat) (width height : Z) :
  keeps_error (new_Camera o v width height).
Proof. destruct o; intros w H; exact H. Qed.

Lemma keeps_error_startFaceMesh (render : Hooks) (env : StartEnv) :
  keeps_error (startFaceMesh render env).
Proof.
  unfold startFaceMesh, faceMesh_setOptions, faceMesh_onResults, camera_start,
    console_log, console_error, setIsLoading, setLastError.
  keeps_error_auto;
    first [apply keeps_error_new_FaceMesh | apply keeps_error_new_Camera].
Qed.

Lemma keeps_error_rejected (cam : nat) (error : JsThrown) :
  keeps_error (cameraStartSettled cam (Rejected error)).
Proof.
  unfold cameraStartSettled, console_error, setLastError, setIsLoading.
  keeps_error_auto.
Qed.

Lemma keeps_error_settling (c : M unit) (error : JsThrown) :
  keeps_error c -> keeps_error (settling c (Rejected error)).
Proof.
  intros Hc w H. unfold settling. specialize (Hc w H).
  destruct (c w) as [w' [[] | e]]; cbn [fst] in *; [| exact Hc].
  destruct (pending_start w w') as [cam |]; [| exact Hc].
  now apply keeps_error_rejected.
Qed.

Lemma keeps_error_stopFaceMesh (stop : StopEnv) : keeps_error (stopFaceMesh stop).
Proof. intros w H. now rewrite stopFaceMesh_lastError. Qed.

Lemma keeps_error_startEffect (render : Hooks) (env : StartEnv) :
  keeps_error (startEffect render env).
Proof.
  unfold startEffect, console_log. keeps_error_auto.
  apply keeps_error_startFaceMesh.
Qed.

Lemma keeps_error_checkMediaPipeAvailability :
  keeps_error checkMediaPipeAvailability.
Proof.
  unfold checkMediaPipeAvailability, setCdnAvailable. keeps_error_auto.
Qed.

Lemma keeps_error_fire (env : StartEnv) (id : nat) : keeps_error (fire env id).
Proof.
  unfold fire, run_callback, reloadScriptsIfUnavailable, console_log.
  keeps_error_auto;
    first [ intros w H; exact H
          | apply keeps_error_checkMediaPipeAvailability
          | apply keeps_error_startFaceMesh ].
Qed.

(** X23.  An error stays until Retry or success.  Once [lastError] is set,
    the only events after which it is empty are a click on Retry and a start
    whose promise is fulfilled (made by the start effect or by a timer).
    The webcam loading, asking for the camera again, a frame, a result,
    the probe, a stop, a remount, a failed or rejected start: none of them
    clears it, and a webcam error replaces it. *)
Theorem error_stays_until_retry_or_success :
  forall (op : Op) (w : World),
    lastError (hooks w) <> None ->
    lastError (hooks (step op w)) = None ->
    (exists (stop : StopEnv) (env : StartEnv) (s : Settlement),
        op = RetryClicked stop env s)
    \/ (exists env : StartEnv, op = StartEffectRuns env Fulfilled)
    \/ (exists (id : nat) (env : StartEnv), op = TimerFires id env Fulfilled).
Proof.
  intros op w Hset Hcleared.
  destruct op as [| | | error | win | id env s | webcam canvas | env s
                  | stop env s | stop | send | results]; cbn [step] in Hcleared.
  - exfalso. revert Hcleared. apply (keeps_error_checkMediaPipeAvailability w Hset).
  - now destruct Hset.
  - now destruct Hset.
  - rewrite handleWebcamError_world in Hcleared. discriminate Hcleared.
  - now destruct Hset.
  - destruct s as [| e]; [right; right; now exists id, env |].
    exfalso. revert Hcleared.
    apply (keeps_error_settling _ e (keeps_error_fire env id) w Hset).
  - now destruct Hset.
  - destruct s as [| e]; [right; left; now exists env |].
    exfalso. revert Hcleared.
    apply (keeps_error_settling _ e (keeps_error_startEffect (hooks w) env) w Hset).
  - left. now exists stop, env, s.
  - exfalso. revert Hcleared. apply (keeps_error_stopFaceMesh stop w Hset).
  - rewrite onFrame_hooks in Hcleared. now destruct Hset.
  - exfalso. revert Hcleared. unfold onResults.
    destruct (canvasRef w) as [canvas |]; [| exact Hset].
    destruct (getContext canvas); exact Hset.
Qed.

(** The error overlay of [webcam_failed] goes with a click on Retry. *)
Lemma error_stays_until_retry_or_success_witness :
  lastError (hooks webcam_failed) = Some "Could not start video source"
  /\ ((exists (stop : StopEnv) (env : StartEnv) (s : Settlement),
          RetryClicked stop_returns all_return Fulfilled = RetryClicked stop env s)
      \/ (exists env : StartEnv,
            RetryClicked stop_returns all_return Fulfilled
            = StartEffectRuns env Fulfilled)
      \/ (exists (id : nat) (env : StartEnv),
            RetryClicked stop_returns all_return Fulfilled
            = TimerFires id env Fulfilled)).
Proof.
  split; [reflexivity |].
  apply (error_stays_until_retry_or_success
           (RetryClicked stop_returns all_return Fulfilled) webcam_failed).
  - discriminate.
  - vm_compute. reflexivity.
Defined.

(** A click on Retry in a render that is not running, followed by its
    delayed start and the settlement of the promise, is a start in the world
    with the error cleared. *)
Lemma settling_retry_idle (render : Hooks) (stop : StopEnv) (env : StartEnv)
    (s : Settlement) (w : World) :
  fresh_timers w ->
  isRunning render = false ->
  settling (retry_and_start render stop env) s w
  = start_and_settle render env s
      (with_timers (fun ts => ts) (S (next_timer w)) (fst (setLastError None w))).
Proof.
  intros Hfresh Hidle. unfold start_and_settle, settling.
  rewrite (retry_and_start_unfold render stop env w Hfresh).
  rewrite (retry_click_idle render stop w Hidle).
  reflexivity.
Qed.

(** X24.  Retry does not wait for the webcam.  The delayed start of a click
    on Retry is made whatever [cameraReady] is: with the video element and
    the canvas mounted, in a render that is not running and whose
    availability flag is true, it constructs a detector and a camera loop
    on the video element and calls [start()], even when the webcam has
    never reported ready (as after a webcam error); the ready flag and the
    webcam component are left as they were. *)
Theorem retry_does_not_wait_for_the_webcam :
  forall (render : Hooks) (stop : StopEnv) (env : StartEnv) (s : Settlement)
         (w : World) (v : nat),
    fresh_timers w ->
    current_video (webcamRef w) = Some v ->
    is_some (canvasRef w) = true ->
    isRunning render = false ->
    cdnAvailable render = true ->
    first_failure env = None ->
    detectors (fst (settling (retry_and_start render stop env) s w))
    = detectors w ++ [configured_detector]
    /\ loops (fst (settling (retry_and_start render stop env) s w))
       = loops w ++ [settled_loop v s]
    /\ cameraReady (hooks (fst (settling (retry_and_start render stop env) s w)))
       = cameraReady (hooks w)
    /\ webcamRef (fst (settling (retry_and_start render stop env) s w))
       = webcamRef w.
Proof.
  intros render stop env s w v Hfresh Hv Hc Hidle Hcdn Hfail.
  rewrite (settling_retry_idle render stop env s w Hfresh Hidle).
  set (w4 := with_timers (fun ts => ts) (S (next_timer w))
               (fst (setLastError None w))).
  destruct (start_settled_world render env s w4 v Hv Hc Hidle Hcdn Hfail)
    as (_ & Hd & Hl & _ & _ & Hweb & _ & Hh & _).
  split; [exact Hd |]. split; [exact Hl |].
  split; [now rewrite Hh | exact Hweb].
Qed.

(** Retry clicked on the error overlay of [webcam_failed]: the session
    starts on a video element whose webcam never reported ready. *)
Lemma retry_does_not_wait_for_the_webcam_witness :
  cameraReady (hooks webcam_failed) = false
  /\ loops (fst (settling (retry_and_start (hooks webcam_failed) stop_returns
                            all_return)
                   Fulfilled webcam_failed))
     = loops webcam_failed ++ [settled_loop O Fulfilled].
Proof.
  split; [reflexivity |].
  apply (proj1 (proj2 (retry_does_not_wait_for_the_webcam
                         (hooks webcam_failed) stop_returns all_return Fulfilled
                         webcam_failed O
                         (fun t (Hin : In t (timers webcam_failed)) =>
                            match Hin with end)
                         eq_refl eq_refl eq_refl eq_refl eq_refl))).
Defined.
